(** * opticode: the browser-side session store, the session hand-off and
      the result classifier

    A shallow embedding of [frontend/mockStorage.ts] (the [mockDb] object
    over [localStorage]) and of the two pure helpers and the mount effect
    of the optimizer page, together with the platform they run on:
    JavaScript values, [JSON.parse] / [JSON.stringify] and [localStorage].

    The callers of the store are embedded as well: the [mockAuth] object
    and the application shell of the same file, the rename handlers of
    the session title, the login form of [components/Layout.tsx], the
    optimizer page that works on [mockDb] and the two profile pages.  A
    component is a record of its React state; a handler is a computation
    over that record and [localStorage].

    Conventions of the platform model:
    - a JavaScript string is its sequence of UTF-16 code units ([list N]);
    - a number is finite and kept as the literal that denotes it (the
      double it rounds to is not computed); it is falsy when all its
      mantissa digits are zero; the engine writes a number as the
      shortest decimal of its double, the model as the literal, and
      the two agree on the literals that [canonical_number] accepts:
      the properties that compare a record before and after the store
      was rewritten are stated for records of such numbers;
    - an object is the list of its own properties in insertion order (the
      engine's reordering of integer-like keys is not modelled; nothing
      below depends on the order of keys);
    - [localStorage] is a finite map from keys to strings without quota. *)

From Stdlib Require Import String Ascii NArith DecimalString.
From stdpp Require Import gmap list.

Set Warnings "-register-all".

(** ** JavaScript strings and values *)

Abbreviation jsstring := (list N) (only parsing).

(** The code units of an ASCII literal. *)
Definition js (s : string) : jsstring :=
  N_of_ascii <$> list_ascii_of_string s.
Arguments js : simpl never.

Inductive value : Type :=
| VUndefined
| VNull
| VBool (b : bool)
| VNum (lit : jsstring)
| VStr (s : jsstring)
| VArr (elems : list value)
| VObj (props : list (jsstring * value)).

(** What a JavaScript expression evaluates to: a value or a thrown error. *)
Inductive error : Type := SyntaxError | TypeError.

Inductive outcome (A : Type) : Type :=
| Returns (a : A)
| Throws (e : error).
Arguments Returns {A} a.
Arguments Throws {A} e.

Definition is_digit (c : N) : bool := ((48 <=? c) && (c <=? 57))%N.

(** Number literal without sign, fraction digits and exponent all zero. *)
Fixpoint mantissa_zero (lit : jsstring) : bool :=
  match lit with
  | [] => true
  | c :: r =>
      if ((c =? 101) || (c =? 69))%N then true
      else if is_digit c && negb (c =? 48)%N then false
      else mantissa_zero r
  end.

(** ToBoolean. *)
Definition truthy (v : value) : bool :=
  match v with
  | VUndefined | VNull => false
  | VBool b => b
  | VNum lit => negb (mantissa_zero lit)
  | VStr s => match s with [] => false | _ => true end
  | VArr _ | VObj _ => true
  end.

(** [a || b] *)
Definition js_or (a b : value) : value := if truthy a then a else b.

(** Own property lookup, [o[k]] on an object's property list. *)
Fixpoint lookup_prop (k : jsstring) (ps : list (jsstring * value)) : value :=
  match ps with
  | [] => VUndefined
  | (k', x) :: r => if decide (k' = k) then x else lookup_prop k r
  end.

(** [v.k] for a property name [k] that no built-in prototype defines
    ([id], [name], ...): a TypeError on [null] and [undefined], the own
    property on an object, [undefined] on every other value. *)
Definition get_prop (v : value) (k : jsstring) : outcome value :=
  match v with
  | VUndefined | VNull => Throws TypeError
  | VObj ps => Returns (lookup_prop k ps)
  | _ => Returns VUndefined
  end.

(** Defining the data property [k] of an object: an existing property
    keeps its place and takes the new value, a new one is appended. *)
Fixpoint set_prop (k : jsstring) (x : value) (ps : list (jsstring * value))
  : list (jsstring * value) :=
  match ps with
  | [] => [(k, x)]
  | (k', y) :: r => if decide (k' = k) then (k, x) :: r else (k', y) :: set_prop k x r
  end.

(** ** JSON

    Code units named below: 9 tab, 10 line feed, 13 carriage return,
    32 space, 34 quotation mark, 43 plus, 44 comma, 45 minus, 46 full
    stop, 47 solidus, 48 to 57 the digits, 58 colon, 69 E, 91 and 93
    the square brackets, 92 reverse solidus, 98 b, 101 e, 102 f, 110 n,
    114 r, 116 t, 117 u, 123 and 125 the curly brackets. *)

Module JSON.

Definition hex_digit (d : N) : N := (if d <? 10 then 48 + d else 87 + d)%N.

Definition is_high (c : N) : bool := ((55296 <=? c) && (c <=? 56319))%N.
Definition is_low (c : N) : bool := ((56320 <=? c) && (c <=? 57343))%N.

(** [\uXXXX] with lower-case hexadecimal digits. *)
Definition unicode_escape (c : N) : jsstring :=
  [92; 117; hex_digit (c / 4096 mod 16); hex_digit (c / 256 mod 16);
   hex_digit (c / 16 mod 16); hex_digit (c mod 16)]%N.

(** The escape of a code unit that is never copied as it is. *)
Definition escape (c : N) : option jsstring :=
  (if c =? 8 then Some [92; 98]
   else if c =? 9 then Some [92; 116]
   else if c =? 10 then Some [92; 110]
   else if c =? 12 then Some [92; 102]
   else if c =? 13 then Some [92; 114]
   else if c =? 34 then Some [92; 34]
   else if c =? 92 then Some [92; 92]
   else if c <? 32 then Some (unicode_escape c)
   else None)%N.

(** QuoteJSONString, without the enclosing quotes. [after_high] tells
    that the previous code unit was a leading surrogate: a surrogate
    is copied when it is half of a pair and escaped when it is alone. *)
Fixpoint quote_chars (after_high : bool) (s : jsstring) : jsstring :=
  match s with
  | [] => []
  | c :: r =>
      match escape c with
      | Some e => e
      | None =>
          if is_high c then
            match r with
            | d :: _ => if is_low d then [c] else unicode_escape c
            | [] => unicode_escape c
            end
          else if is_low c then
            if after_high then [c] else unicode_escape c
          else [c]
      end ++ quote_chars (is_high c) r
  end.

Definition quote (s : jsstring) : jsstring :=
  [34%N] ++ quote_chars false s ++ [34%N].

(** SerializeJSONProperty: [None] stands for [undefined]. An array
    prints [null] for an element without a serialization, an object
    leaves such a property out. No indentation. *)
Fixpoint serialize (v : value) : option jsstring :=
  match v with
  | VUndefined => None
  | VNull => Some (js "null")
  | VBool true => Some (js "true")
  | VBool false => Some (js "false")
  | VNum lit => Some lit
  | VStr s => Some (quote s)
  | VArr l =>
      let fix elements (l : list value) : jsstring :=
        match l with
        | [] => []
        | x :: r =>
            default (js "null") (serialize x) ++
            match r with [] => [] | _ => [44%N] ++ elements r end
        end in
      Some ([91%N] ++ elements l ++ [93%N])
  | VObj ps =>
      let fix members (first : bool) (ps : list (jsstring * value)) : jsstring :=
        match ps with
        | [] => []
        | (k, x) :: r =>
            match serialize x with
            | Some t =>
                (if first then [] else [44%N]) ++ quote k ++ [58%N] ++ t
                ++ members false r
            | None => members first r
            end
        end in
      Some ([123%N] ++ members true ps ++ [125%N])
  end.

(** [JSON.stringify(v)] as the string [localStorage.setItem] receives:
    for [undefined], where [JSON.stringify] returns [undefined], that
    is the string spelling undefined. *)
Definition stringify (v : value) : jsstring :=
  default (js "undefined") (serialize v).

Definition is_ws (c : N) : bool :=
  ((c =? 32) || (c =? 9) || (c =? 10) || (c =? 13))%N.

Fixpoint skip_ws (s : jsstring) : jsstring :=
  match s with
  | c :: r => if is_ws c then skip_ws r else s
  | [] => []
  end.

Fixpoint span_digits (s : jsstring) : jsstring * jsstring :=
  match s with
  | c :: r =>
      if is_digit c then let '(ds, r') := span_digits r in (c :: ds, r')
      else ([], s)
  | [] => ([], [])
  end.

(** One or more digits. *)
Definition digits1 (s : jsstring) : option (jsstring * jsstring) :=
  match span_digits s with
  | ([], _) => None
  | p => Some p
  end.

(** A single zero, or digits that do not start with a zero. *)
Definition scan_int (s : jsstring) : option (jsstring * jsstring) :=
  match s with
  | c :: r => if (c =? 48)%N then Some ([c], r) else digits1 s
  | [] => None
  end.

Definition scan_frac (s : jsstring) : option (jsstring * jsstring) :=
  match s with
  | c :: r =>
      if (c =? 46)%N then '(ds, r') ← digits1 r; Some (c :: ds, r')
      else Some ([], s)
  | [] => Some ([], [])
  end.

Definition scan_exp (s : jsstring) : option (jsstring * jsstring) :=
  match s with
  | c :: r =>
      if ((c =? 101) || (c =? 69))%N then
        match r with
        | g :: r1 =>
            if ((g =? 43) || (g =? 45))%N
            then '(ds, r') ← digits1 r1; Some (c :: g :: ds, r')
            else '(ds, r') ← digits1 r; Some (c :: ds, r')
        | [] => None
        end
      else Some ([], s)
  | [] => Some ([], [])
  end.

Definition scan_sign (s : jsstring) : jsstring * jsstring :=
  match s with
  | c :: r => if (c =? 45)%N then ([c], r) else ([], s)
  | [] => ([], [])
  end.

(** The JSON number at the head of [s]: its literal and what follows. *)
Definition scan_number (s : jsstring) : option (jsstring * jsstring) :=
  let '(sg, s0) := scan_sign s in
  '(i, s1) ← scan_int s0;
  '(f, s2) ← scan_frac s1;
  '(e, s3) ← scan_exp s2;
  Some (sg ++ i ++ f ++ e, s3).

Definition hex_value (c : N) : option N :=
  (if is_digit c then Some (c - 48)
   else if (97 <=? c) && (c <=? 102) then Some (c - 87)
   else if (65 <=? c) && (c <=? 70) then Some (c - 55)
   else None)%N.

(** The code unit a one-letter escape stands for. *)
Definition unescape (e : N) : option N :=
  (if (e =? 34) || (e =? 92) || (e =? 47) then Some e
   else if e =? 98 then Some 8
   else if e =? 102 then Some 12
   else if e =? 110 then Some 10
   else if e =? 114 then Some 13
   else if e =? 116 then Some 9
   else None)%N.

(** The characters of a string literal after its opening quote, up to
    the closing quote. *)
Fixpoint parse_chars (s : jsstring) : option (jsstring * jsstring) :=
  match s with
  | [] => None
  | c :: r =>
      if (c =? 34)%N then Some ([], r)
      else if (c =? 92)%N then
        match r with
        | [] => None
        | e :: r1 =>
            if (e =? 117)%N then
              match r1 with
              | h1 :: h2 :: h3 :: h4 :: r2 =>
                  a ← hex_value h1; b ← hex_value h2;
                  c ← hex_value h3; d ← hex_value h4;
                  '(t, r') ← parse_chars r2;
                  Some ((a * 4096 + b * 256 + c * 16 + d)%N :: t, r')
              | _ => None
              end
            else
              u ← unescape e;
              '(t, r') ← parse_chars r1;
              Some (u :: t, r')
        end
      else if (c <? 32)%N then None
      else '(t, r') ← parse_chars r; Some (c :: t, r')
  end.

Definition expect (lit : jsstring) (v : value) (s : jsstring)
  : option (value * jsstring) :=
  if decide (take (length lit) s = lit) then Some (v, drop (length lit) s)
  else None.

(** Recursive descent on the JSON grammar. Each call uses one unit of
    [fuel]; two calls in a row read at least one character. *)
Fixpoint parse_value (fuel : nat) (s : jsstring) : option (value * jsstring) :=
  match fuel with
  | O => None
  | S fuel =>
      match skip_ws s with
      | [] => None
      | c :: r =>
          if (c =? 34)%N then '(t, r') ← parse_chars r; Some (VStr t, r')
          else if (c =? 91)%N then
            match skip_ws r with
            | [] => None
            | d :: r' =>
                if (d =? 93)%N then Some (VArr [], r')
                else parse_elements fuel (d :: r') []
            end
          else if (c =? 123)%N then
            match skip_ws r with
            | [] => None
            | d :: r' =>
                if (d =? 125)%N then Some (VObj [], r')
                else parse_members fuel (d :: r') []
            end
          else if (c =? 116)%N then expect (js "true") (VBool true) (c :: r)
          else if (c =? 102)%N then expect (js "false") (VBool false) (c :: r)
          else if (c =? 110)%N then expect (js "null") VNull (c :: r)
          else '(lit, r') ← scan_number (c :: r); Some (VNum lit, r')
      end
  end
with parse_elements (fuel : nat) (s : jsstring) (acc : list value)
  : option (value * jsstring) :=
  match fuel with
  | O => None
  | S fuel =>
      '(x, r) ← parse_value fuel s;
      match skip_ws r with
      | [] => None
      | d :: r' =>
          if (d =? 44)%N then parse_elements fuel r' (acc ++ [x])
          else if (d =? 93)%N then Some (VArr (acc ++ [x]), r')
          else None
      end
  end
with parse_members (fuel : nat) (s : jsstring) (acc : list (jsstring * value))
  : option (value * jsstring) :=
  match fuel with
  | O => None
  | S fuel =>
      match skip_ws s with
      | [] => None
      | q :: r =>
          if (q =? 34)%N then
            '(k, r1) ← parse_chars r;
            match skip_ws r1 with
            | [] => None
            | c :: r2 =>
                if (c =? 58)%N then
                  '(x, r3) ← parse_value fuel r2;
                  match skip_ws r3 with
                  | [] => None
                  | d :: r' =>
                      if (d =? 44)%N then parse_members fuel r' (set_prop k x acc)
                      else if (d =? 125)%N then Some (VObj (set_prop k x acc), r')
                      else None
                  end
                else None
            end
          else None
      end
  end.

(** [JSON.parse(s)]: [None] is a thrown SyntaxError. *)
Definition parse (s : jsstring) : option value :=
  '(v, r) ← parse_value (2 * length s + 2) s;
  match skip_ws r with [] => Some v | _ => None end.

(** A number literal of the JSON grammar. *)
Definition number_literal (lit : jsstring) : Prop :=
  scan_number lit = Some (lit, []).

End JSON.

(** A value as the engine can hold it: number literals are JSON numbers
    and an object has no two properties of the same name. *)
Fixpoint wf (v : value) : bool :=
  match v with
  | VNum lit => bool_decide (JSON.number_literal lit)
  | VArr l => forallb wf l
  | VObj ps => bool_decide (NoDup ps.*1) && forallb (λ p, wf p.2) ps
  | _ => true
  end.

(** A value of the JSON data model: well formed and free of [undefined]. *)
Fixpoint json (v : value) : bool :=
  match v with
  | VUndefined => false
  | VNum lit => bool_decide (JSON.number_literal lit)
  | VArr l => forallb json l
  | VObj ps => bool_decide (NoDup ps.*1) && forallb (λ p, json p.2) ps
  | _ => true
  end.

(** What [JSON.parse(JSON.stringify(v))] makes of a value: an
    [undefined] array element becomes [null], an [undefined] property
    disappears; [None] for [undefined] itself. *)
Fixpoint jsonify (v : value) : option value :=
  match v with
  | VUndefined => None
  | VArr l => Some (VArr ((λ x, default VNull (jsonify x)) <$> l))
  | VObj ps => Some (VObj (omap (λ p, pair p.1 <$> jsonify p.2) ps))
  | _ => Some v
  end.

(** ** Numbers that a rewrite keeps

    [JSON.parse] rounds a number literal to a double, and
    [JSON.stringify] writes a double as the shortest decimal that
    rounds to it: the text 1.0 is written back as 1, the text 1e999
    (which rounds to Infinity) as null, and -0 as 0. The model writes
    the literal back. Engine and model agree on the literals accepted
    here: a decimal without exponent, of at most fifteen digits, whose
    integer part has no leading zero and whose fraction has no trailing
    zero, not below 0.000001 in magnitude unless it is 0, and not a
    negative zero. Two different decimals of at most fifteen significant
    digits round to different doubles, so such a literal is the shortest
    decimal of its double; and a double from 0.000001 up to 1e21 is
    written without exponent. *)

(** Digits: a single digit, or more that do not start with a zero. *)
Definition canonical_int (i : jsstring) : bool :=
  match i with
  | [] => false
  | [c] => is_digit c
  | c :: _ => forallb is_digit i && negb (c =? 48)%N
  end.

Fixpoint leading_zeros (f : jsstring) : nat :=
  match f with
  | c :: r => if (c =? 48)%N then S (leading_zeros r) else 0
  | [] => 0
  end.

(** The part after the sign: integer digits, and a fraction or nothing. *)
Definition canonical_unsigned (s : jsstring) : bool :=
  let '(i, r) := JSON.span_digits s in
  canonical_int i &&
  match r with
  | [] => length i <=? 15
  | c :: f =>
      (c =? 46)%N && forallb is_digit f &&
      match last f with Some d => negb (d =? 48)%N | None => false end &&
      (length i + length f <=? 15) &&
      (negb (bool_decide (i = [48%N])) || (leading_zeros f <=? 5))
  end.

Definition canonical_number (lit : jsstring) : bool :=
  match lit with
  | c :: r =>
      if (c =? 45)%N
      then canonical_unsigned r && negb (bool_decide (r = [48%N]))
      else canonical_unsigned lit
  | [] => false
  end.

(** Every number of the value is written as [canonical_number] has it. *)
Fixpoint canonical (v : value) : bool :=
  match v with
  | VNum lit => canonical_number lit
  | VArr l => forallb canonical l
  | VObj ps => forallb (λ p, canonical p.2) ps
  | _ => true
  end.

(** ** Statements that read and write a store and may throw *)

(** A computation over a store [S]: its outcome and the store it leaves.
    A thrown error keeps the writes made before it. *)
Definition M (S A : Type) : Type := S → outcome A * S.

#[global] Instance M_ret {S} : MRet (M S) := λ A a st, (Returns a, st).

#[global] Instance M_bind {S} : MBind (M S) := λ A B f c st,
  match c st with
  | (Returns a, st') => f a st'
  | (Throws e, st') => (Throws e, st')
  end.

(** The outcome of a pure expression, as a statement. *)
Definition eval {S A} (o : outcome A) : M S A := λ st, (o, st).

(** [try { body } catch { handler }] *)
Definition try_catch {S A} (body : M S A) (handler : error → M S A) : M S A :=
  λ st, match body st with
        | (Returns a, st') => (Returns a, st')
        | (Throws e, st') => handler e st'
        end.

#[global] Instance outcome_ret : MRet outcome := @Returns.

#[global] Instance outcome_bind : MBind outcome := λ A B f o,
  match o with
  | Returns a => f a
  | Throws e => Throws e
  end.

(** ** Operators and built-ins *)

(** [a === b]. Two numbers are compared by their literals. An array or
    an object equals only itself: every comparison below is between
    values of different origin (one read from the store, one passed by
    the caller), hence [false]. *)
Definition strict_eq (a b : value) : bool :=
  match a, b with
  | VUndefined, VUndefined | VNull, VNull => true
  | VBool x, VBool y => bool_decide (x = y)
  | VNum x, VNum y => bool_decide (x = y)
  | VStr x, VStr y => bool_decide (x = y)
  | _, _ => false
  end.

(** ToString, as a template literal applies it. *)
Fixpoint ToString (v : value) : jsstring :=
  match v with
  | VUndefined => js "undefined"
  | VNull => js "null"
  | VBool true => js "true"
  | VBool false => js "false"
  | VNum lit => lit
  | VStr s => s
  | VArr l =>
      let fix join (l : list value) : jsstring :=
        match l with
        | [] => []
        | x :: r =>
            match x with VUndefined | VNull => [] | _ => ToString x end ++
            match r with [] => [] | _ => [44%N] ++ join r end
        end in
      join l
  | VObj _ => js "[object Object]"
  end.

(** The code points of a string, as its iterator yields them. *)
Fixpoint code_points (s : jsstring) : list jsstring :=
  match s with
  | [] => []
  | c :: r =>
      match r with
      | d :: r' =>
          if JSON.is_high c && JSON.is_low d then [c; d] :: code_points r'
          else [c] :: code_points r
      | [] => [[c]]
      end
  end.

(** [...v] inside an array literal. *)
Definition spread (v : value) : outcome (list value) :=
  match v with
  | VArr l => Returns l
  | VStr s => Returns (VStr <$> code_points s)
  | _ => Throws TypeError
  end.

Definition index_key (i : nat) : jsstring :=
  js (NilZero.string_of_uint (Nat.to_uint i)).

(** [...v] inside an object literal: the own enumerable properties. *)
Definition own_props (v : value) : list (jsstring * value) :=
  match v with
  | VObj ps => ps
  | VArr l => imap (λ i x, (index_key i, x)) l
  | VStr s => imap (λ i c, (index_key i, VStr [c])) s
  | _ => []
  end.

Module Array.

Fixpoint map_list (f : value → outcome value) (l : list value)
  : outcome (list value) :=
  match l with
  | [] => Returns []
  | x :: r => y ← f x; t ← map_list f r; Returns (y :: t)
  end.

Fixpoint filter_list (p : value → outcome bool) (l : list value)
  : outcome (list value) :=
  match l with
  | [] => Returns []
  | x :: r => b ← p x; t ← filter_list p r; Returns (if b : bool then x :: t else t)
  end.

Fixpoint find_list (p : value → outcome bool) (l : list value)
  : outcome value :=
  match l with
  | [] => Returns VUndefined
  | x :: r => b ← p x; if b : bool then Returns x else find_list p r
  end.

Fixpoint every_list {A} (p : A → bool) (l : list A) : bool :=
  match l with
  | [] => true
  | x :: r => if p x then every_list p r else false
  end.

(** [a.map(f)], [a.filter(p)], [a.find(p)]: only an array has the
    method; on any other value the call is a TypeError. *)
Definition map (f : value → outcome value) (a : value) : outcome value :=
  match a with
  | VArr l => l' ← map_list f l; Returns (VArr l')
  | _ => Throws TypeError
  end.

Definition filter (p : value → outcome bool) (a : value) : outcome value :=
  match a with
  | VArr l => l' ← filter_list p l; Returns (VArr l')
  | _ => Throws TypeError
  end.

Definition find (p : value → outcome bool) (a : value) : outcome value :=
  match a with
  | VArr l => find_list p l
  | _ => Throws TypeError
  end.

End Array.

(** [Map]: entries in insertion order, keys compared by SameValueZero
    (which is [===] on the values of this model). *)
Module Map.

Fixpoint set (k x : value) (m : list (value * value)) : list (value * value) :=
  match m with
  | [] => [(k, x)]
  | (k', y) :: r => if strict_eq k' k then (k', x) :: r else (k', y) :: set k x r
  end.

(** An element [[k, x]] of the iterable given to the constructor. *)
Definition entry (e : value) : value * value :=
  match e with
  | VArr (k :: x :: _) => (k, x)
  | VArr [k] => (k, VUndefined)
  | _ => (VUndefined, VUndefined)
  end.

(** [new Map(entries)] *)
Definition new (entries : list (value * value)) : list (value * value) :=
  foldl (λ m e, set e.1 e.2 m) [] entries.

Fixpoint get (m : list (value * value)) (k : value) : value :=
  match m with
  | [] => VUndefined
  | (k', y) :: r => if strict_eq k' k then y else get r k
  end.

End Map.

(** ** localStorage *)

Module localStorage.

Definition getItem (key : jsstring) : M (gmap jsstring jsstring) (option jsstring) :=
  λ ls, (Returns (ls !! key), ls).

Definition setItem (key val : jsstring) : M (gmap jsstring jsstring) unit :=
  λ ls, (Returns (), <[key := val]> ls).

Definition removeItem (key : jsstring) : M (gmap jsstring jsstring) unit :=
  λ ls, (Returns (), delete key ls).

End localStorage.

(** [JSON.parse] as an expression. *)
Definition JSON_parse (s : jsstring) : outcome value :=
  match JSON.parse s with
  | Some v => Returns v
  | None => Throws SyntaxError
  end.

(** ** frontend/mockStorage.ts *)

Definition HISTORY_STORAGE_KEY : jsstring := js "opticode_projects_history".
Definition SAVED_SNIPPETS_KEY : jsstring := js "opticode_saved_snippets".

Module mockDb.

Definition getHistory : M (gmap jsstring jsstring) value :=
  rawData ← localStorage.getItem HISTORY_STORAGE_KEY;
  match rawData with
  | Some (c :: r) => eval (JSON_parse (c :: r))
  | _ => mret (VArr [])
  end.

Definition getSavedSnippets : M (gmap jsstring jsstring) value :=
  rawData ← localStorage.getItem SAVED_SNIPPETS_KEY;
  match rawData with
  | Some (c :: r) => eval (JSON_parse (c :: r))
  | _ => mret (VArr [])
  end.

(** [random] is what [Math.random().toString(36).substring(2, 9)]
    yields at this call. *)
Definition saveToHistory (random : jsstring) (data : value)
  : M (gmap jsstring jsstring) value :=
  history ← getHistory;
  data_id ← eval (get_prop data (js "id"));
  let id := js_or data_id (VStr random) in
  data_name ← eval (get_prop data (js "name"));
  let name := js_or data_name (VStr (js "Session-" ++ ToString id)) in
  let itemWithId :=
    VObj (set_prop (js "name") name (set_prop (js "id") id (own_props data))) in
  rest ← eval (spread history);
  let newHistory := VArr (itemWithId :: rest) in
  localStorage.setItem HISTORY_STORAGE_KEY (JSON.stringify newHistory);;
  mret itemWithId.

(** [item => item.id === id ? { ...item, name: newName } : item] *)
Definition rename (id newName : jsstring) (item : value) : outcome value :=
  item_id ← get_prop item (js "id");
  if strict_eq item_id (VStr id)
  then Returns (VObj (set_prop (js "name") (VStr newName) (own_props item)))
  else Returns item.

Definition updateProjectName (id newName : jsstring)
  : M (gmap jsstring jsstring) unit :=
  history ← getHistory;
  updatedHistory ← eval (Array.map (rename id newName) history);
  localStorage.setItem HISTORY_STORAGE_KEY (JSON.stringify updatedHistory);;
  saved ← getSavedSnippets;
  updatedSaved ← eval (Array.map (rename id newName) saved);
  localStorage.setItem SAVED_SNIPPETS_KEY (JSON.stringify updatedSaved).

(** [item => item.id === data.id] *)
Definition same_id (data item : value) : outcome bool :=
  item_id ← get_prop item (js "id");
  data_id ← get_prop data (js "id");
  Returns (strict_eq item_id data_id).

Definition saveToProfile (data : value) : M (gmap jsstring jsstring) unit :=
  saved ← getSavedSnippets;
  found ← eval (Array.find (same_id data) saved);
  if truthy found then mret ()
  else
    rest ← eval (spread saved);
    let newSaved := VArr (data :: rest) in
    localStorage.setItem SAVED_SNIPPETS_KEY (JSON.stringify newSaved).

(** [item => item.id !== id] *)
Definition other_id (id : jsstring) (item : value) : outcome bool :=
  item_id ← get_prop item (js "id");
  Returns (negb (strict_eq item_id (VStr id))).

Definition deleteSnippet (id : jsstring) : M (gmap jsstring jsstring) unit :=
  saved ← getSavedSnippets;
  filtered ← eval (Array.filter (other_id id) saved);
  localStorage.setItem SAVED_SNIPPETS_KEY (JSON.stringify filtered);;
  history ← getHistory;
  filteredHistory ← eval (Array.filter (other_id id) history);
  localStorage.setItem HISTORY_STORAGE_KEY (JSON.stringify filteredHistory).

(** [item => [item.id, item]] *)
Definition id_entry (item : value) : outcome value :=
  item_id ← get_prop item (js "id");
  Returns (VArr [item_id; item]).

Definition getById (id : jsstring) : M (gmap jsstring jsstring) value :=
  history ← getHistory;
  h ← eval (spread history);
  saved ← getSavedSnippets;
  s ← eval (spread saved);
  let allItems := h ++ s in
  entries ← eval (Array.map_list id_entry allItems);
  let uniqueMap := Map.new (Map.entry <$> entries) in
  mret (Map.get uniqueMap (VStr id)).

End mockDb.

(** ** The optimizer page: helpers and derived flags

    The result of a run as the flags below read it. A field that the
    code reads through [?.] may be missing ([None]). *)

Record L2 : Type := {
  winning_model : jsstring;
  changes_applied : option (list jsstring);
}.

Record ErrorReport : Type := {
  security : option (list jsstring);
  runtime_risks : option (list jsstring);
  (** [optimization?.findings], one suggestion per finding *)
  findings : option (list jsstring);
}.

Record PipelineResult : Type := {
  error_report : option ErrorReport;
  l1_changes : option (list jsstring);
  l2 : option L2;
}.

Definition NO_CHANGE_SENTINEL : jsstring :=
  js "no rule-based optimizations applicable".

(** [s.toLowerCase()] on the letters A to Z; the case mapping of letters
    outside ASCII is not modelled. *)
Definition toLowerCase (s : jsstring) : jsstring :=
  (λ c, if (65 <=? c) && (c <=? 90) then c + 32 else c)%N <$> s.

(** [s.includes(t)] *)
Fixpoint includes (s t : jsstring) : bool :=
  match s with
  | [] => bool_decide (t = [])
  | _ :: r => bool_decide (t `prefix_of` s) || includes r t
  end.

(** [(l?.length ?? 0) > 0] and the truth of [l?.length] *)
Definition non_empty {A} (l : option (list A)) : bool :=
  match l with
  | Some (_ :: _) => true
  | _ => false
  end.

Definition hasRealL1Changes (changes : option (list jsstring)) : bool :=
  if negb (non_empty changes) then false
  else
    negb (Array.every_list
            (λ c, includes (toLowerCase c) NO_CHANGE_SENTINEL)
            (default [] changes)).

Definition hasRealL2 (l2 : option L2) : bool :=
  match l2 with
  | Some l => truthy (VStr (winning_model l)) && non_empty (changes_applied l)
  | None => false
  end.

Module Derived.
Section flags.
(** [result] is the page's state variable, [None] before any run. *)
Variable result : option PipelineResult.

Definition hasSecurityIssues : bool :=
  non_empty (r ← result; e ← error_report r; security e).
Definition hasRuntimeRisks : bool :=
  non_empty (r ← result; e ← error_report r; runtime_risks e).
Definition realL1Changes : bool :=
  match result with
  | Some r => hasRealL1Changes (l1_changes r)
  | None => false
  end.
Definition alreadyOptimal : bool :=
  non_empty (r ← result; l1_changes r) && negb realL1Changes.
Definition realL2 : bool :=
  match result with
  | Some r => hasRealL2 (l2 r)
  | None => false
  end.
Definition hasFindings : bool :=
  non_empty (r ← result; e ← error_report r; findings e).
Definition hasAnyExplanation : bool :=
  realL1Changes || realL2 || hasFindings || alreadyOptimal.
End flags.
End Derived.

(** ** The optimizer page: loading a session named in the URL *)

Definition OPEN_SESSION_KEY : jsstring := js "opticode_open_session".

(** The state variables the mount effect sets, as JavaScript values:
    [result] is [null] or the object given to [setResult], which the
    derived flags above read through its type. *)
Record page : Type := {
  userCode : value;
  result : value;
  projectName : value;
  tempName : value;
  savedSessionId : value;
}.

Module OptimizePage.

Abbreviation world := (page * gmap jsstring jsstring)%type.

(** A [localStorage] call made from the page. *)
Definition storage {A} (c : M (gmap jsstring jsstring) A) : M world A :=
  λ w, let '(o, ls) := c w.2 in (o, (w.1, ls)).

Definition setUserCode (v : value) : M world unit :=
  λ w, (Returns (),
        ({| userCode := v; result := result w.1;
            projectName := projectName w.1; tempName := tempName w.1;
            savedSessionId := savedSessionId w.1 |}, w.2)).
Definition setResult (v : value) : M world unit :=
  λ w, (Returns (),
        ({| userCode := userCode w.1; result := v;
            projectName := projectName w.1; tempName := tempName w.1;
            savedSessionId := savedSessionId w.1 |}, w.2)).
Definition setProjectName (v : value) : M world unit :=
  λ w, (Returns (),
        ({| userCode := userCode w.1; result := result w.1;
            projectName := v; tempName := tempName w.1;
            savedSessionId := savedSessionId w.1 |}, w.2)).
Definition setTempName (v : value) : M world unit :=
  λ w, (Returns (),
        ({| userCode := userCode w.1; result := result w.1;
            projectName := projectName w.1; tempName := v;
            savedSessionId := savedSessionId w.1 |}, w.2)).
Definition setSavedSessionId (v : value) : M world unit :=
  λ w, (Returns (),
        ({| userCode := userCode w.1; result := result w.1;
            projectName := projectName w.1; tempName := tempName w.1;
            savedSessionId := v |}, w.2)).

(** The fallback of [session.l2]. *)
Definition empty_l2 : value :=
  VObj [(js "winning_model", VStr []); (js "score", VNum (js "0"));
        (js "confidence", VNum (js "0")); (js "risk", VStr []);
        (js "changes_applied", VArr []);
        (js "additional_suggestions", VArr []);
        (js "ranked_models", VArr []); (js "syntax_valid", VBool false)].

(** The argument of [setResult]. *)
Definition loaded_result (session : value) : outcome value :=
  error_report ← get_prop session (js "error_report");
  original_analysis ← get_prop session (js "original_analysis");
  optimized_analysis ← get_prop session (js "optimized_analysis");
  original_analysis' ← get_prop session (js "original_analysis");
  original_code ← get_prop session (js "original_code");
  optimized_code ← get_prop session (js "optimized_code");
  optimization_level ← get_prop session (js "optimization_level");
  l1_changes ← get_prop session (js "l1_changes");
  l2 ← get_prop session (js "l2");
  Returns (VObj [
    (js "passed_error_check", VBool true);
    (js "passed_complexity", VBool true);
    (js "optimization_ran", VBool true);
    (js "error_report", js_or error_report (VObj []));
    (js "original_analysis", original_analysis);
    (js "optimized_analysis", js_or optimized_analysis original_analysis');
    (js "original_code", js_or original_code (VStr []));
    (js "optimized_code", js_or optimized_code (VStr []));
    (js "optimization_level", js_or optimization_level (VStr (js "level1")));
    (js "l1_changes", js_or l1_changes (VArr []));
    (js "l2", js_or l2 empty_l2);
    (js "error", VNull)]).

(** The body of the effect that runs on mount; [sessionParam] is
    [searchParams.get('session')], [None] for [null]. *)
Definition loadSession (sessionParam : option jsstring) : M world unit :=
  match sessionParam with
  | Some (c :: p) =>
      stored ← storage (localStorage.getItem OPEN_SESSION_KEY);
      match stored with
      | Some (d :: q) =>
          try_catch
            (session ← eval (JSON_parse (d :: q));
             session_id ← eval (get_prop session (js "id"));
             if strict_eq session_id (VStr (c :: p)) then
               original_code ← eval (get_prop session (js "original_code"));
               setUserCode (js_or original_code (VStr []));;
               name ← eval (get_prop session (js "name"));
               setProjectName (js_or name (VStr (js "Loaded Session")));;
               name' ← eval (get_prop session (js "name"));
               setTempName (js_or name' (VStr (js "Loaded Session")));;
               session_id' ← eval (get_prop session (js "id"));
               setSavedSessionId session_id';;
               original_analysis ← eval (get_prop session (js "original_analysis"));
               (if truthy original_analysis then
                  r ← eval (loaded_result session);
                  setResult r
                else mret ());;
               storage (localStorage.removeItem OPEN_SESSION_KEY)
             else mret ())
            (λ _, mret ())
      | _ => mret ()
      end
  | _ => mret ()
  end.

End OptimizePage.

(** ** Components: state and storage

    A component's handler runs over the state of the component and the
    store. The body of a handler reads the state variables of the render
    it belongs to: the model reads them with [get_state] before the
    first setter. *)

Definition in_store {St A : Type} (c : M (gmap jsstring jsstring) A)
  : M (St * gmap jsstring jsstring)%type A :=
  λ w, let '(o, ls) := c w.2 in (o, (w.1, ls)).

Definition get_state {St : Type} : M (St * gmap jsstring jsstring)%type St :=
  λ w, (Returns w.1, w).

Definition set_state {St : Type} (f : St → St) : M (St * gmap jsstring jsstring)%type unit :=
  λ w, (Returns (), (f w.1, w.2)).

(** [try { body } finally { final }] *)
Definition try_finally {S A} (body : M S A) (final : M S unit) : M S A :=
  λ st, match body st with
        | (o, st') =>
            match final st' with
            | (Returns _, st'') => (o, st'')
            | (Throws e, st'') => (Throws e, st'')
            end
        end.

(** ** frontend/mockStorage.ts: the account *)

Definition CURRENT_USER_NAME : jsstring := js "opticode_logged_in_user".
Definition USER_PROFILE_DETAILS : jsstring := js "opticode_user_profile_bio".

Module mockAuth.

(** [today] is what [new Date().toLocaleDateString()] yields at this
    call; [userEmail] is [None] when the argument is left out. *)
Definition login (today userName : jsstring) (userEmail : option jsstring)
  : M (gmap jsstring jsstring) unit :=
  let userEmail := default (js "demo@example.com") userEmail in
  localStorage.setItem CURRENT_USER_NAME userName;;
  let profile :=
    VObj [(js "name", VStr userName); (js "email", VStr userEmail);
          (js "joinDate", VStr today);
          (js "bio", VStr (js "Ready to optimize some Python code!"))] in
  localStorage.setItem USER_PROFILE_DETAILS (JSON.stringify profile).

Definition logout : M (gmap jsstring jsstring) unit :=
  localStorage.removeItem CURRENT_USER_NAME;;
  localStorage.removeItem USER_PROFILE_DETAILS.

(** [None] is [null]. *)
Definition getUserName : M (gmap jsstring jsstring) (option jsstring) :=
  localStorage.getItem CURRENT_USER_NAME.

Definition getProfile : M (gmap jsstring jsstring) value :=
  data ← localStorage.getItem USER_PROFILE_DETAILS;
  match data with
  | Some (c :: r) => eval (JSON_parse (c :: r))
  | _ => mret VNull
  end.

Definition updateProfile (updatedData : value) : M (gmap jsstring jsstring) unit :=
  localStorage.setItem USER_PROFILE_DETAILS (JSON.stringify updatedData).

End mockAuth.

(** ** The application shell: [App], [Layout] and the login page

    [user] is the state of [App], [pathname] the location of the
    router, [loading] the state of the login page. The repository has
    two components [App]: the one of [frontend/mockStorage.ts] keeps the
    user under [opticode_user]; the one that renders the [Layout] of
    [frontend/components/Layout.tsx] ([AuthApp] below) signs in through
    [mockAuth] and calls its state [currentUserName]. *)

Definition USER_KEY : jsstring := js "opticode_user".

Record shell : Type := {
  user : value;
  pathname : jsstring;
  loading : bool;
}.

Definition setUser (v : value) : M (shell * gmap jsstring jsstring)%type unit :=
  set_state (λ sh, {| user := v; pathname := pathname sh; loading := loading sh |}).
Definition navigate (to : jsstring) : M (shell * gmap jsstring jsstring)%type unit :=
  set_state (λ sh, {| user := user sh; pathname := to; loading := loading sh |}).
Definition setLoading (b : bool) : M (shell * gmap jsstring jsstring)%type unit :=
  set_state (λ sh, {| user := user sh; pathname := pathname sh; loading := b |}).

Module App.

(** The initialiser of the [user] state. *)
Definition initial_user : M (gmap jsstring jsstring) value :=
  try_catch
    (raw ← localStorage.getItem USER_KEY;
     match raw with
     | Some (c :: r) =>
         parsed ← eval (JSON_parse (c :: r));
         match parsed with
         | VStr s => mret (VStr s)
         | _ =>
             username ← eval (get_prop parsed (js "username"));
             if truthy username then mret username
             else
               email ← eval (get_prop parsed (js "email"));
               mret (js_or email (VStr []))
         end
     | _ => mret (VStr [])
     end)
    (λ _, mret (VStr [])).

Definition handleLogout : M (shell * gmap jsstring jsstring)%type unit :=
  in_store (localStorage.removeItem USER_KEY);;
  setUser (VStr []).

Definition handleLogin (username : jsstring) : M (shell * gmap jsstring jsstring)%type unit :=
  setUser (VStr username).

End App.

Module Layout.

(** [onLogout] is the prop of that name. *)
Definition handleLogout (onLogout : M (shell * gmap jsstring jsstring)%type unit)
  : M (shell * gmap jsstring jsstring)%type unit :=
  in_store mockAuth.logout;;
  onLogout;;
  navigate (js "/login").

End Layout.

(** The [App] that wraps its protected pages in [Layout]. Its state
    [currentUserName] is the field [user] of the shell: a string, or
    [null]. *)
Module AuthApp.

(** The initial state: [mockAuth.getUserName()]. *)
Definition initial_currentUserName : M (gmap jsstring jsstring) value :=
  name ← mockAuth.getUserName;
  mret (match name with Some n => VStr n | None => VNull end).

Definition setCurrentUserName (v : value)
  : M (shell * gmap jsstring jsstring)%type unit :=
  setUser v.

(** The listener of the storage event. *)
Definition checkLoginStatus : M (shell * gmap jsstring jsstring)%type unit :=
  name ← in_store mockAuth.getUserName;
  setCurrentUserName (match name with Some n => VStr n | None => VNull end).

(** The [onLogout] that [ProtectedPage] hands to [Layout]. *)
Definition onLogout : M (shell * gmap jsstring jsstring)%type unit :=
  setCurrentUserName VNull.

End AuthApp.

Module LoginPage.

(** [a || b] on two strings. *)
Definition or_else (a b : jsstring) : jsstring :=
  match a with [] => b | _ => a end.

(** [email.split('@')[0]]: the text before the first commercial at (code
    unit 64), the whole text when there is none. *)
Fixpoint before_at (email : jsstring) : jsstring :=
  match email with
  | [] => []
  | c :: r => if (c =? 64)%N then [] else c :: before_at r
  end.

(** [demoName] is [None] when the argument is left out. *)
Definition finalName (demoName : option jsstring) (name email : jsstring) : jsstring :=
  or_else (or_else (or_else (default [] demoName) name) (before_at email))
          (js "User").

(** The callback that [handleAuth] hands to [setTimeout]; [onLogin] is
    the prop of that name. *)
Definition login_timeout (today : jsstring) (demoName : option jsstring)
    (name email : jsstring)
    (onLogin : jsstring → M (shell * gmap jsstring jsstring)%type unit)
  : M (shell * gmap jsstring jsstring)%type unit :=
  in_store (mockAuth.login today (finalName demoName name email) (Some email));;
  onLogin (finalName demoName name email);;
  navigate (js "/optimize");;
  setLoading false.

End LoginPage.

(** ** The logged-in user, as the pages read it *)

(** [getLoggedInUser] of the optimizer page. *)
Definition getLoggedInUser : M (gmap jsstring jsstring) value :=
  try_catch
    (raw ← localStorage.getItem USER_KEY;
     match raw with
     | Some (c :: r) =>
         parsed ← eval (JSON_parse (c :: r));
         match parsed with
         | VStr s => mret (VObj [(js "email", VStr s); (js "name", VStr s)])
         | _ =>
             email ← eval (get_prop parsed (js "email"));
             name ← eval (get_prop parsed (js "name"));
             mret (VObj [(js "email", js_or email (VStr []));
                         (js "name", js_or name (VStr []))])
         end
     | _ => mret (VObj [(js "email", VStr []); (js "name", VStr [])])
     end)
    (λ _, mret (VObj [(js "email", VStr []); (js "name", VStr [])])).

(** [getStoredUser] of the profile page. *)
Definition getStoredUser : M (gmap jsstring jsstring) value :=
  try_catch
    (raw ← localStorage.getItem USER_KEY;
     match raw with
     | Some (c :: r) => eval (JSON_parse (c :: r))
     | _ => mret VNull
     end)
    (λ _, mret VNull).

(** ** [String.prototype.trim]

    White space and line terminators, by code unit: 9 to 13 (tab, line
    feed, vertical tab, form feed, carriage return), 32 space, 160
    no-break space, 5760 ogham space mark, 8192 to 8202 (en quad to hair
    space), 8232 and 8233 (line and paragraph separator), 8239 narrow
    no-break space, 8287 medium mathematical space, 12288 ideographic
    space, 65279 byte order mark. *)

Definition is_space (c : N) : bool :=
  (((9 <=? c) && (c <=? 13)) || (c =? 32) || (c =? 160) || (c =? 5760)
   || ((8192 <=? c) && (c <=? 8202)) || (c =? 8232) || (c =? 8233)
   || (c =? 8239) || (c =? 8287) || (c =? 12288) || (c =? 65279))%N.

Fixpoint trimStart (s : jsstring) : jsstring :=
  match s with
  | [] => []
  | c :: r => if is_space c then trimStart r else s
  end.

Definition trimEnd (s : jsstring) : jsstring := reverse (trimStart (reverse s)).

Definition trim (s : jsstring) : jsstring := trimEnd (trimStart s).

(** [v.trim()]: only a string has the method. *)
Definition trim_of (v : value) : outcome jsstring :=
  match v with
  | VStr s => Returns (trim s)
  | _ => Throws TypeError
  end.

(** ** The optimizer page: the title and its renaming *)

Definition API_BASE : jsstring := js "http://localhost:5000".

(** A call of [fetch]. *)
Record request : Type := {
  method : jsstring;
  url : jsstring;
  body : jsstring;
}.

Module Title.

(** The state variables of the title, the ref [renameCancelledRef] and
    the requests sent so far. *)
Record state : Type := {
  projectName : value;
  tempName : value;
  isRenaming : bool;
  savedSessionId : value;
  renameCancelledRef : bool;
  sent : list request;
}.

Definition setProjectName (v : value) : M state unit :=
  λ st, (Returns (),
         {| projectName := v; tempName := tempName st; isRenaming := isRenaming st;
            savedSessionId := savedSessionId st;
            renameCancelledRef := renameCancelledRef st; sent := sent st |}).
Definition setTempName (v : value) : M state unit :=
  λ st, (Returns (),
         {| projectName := projectName st; tempName := v; isRenaming := isRenaming st;
            savedSessionId := savedSessionId st;
            renameCancelledRef := renameCancelledRef st; sent := sent st |}).
Definition setIsRenaming (b : bool) : M state unit :=
  λ st, (Returns (),
         {| projectName := projectName st; tempName := tempName st; isRenaming := b;
            savedSessionId := savedSessionId st;
            renameCancelledRef := renameCancelledRef st; sent := sent st |}).
Definition set_renameCancelledRef (b : bool) : M state unit :=
  λ st, (Returns (),
         {| projectName := projectName st; tempName := tempName st;
            isRenaming := isRenaming st; savedSessionId := savedSessionId st;
            renameCancelledRef := b; sent := sent st |}).
Definition fetch (r : request) : M state unit :=
  λ st, (Returns (),
         {| projectName := projectName st; tempName := tempName st;
            isRenaming := isRenaming st; savedSessionId := savedSessionId st;
            renameCancelledRef := renameCancelledRef st; sent := sent st ++ [r] |}).
Definition read : M state state := λ st, (Returns st, st).

Definition renameSessionInDB (id : value) (name : jsstring) : M state unit :=
  fetch {| method := js "PATCH";
           url := API_BASE ++ js "/api/sessions/item/" ++ ToString id;
           body := JSON.stringify (VObj [(js "name", VStr name)]) |}.

(** An exception inside [commitRename], an async function, rejects the
    promise it returns: [Throws] stands for the rejection. *)
Definition commitRename (name : value) : M state unit :=
  st ← read;
  trimmed ← eval (trim_of name);
  let finalName := match trimmed with [] => js "Untitled Session" | _ => trimmed end in
  setProjectName (VStr finalName);;
  setIsRenaming false;;
  if truthy (savedSessionId st)
  then try_catch (renameSessionInDB (savedSessionId st) finalName) (λ _, mret ())
  else mret ().

(** [key] is [e.key]. *)
Definition handleRenameKeyDown (key : jsstring) : M state unit :=
  st ← read;
  if bool_decide (key = js "Enter") then
    set_renameCancelledRef false;;
    commitRename (tempName st)
  else if bool_decide (key = js "Escape") then
    set_renameCancelledRef true;;
    setTempName (projectName st);;
    setIsRenaming false
  else mret ().

Definition handleRenameBlur : M state unit :=
  st ← read;
  if renameCancelledRef st then set_renameCancelledRef false
  else commitRename (tempName st).

End Title.

(** ** The optimizer page that keeps its sessions in the browser

    The component [OptimizePage] that saves its runs with [mockDb] and
    opens a session by the [id] parameter of the URL. *)

Module LocalOptimizePage.

(** A callback handed to [setTimeout], with what it captured. *)
Inductive timer : Type :=
| SaveToProfile (optimizationResult : value)
| ClearJustSaved.

Record state : Type := {
  userCode : value;
  optimizationResult : value;
  selectedLevel : value;
  projectName : value;
  isRenaming : bool;
  tempName : value;
  isProcessing : bool;
  isSaving : bool;
  hasJustSaved : bool;
  (** the timers set and not yet fired, with their delays *)
  timers : list (N * timer);
}.

Abbreviation world := (state * gmap jsstring jsstring)%type.

Definition setUserCode (v : value) : M world unit :=
  set_state (λ st,
    {| userCode := v; optimizationResult := optimizationResult st;
       selectedLevel := selectedLevel st; projectName := projectName st;
       isRenaming := isRenaming st; tempName := tempName st;
       isProcessing := isProcessing st; isSaving := isSaving st;
       hasJustSaved := hasJustSaved st; timers := timers st |}).
Definition setOptimizationResult (v : value) : M world unit :=
  set_state (λ st,
    {| userCode := userCode st; optimizationResult := v;
       selectedLevel := selectedLevel st; projectName := projectName st;
       isRenaming := isRenaming st; tempName := tempName st;
       isProcessing := isProcessing st; isSaving := isSaving st;
       hasJustSaved := hasJustSaved st; timers := timers st |}).
Definition setSelectedLevel (v : value) : M world unit :=
  set_state (λ st,
    {| userCode := userCode st; optimizationResult := optimizationResult st;
       selectedLevel := v; projectName := projectName st;
       isRenaming := isRenaming st; tempName := tempName st;
       isProcessing := isProcessing st; isSaving := isSaving st;
       hasJustSaved := hasJustSaved st; timers := timers st |}).
Definition setProjectName (v : value) : M world unit :=
  set_state (λ st,
    {| userCode := userCode st; optimizationResult := optimizationResult st;
       selectedLevel := selectedLevel st; projectName := v;
       isRenaming := isRenaming st; tempName := tempName st;
       isProcessing := isProcessing st; isSaving := isSaving st;
       hasJustSaved := hasJustSaved st; timers := timers st |}).
Definition setIsRenaming (b : bool) : M world unit :=
  set_state (λ st,
    {| userCode := userCode st; optimizationResult := optimizationResult st;
       selectedLevel := selectedLevel st; projectName := projectName st;
       isRenaming := b; tempName := tempName st;
       isProcessing := isProcessing st; isSaving := isSaving st;
       hasJustSaved := hasJustSaved st; timers := timers st |}).
Definition setTempName (v : value) : M world unit :=
  set_state (λ st,
    {| userCode := userCode st; optimizationResult := optimizationResult st;
       selectedLevel := selectedLevel st; projectName := projectName st;
       isRenaming := isRenaming st; tempName := v;
       isProcessing := isProcessing st; isSaving := isSaving st;
       hasJustSaved := hasJustSaved st; timers := timers st |}).
Definition setIsProcessing (b : bool) : M world unit :=
  set_state (λ st,
    {| userCode := userCode st; optimizationResult := optimizationResult st;
       selectedLevel := selectedLevel st; projectName := projectName st;
       isRenaming := isRenaming st; tempName := tempName st;
       isProcessing := b; isSaving := isSaving st;
       hasJustSaved := hasJustSaved st; timers := timers st |}).
Definition setHasJustSaved (b : bool) : M world unit :=
  set_state (λ st,
    {| userCode := userCode st; optimizationResult := optimizationResult st;
       selectedLevel := selectedLevel st; projectName := projectName st;
       isRenaming := isRenaming st; tempName := tempName st;
       isProcessing := isProcessing st; isSaving := isSaving st;
       hasJustSaved := b; timers := timers st |}).
Definition setTimeout (t : timer) (delay : N) : M world unit :=
  set_state (λ st,
    {| userCode := userCode st; optimizationResult := optimizationResult st;
       selectedLevel := selectedLevel st; projectName := projectName st;
       isRenaming := isRenaming st; tempName := tempName st;
       isProcessing := isProcessing st; isSaving := isSaving st;
       hasJustSaved := hasJustSaved st; timers := timers st ++ [(delay, t)] |}).

(** [v?.k] *)
Definition optional_prop (v : value) (k : jsstring) : outcome value :=
  match v with
  | VUndefined | VNull => Returns VUndefined
  | _ => get_prop v k
  end.

(** The effect that runs on mount; [projectId] is
    [searchParams.get('id')], [None] for [null]. *)
Definition load (projectId : option jsstring) : M world unit :=
  match projectId with
  | Some (c :: p) =>
      savedData ← in_store (mockDb.getById (c :: p));
      if truthy savedData then
        originalCode ← eval (get_prop savedData (js "originalCode"));
        setUserCode originalCode;;
        setOptimizationResult savedData;;
        level ← eval (get_prop savedData (js "level"));
        setSelectedLevel level;;
        name ← eval (get_prop savedData (js "name"));
        setProjectName (js_or name (VStr (js "Session-" ++ c :: p)));;
        name' ← eval (get_prop savedData (js "name"));
        setTempName (js_or name' (VStr (js "Session-" ++ c :: p)))
      else mret ()
  | _ => mret ()
  end.


(** [optimized] is what the optimizer of the selected level makes of the
    code ([optimizeWithRules] or [optimizeWithAI], which are not part of
    this file); [random] and [random'] are what the two calls of
    [Math.random().toString(36).substring(2, 9)] yield, here and in
    [saveToHistory]. *)
Definition handleRunOptimization (optimized : outcome value)
    (random random' : jsstring) : M world unit :=
  st ← get_state;
  setIsProcessing true;;
  setHasJustSaved false;;
  try_finally
    (finalData ← eval optimized;
     existingId ← eval (optional_prop (optimizationResult st) (js "id"));
     let resultWithId :=
       VObj (set_prop (js "name") (projectName st)
               (set_prop (js "id") (js_or existingId (VStr random))
                  (own_props finalData))) in
     setOptimizationResult resultWithId;;
     in_store (mockDb.saveToHistory random' resultWithId);;
     mret ())
    (setIsProcessing false).



End LocalOptimizePage.

(** ** The profile page that keeps the account on the server

    [fetched] tells whether the promise of [fetch] is fulfilled; a
    rejected one throws a TypeError. *)

Module ProfilePage.

Inductive timer : Type := ClearProfileSaved.

Record state : Type := {
  profile : value;
  editedName : value;
  editedBio : value;
  isEditing : bool;
  isSavingProfile : bool;
  profileSaved : bool;
  (** the requests sent and the timers set so far *)
  sent : list request;
  timers : list (N * timer);
}.

Abbreviation world := (state * gmap jsstring jsstring)%type.

Definition setProfile (v : value) : M world unit :=
  set_state (λ st,
    {| profile := v; editedName := editedName st; editedBio := editedBio st;
       isEditing := isEditing st; isSavingProfile := isSavingProfile st;
       profileSaved := profileSaved st; sent := sent st; timers := timers st |}).
Definition setEditedName (v : value) : M world unit :=
  set_state (λ st,
    {| profile := profile st; editedName := v; editedBio := editedBio st;
       isEditing := isEditing st; isSavingProfile := isSavingProfile st;
       profileSaved := profileSaved st; sent := sent st; timers := timers st |}).
Definition setEditedBio (v : value) : M world unit :=
  set_state (λ st,
    {| profile := profile st; editedName := editedName st; editedBio := v;
       isEditing := isEditing st; isSavingProfile := isSavingProfile st;
       profileSaved := profileSaved st; sent := sent st; timers := timers st |}).
Definition setIsEditing (b : bool) : M world unit :=
  set_state (λ st,
    {| profile := profile st; editedName := editedName st; editedBio := editedBio st;
       isEditing := b; isSavingProfile := isSavingProfile st;
       profileSaved := profileSaved st; sent := sent st; timers := timers st |}).
Definition setIsSavingProfile (b : bool) : M world unit :=
  set_state (λ st,
    {| profile := profile st; editedName := editedName st; editedBio := editedBio st;
       isEditing := isEditing st; isSavingProfile := b;
       profileSaved := profileSaved st; sent := sent st; timers := timers st |}).
Definition setProfileSaved (b : bool) : M world unit :=
  set_state (λ st,
    {| profile := profile st; editedName := editedName st; editedBio := editedBio st;
       isEditing := isEditing st; isSavingProfile := isSavingProfile st;
       profileSaved := b; sent := sent st; timers := timers st |}).
Definition setTimeout (t : timer) (delay : N) : M world unit :=
  set_state (λ st,
    {| profile := profile st; editedName := editedName st; editedBio := editedBio st;
       isEditing := isEditing st; isSavingProfile := isSavingProfile st;
       profileSaved := profileSaved st; sent := sent st;
       timers := timers st ++ [(delay, t)] |}).
Definition fetch (fetched : bool) (r : request) : M world unit :=
  set_state (λ st,
    {| profile := profile st; editedName := editedName st; editedBio := editedBio st;
       isEditing := isEditing st; isSavingProfile := isSavingProfile st;
       profileSaved := profileSaved st; sent := sent st ++ [r];
       timers := timers st |});;
  if fetched then mret () else eval (Throws TypeError).

(** The first effect that runs on mount. *)
Definition load : M world unit :=
  stored ← in_store getStoredUser;
  if truthy stored then
    setProfile stored;;
    name ← eval (get_prop stored (js "name"));
    setEditedName name;;
    bio ← eval (get_prop stored (js "bio"));
    setEditedBio (js_or bio (VStr []))
  else mret ().

Definition handleSaveProfile (fetched : bool) : M world unit :=
  st ← get_state;
  if negb (truthy (profile st)) then mret ()
  else
    setIsSavingProfile true;;
    trimmed ← eval (trim_of (editedName st));
    name ← match trimmed with
           | [] => eval (get_prop (profile st) (js "name"))
           | _ => mret (VStr trimmed)
           end;
    let updated :=
      VObj (set_prop (js "bio") (editedBio st)
              (set_prop (js "name") name (own_props (profile st)))) in
    try_finally
      (try_catch
         (fetch fetched
            {| method := js "POST";
               url := API_BASE ++ js "/api/update-profile";
               body := JSON.stringify updated |};;
          setProfile updated;;
          in_store (localStorage.setItem USER_KEY (JSON.stringify updated));;
          setIsEditing false;;
          setProfileSaved true;;
          setTimeout ClearProfileSaved 3000)
         (λ _,
            setProfile updated;;
            in_store (localStorage.setItem USER_KEY (JSON.stringify updated));;
            setIsEditing false))
      (setIsSavingProfile false).

End ProfilePage.

(** ** The profile page that keeps the account in the browser *)

Module LocalProfilePage.

Record state : Type := {
  profile : value;
  savedSnippets : value;
  isEditing : bool;
  editedName : value;
  editedBio : value;
}.

Abbreviation world := (state * gmap jsstring jsstring)%type.

Definition setProfile (v : value) : M world unit :=
  set_state (λ st,
    {| profile := v; savedSnippets := savedSnippets st; isEditing := isEditing st;
       editedName := editedName st; editedBio := editedBio st |}).
Definition setSavedSnippets (v : value) : M world unit :=
  set_state (λ st,
    {| profile := profile st; savedSnippets := v; isEditing := isEditing st;
       editedName := editedName st; editedBio := editedBio st |}).
Definition setIsEditing (b : bool) : M world unit :=
  set_state (λ st,
    {| profile := profile st; savedSnippets := savedSnippets st; isEditing := b;
       editedName := editedName st; editedBio := editedBio st |}).
Definition setEditedName (v : value) : M world unit :=
  set_state (λ st,
    {| profile := profile st; savedSnippets := savedSnippets st;
       isEditing := isEditing st; editedName := v; editedBio := editedBio st |}).
Definition setEditedBio (v : value) : M world unit :=
  set_state (λ st,
    {| profile := profile st; savedSnippets := savedSnippets st;
       isEditing := isEditing st; editedName := editedName st; editedBio := v |}).

(** The effect that runs on mount. *)
Definition load : M world unit :=
  data ← in_store mockAuth.getProfile;
  (if truthy data then
     setProfile data;;
     name ← eval (get_prop data (js "name"));
     setEditedName name;;
     bio ← eval (get_prop data (js "bio"));
     setEditedBio bio
   else mret ());;
  snippets ← in_store mockDb.getSavedSnippets;
  setSavedSnippets snippets.

Definition handleSaveProfile : M world unit :=
  st ← get_state;
  if truthy (profile st) then
    let updated :=
      VObj (set_prop (js "bio") (editedBio st)
              (set_prop (js "name") (editedName st) (own_props (profile st)))) in
    in_store (mockAuth.updateProfile updated);;
    setProfile updated;;
    setIsEditing false
  else mret ().

Definition handleDeleteSnippet (id : jsstring) : M world unit :=
  in_store (mockDb.deleteSnippet id);;
  snippets ← in_store mockDb.getSavedSnippets;
  setSavedSnippets snippets.

End LocalProfilePage.

(** ** Store states, as the properties below speak of them *)

Definition is_record (v : value) : Prop := ∃ ps, v = VObj ps.

(** The store [ls] holds the history [h] and the library [s], two lists
    of records: the two listings return them. *)
Definition holds (ls : gmap jsstring jsstring) (h s : list value) : Prop :=
  (mockDb.getHistory ls).1 = Returns (VArr h) ∧
  (mockDb.getSavedSnippets ls).1 = Returns (VArr s) ∧
  Forall is_record h ∧ Forall is_record s.

Definition has_id (id : jsstring) (r : value) : Prop :=
  get_prop r (js "id") = Returns (VStr id).

Definition has_name (name : jsstring) (r : value) : Prop :=
  get_prop r (js "name") = Returns (VStr name).

(** [item] is an entry for the id of [data]. *)
Definition shares_id (data item : value) : Prop :=
  get_prop item (js "id") = get_prop data (js "id").

(** The [id] of a record as its type has it: a string, or missing. *)
Definition id_typed (data : value) : Prop :=
  get_prop data (js "id") = Returns VUndefined ∨
  ∃ id, get_prop data (js "id") = Returns (VStr id).

Definition exactly_one (P : value → Prop) (l : list value) : Prop :=
  ∃ pre r post, l = pre ++ r :: post ∧ P r ∧ Forall (λ x, ¬ P x) (pre ++ post).

(** [r] is the last record of [l] that has the id. *)
Definition last_with_id (id : jsstring) (l : list value) (r : value) : Prop :=
  ∃ pre post, l = pre ++ r :: post ∧ has_id id r ∧ Forall (λ x, ¬ has_id id x) post.

(** The properties of an object that survive serialization, as
    [jsonify] keeps them. *)
Definition jprops (ps : list (jsstring * value)) : list (jsstring * value) :=
  omap (λ p, pair p.1 <$> jsonify p.2) ps.

(** No two entries of the list have the same id. *)
Definition unique_ids (l : list value) : Prop :=
  NoDup ((λ r, get_prop r (js "id")) <$> l).

(** A record as the type [OptimizationResult] has it, for what the store
    reads of it: an object, whose [id] is a string or missing. *)
Definition is_result (data : value) : Prop :=
  is_record data ∧ wf data = true ∧ id_typed data.

(** The stores of the application. A browser starts without the two
    collections; the operations of [mockDb] are the only code that
    writes them; the rest of the application (the account data, the
    hand-off slot of the optimizer page) sets and removes other keys. *)
Inductive reachable : gmap jsstring jsstring → Prop :=
| reach_start ls :
    ls !! HISTORY_STORAGE_KEY = None → ls !! SAVED_SNIPPETS_KEY = None →
    reachable ls
| reach_saveToHistory ls random data :
    reachable ls → is_result data →
    reachable (mockDb.saveToHistory random data ls).2
| reach_updateProjectName ls id newName :
    reachable ls → reachable (mockDb.updateProjectName id newName ls).2
| reach_saveToProfile ls data :
    reachable ls → is_result data →
    reachable (mockDb.saveToProfile data ls).2
| reach_deleteSnippet ls id :
    reachable ls → reachable (mockDb.deleteSnippet id ls).2
| reach_setItem ls key val :
    reachable ls → key ≠ HISTORY_STORAGE_KEY → key ≠ SAVED_SNIPPETS_KEY →
    reachable (localStorage.setItem key val ls).2
| reach_removeItem ls key :
    reachable ls → key ≠ HISTORY_STORAGE_KEY → key ≠ SAVED_SNIPPETS_KEY →
    reachable (localStorage.removeItem key ls).2.

(** The text stored under [key] is not empty and is not JSON. *)
Definition malformed (key : jsstring) (ls : gmap jsstring jsstring) : Prop :=
  ∃ c r, ls !! key = Some (c :: r) ∧ JSON.parse (c :: r) = None.

(** The text stored under [key] is the JSON text of [v]. *)
Definition stores (key : jsstring) (ls : gmap jsstring jsstring) (v : value) : Prop :=
  ∃ c r, ls !! key = Some (c :: r) ∧ JSON.parse (c :: r) = Some v.

Definition is_array (v : value) : Prop := ∃ l, v = VArr l.

(** ** Sample data *)

Definition sample_record (id name : string) : value :=
  VObj [(js "originalCode", VStr (js "total = 0"));
        (js "optimizedCode", VStr (js "total = sum(xs)"));
        (js "explanation", VStr (js "Replaced manual loop with built-in sum"));
        (js "level", VStr (js "LEVEL_1"));
        (js "timestamp", VNum (js "1700000000000"));
        (js "id", VStr (js id));
        (js "name", VStr (js name))].

(** A run that was saved twice under one id, and another run. *)
Definition sample_history : list value :=
  [sample_record "a1b2c3" "My Fix"; sample_record "k9x" "Session-k9x";
   sample_record "a1b2c3" "New Session"].

Definition sample_library : list value := [sample_record "k9x" "Session-k9x"].

Definition sample_store : gmap jsstring jsstring :=
  {[ HISTORY_STORAGE_KEY := JSON.stringify (VArr sample_history);
     SAVED_SNIPPETS_KEY := JSON.stringify (VArr sample_library) ]}.

(** A run without id or name, as the optimizer hands it over. *)
Definition fresh_run : list (jsstring * value) :=
  [(js "originalCode", VStr (js "total = 0"));
   (js "optimizedCode", VStr (js "total = sum(xs)"));
   (js "timestamp", VNum (js "1700000000000"))].

(** The store after the page saved a run to the history, renamed it and
    then saved the record it still held, under the old name, to the
    library. *)
Definition diverged_store : gmap jsstring jsstring :=
  let st1 := (mockDb.saveToHistory (js "q7w8e9r") (sample_record "a1b2c3" "New Session") ∅).2 in
  let st2 := (mockDb.updateProjectName (js "a1b2c3") (js "My Fix") st1).2 in
  (mockDb.saveToProfile (sample_record "a1b2c3" "New Session") st2).2.

(** A page before any run, and a hand-off slot for the session [s1]. *)
Definition sample_page : page :=
  {| userCode := VStr (js "def f(): pass"); result := VNull;
     projectName := VStr (js "New Session"); tempName := VStr (js "New Session");
     savedSessionId := VNull |}.

Definition sample_slot : value :=
  VObj [(js "id", VStr (js "s1")); (js "name", VStr (js "My Fix"));
        (js "original_code", VStr (js "total = 0"));
        (js "original_analysis", VObj [(js "loc", VNum (js "1"))])].

Definition slot_store : gmap jsstring jsstring :=
  {[ OPEN_SESSION_KEY := JSON.stringify sample_slot ]}.

(** A store whose history is not JSON, one whose library is not, and
    one whose history is the JSON text of [null]. *)
Definition broken_history_store : gmap jsstring jsstring :=
  {[ HISTORY_STORAGE_KEY := js "{oops";
     SAVED_SNIPPETS_KEY := JSON.stringify (VArr sample_library) ]}.

Definition broken_library_store : gmap jsstring jsstring :=
  {[ HISTORY_STORAGE_KEY := JSON.stringify (VArr sample_history);
     SAVED_SNIPPETS_KEY := js "{oops" ]}.

Definition null_history_store : gmap jsstring jsstring :=
  {[ HISTORY_STORAGE_KEY := js "null" ]}.

Definition sample_profile : list (jsstring * value) :=
  [(js "name", VStr (js "Ada")); (js "email", VStr (js "ada@example.com"));
   (js "bio", VStr (js "Loops, mostly"))].

(** The title while it is edited, with white space typed around the
    new name. *)
Definition sample_title : Title.state :=
  {| Title.projectName := VStr (js "New Session");
     Title.tempName := VStr (js "  Tidy sum ");
     Title.isRenaming := true;
     Title.savedSessionId := VStr (js "s1");
     Title.renameCancelledRef := false;
     Title.sent := [] |}.

(** The optimizer page after the run [a1b2c3], with a new title typed. *)
Definition sample_local_page : LocalOptimizePage.state :=
  {| LocalOptimizePage.userCode := VStr (js "total = 0");
     LocalOptimizePage.optimizationResult := sample_record "a1b2c3" "New Session";
     LocalOptimizePage.selectedLevel := VStr (js "LEVEL_1");
     LocalOptimizePage.projectName := VStr (js "New Session");
     LocalOptimizePage.isRenaming := true;
     LocalOptimizePage.tempName := VStr (js " My Fix ");
     LocalOptimizePage.isProcessing := false;
     LocalOptimizePage.isSaving := false;
     LocalOptimizePage.hasJustSaved := false;
     LocalOptimizePage.timers := [] |}.

Definition sample_profile_page : ProfilePage.state :=
  {| ProfilePage.profile := VObj sample_profile;
     ProfilePage.editedName := VStr (js " Ada L. ");
     ProfilePage.editedBio := VStr (js "Engines");
     ProfilePage.isEditing := true;
     ProfilePage.isSavingProfile := false;
     ProfilePage.profileSaved := false;
     ProfilePage.sent := [];
     ProfilePage.timers := [] |}.

Definition sample_profile_list : LocalProfilePage.state :=
  {| LocalProfilePage.profile := VNull;
     LocalProfilePage.savedSnippets := VArr sample_library;
     LocalProfilePage.isEditing := false;
     LocalProfilePage.editedName := VStr [];
     LocalProfilePage.editedBio := VStr [] |}.

(** ** Auxiliary definitions of the proofs *)

(** A property of the first code unit of a text, if there is one. *)
Definition hd_ok (P : N → Prop) (r : jsstring) : Prop :=
  match r with [] => True | c :: _ => P c end.

(** What may follow a number literal without being read as part of it. *)
Definition ends_number (r : jsstring) : Prop :=
  hd_ok (λ c, is_digit c = false ∧ c ≠ 46%N ∧ c ≠ 101%N ∧ c ≠ 69%N) r.

(** What the text of a value starts with. *)
Definition starts_value (t : jsstring) : Prop :=
  match t with
  | [] => False
  | c :: _ => JSON.is_ws c = false ∧ c ≠ 93%N ∧ c ≠ 125%N ∧ c ≠ 44%N
  end.

(** The two loops of [JSON.serialize] as functions of their own. *)
Fixpoint elements_of (l : list value) : jsstring :=
  match l with
  | [] => []
  | x :: r =>
      default (js "null") (JSON.serialize x) ++
      match r with [] => [] | _ => [44%N] ++ elements_of r end
  end.

Fixpoint members_of (first : bool) (ps : list (jsstring * value)) : jsstring :=
  match ps with
  | [] => []
  | (k, x) :: r =>
      match JSON.serialize x with
      | Some t =>
          (if first then [] else [44%N]) ++ JSON.quote k ++ [58%N] ++ t
          ++ members_of false r
      | None => members_of first r
      end
  end.

Definition is_undefined (v : value) : bool :=
  match v with VUndefined => true | _ => false end.

(** Fuel that parsing the text of a value takes. *)
Fixpoint vsize (v : value) : nat :=
  match v with
  | VArr l => S (list_sum ((λ x, S (vsize x)) <$> l))
  | VObj ps =>
      S (list_sum ((λ p, if is_undefined p.2 then 0 else S (vsize p.2)) <$> ps))
  | _ => 1
  end.

(** The round trip of one value, as an array element writes it. *)
Definition round_trips (v : value) : Prop :=
  ∀ fuel rest, vsize v ≤ fuel → ends_number rest →
    JSON.parse_value fuel (default (js "null") (JSON.serialize v) ++ rest) =
    Some (default VNull (jsonify v), rest).

(** What [updateProjectName] makes of one record. *)
Definition renamed (id X : jsstring) (r r' : value) : Prop :=
  (has_id id r → has_id id r' ∧ has_name X r') ∧ (¬ has_id id r → r' = r).

(** The record that a lookup by [id] in the list [l] yields: the last
    one of that id, [undefined] when there is none. *)
Definition finds (id : jsstring) (l : list value) (r : value) : Prop :=
  (Forall (λ x, ¬ has_id id x) l ∧ r = VUndefined) ∨ last_with_id id l r.

(** The [Map] entry of a record. *)
Definition keyed (item : value) : value * value :=
  (match item with VObj ps => lookup_prop (js "id") ps | _ => VUndefined end, item).

(** * Proofs *)

(** ** Arithmetic of code units *)

Ltac nbool :=
  repeat match goal with
  | H : (_ && _) = true |- _ => apply andb_true_iff in H; destruct H
  | H : (_ && _) = false |- _ => apply andb_false_iff in H; destruct H
  | H : (_ || _) = true |- _ => apply orb_true_iff in H; destruct H
  | H : (_ || _) = false |- _ => apply orb_false_iff in H; destruct H
  | H : negb _ = true |- _ => apply negb_true_iff in H
  | H : negb _ = false |- _ => apply negb_false_iff in H
  | H : (_ <? _)%N = true |- _ => apply N.ltb_lt in H
  | H : (_ <? _)%N = false |- _ => apply N.ltb_ge in H
  | H : (_ <=? _)%N = true |- _ => apply N.leb_le in H
  | H : (_ <=? _)%N = false |- _ => apply N.leb_gt in H
  | H : (_ =? _)%N = true |- _ => apply N.eqb_eq in H
  | H : (_ =? _)%N = false |- _ => apply N.eqb_neq in H
  end.

Import JSON.

Lemma hex_value_hex_digit d : (d < 16)%N → hex_value (hex_digit d) = Some d.
Proof.
  intros Hd. unfold hex_value, hex_digit, is_digit.
  repeat case_match; nbool; try (f_equal; lia); lia.
Qed.

Lemma hex_split c :
  (c < 65536)%N →
  ((c / 4096 mod 16) * 4096 + (c / 256 mod 16) * 256 + (c / 16 mod 16) * 16 + c mod 16 = c)%N.
Proof.
  intros Hc.
  assert (H4 : (c / 4096 < 16)%N) by (apply N.Div0.div_lt_upper_bound; lia).
  rewrite (N.mod_small (c / 4096)) by done.
  pose proof (N.div_mod c 16 ltac:(lia)) as H1.
  pose proof (N.div_mod (c / 16) 16 ltac:(lia)) as H2.
  pose proof (N.div_mod (c / 256) 16 ltac:(lia)) as H3.
  rewrite N.Div0.div_div in H2, H3.
  change (16 * 16)%N with 256%N in H2. change (256 * 16)%N with 4096%N in H3.
  lia.
Qed.

Lemma parse_unicode_escape c r :
  (c < 65536)%N →
  parse_chars (unicode_escape c ++ r) =
  '(t, r') ← parse_chars r; Some (c :: t, r').
Proof.
  intros Hc. unfold unicode_escape.
  cbn [app parse_chars]. 
  change (92 =? 34)%N with false. change (92 =? 92)%N with true.
  change (117 =? 117)%N with true. cbv iota.
  rewrite !hex_value_hex_digit by (apply N.mod_lt; lia).
  cbn [mbind option_bind]. rewrite hex_split by done. done.
Qed.

Lemma parse_raw c r :
  (32 ≤ c)%N → c ≠ 34%N → c ≠ 92%N →
  parse_chars (c :: r) = '(t, r') ← parse_chars r; Some (c :: t, r').
Proof.
  intros H1 H2 H3. cbn [parse_chars].
  apply N.eqb_neq in H2, H3. apply N.ltb_ge in H1. by rewrite H2, H3, H1.
Qed.

Lemma parse_escape c e r :
  escape c = Some e →
  parse_chars (e ++ r) = '(t, r') ← parse_chars r; Some (c :: t, r').
Proof.
  unfold escape. intros He.
  repeat match type of He with
         | (if ?b then _ else _) = _ => destruct b eqn:?
         end; nbool; simplify_eq; try done.
  apply parse_unicode_escape. lia.
Qed.

Lemma escape_None c : escape c = None → (32 ≤ c)%N ∧ c ≠ 34%N ∧ c ≠ 92%N.
Proof.
  unfold escape. intros He.
  repeat match type of He with
         | (if ?b then _ else _) = _ => destruct b eqn:?
         end; nbool; simplify_eq. lia.
Qed.

Lemma parse_chars_quote s : ∀ b rest,
  parse_chars (quote_chars b s ++ 34%N :: rest) = Some (s, rest).
Proof.
  induction s as [|c r IH]; intros b rest; [done|].
  cbn [quote_chars]. rewrite <-app_assoc.
  destruct (escape c) as [e|] eqn:He.
  { by rewrite (parse_escape _ _ _ He), IH. }
  apply escape_None in He as (H1 & H2 & H3).
  assert (Hraw : parse_chars ([c] ++ quote_chars (is_high c) r ++ 34%N :: rest)
                 = Some (c :: r, rest)).
  { cbn [app]. by rewrite parse_raw, IH. }
  assert (Hu : (c < 65536)%N →
    parse_chars (unicode_escape c ++ quote_chars (is_high c) r ++ 34%N :: rest)
    = Some (c :: r, rest)).
  { intros. by rewrite parse_unicode_escape, IH. }
  destruct (is_high c) eqn:Hh.
  { unfold is_high in Hh. nbool.
    destruct r as [|d r']; [apply Hu; lia|].
    destruct (is_low d); [done | apply Hu; lia]. }
  destruct (is_low c) eqn:Hl; [|done].
  unfold is_low in Hl. nbool.
  destruct b; [done | apply Hu; lia].
Qed.

(** Numbers *)



Lemma hd_ok_app P t r : t ≠ [] → hd_ok P t → hd_ok P (t ++ r).
Proof. by destruct t. Qed.

Lemma hd_ok_impl (P Q : N → Prop) r : (∀ c, P c → Q c) → hd_ok P r → hd_ok Q r.
Proof. destruct r; simpl; auto. Qed.

Lemma span_digits_inv s ds r :
  span_digits s = (ds, r) →
  s = ds ++ r ∧ hd_ok (λ c, is_digit c = true) ds ∧
  ∀ r', hd_ok (λ c, is_digit c = false) r' → span_digits (ds ++ r') = (ds, r').
Proof.
  revert ds r. induction s as [|c s IH]; intros ds r; cbn [span_digits].
  { intros [= <- <-]. split_and!; try done. by intros [|c r']; simpl; [|intros Hr; rewrite Hr]. }
  destruct (is_digit c) eqn:Hc.
  - destruct (span_digits s) as [ds' r0] eqn:Hs. intros [= <- <-].
    destruct (IH _ _ eq_refl) as (-> & _ & Hre). split_and!; try done.
    intros r' Hr'. cbn [app span_digits]. by rewrite Hc, Hre.
  - intros [= <- <-]. split_and!; try done.
    by intros [|c' r']; simpl; [|intros Hr; rewrite Hr].
Qed.

Lemma digits1_inv s ds r :
  digits1 s = Some (ds, r) →
  s = ds ++ r ∧ ds ≠ [] ∧ hd_ok (λ c, is_digit c = true) ds ∧
  ∀ r', hd_ok (λ c, is_digit c = false) r' → digits1 (ds ++ r') = Some (ds, r').
Proof.
  unfold digits1. destruct (span_digits s) as [ds' r0] eqn:Hs.
  destruct ds' as [|d ds']; [done|]. intros [= <- <-].
  destruct (span_digits_inv _ _ _ Hs) as (-> & Hd & Hre). split_and!; try done.
  intros r' Hr'. by rewrite Hre.
Qed.

Lemma scan_int_inv s i r :
  scan_int s = Some (i, r) →
  s = i ++ r ∧ i ≠ [] ∧ hd_ok (λ c, is_digit c = true) i ∧
  ∀ r', hd_ok (λ c, is_digit c = false) r' → scan_int (i ++ r') = Some (i, r').
Proof.
  unfold scan_int. destruct s as [|c s]; [done|].
  destruct (c =? 48)%N eqn:Hc.
  - intros [= <- <-]. nbool. subst. done.
  - intros (Hs & Hi & Hd & Hre)%digits1_inv. split_and!; try done.
    intros r' Hr'. destruct i as [|d i]; [done|]. simplify_eq/=.
    rewrite Hc. by apply Hre.
Qed.

Lemma scan_frac_inv s f r :
  scan_frac s = Some (f, r) →
  s = f ++ r ∧ hd_ok (λ c, c = 46%N) f ∧
  ∀ r', hd_ok (λ c, is_digit c = false ∧ c ≠ 46%N) r' →
        scan_frac (f ++ r') = Some (f, r').
Proof.
  unfold scan_frac. destruct s as [|c s].
  { intros [= <- <-]. split_and!; try done.
    intros [|c r'] Hr'; [done|]. simpl in *. destruct Hr' as [_ Hr'].
    apply N.eqb_neq in Hr'. by rewrite Hr'. }
  destruct (c =? 46)%N eqn:Hc.
  - destruct (digits1 s) as [[ds r0]|] eqn:Hs; [|done]. intros [= <- <-].
    apply digits1_inv in Hs as (-> & _ & _ & Hre). nbool. split_and!; try done.
    intros r' Hr'. cbn [app]. rewrite Hc, Hre; [done|].
    eapply hd_ok_impl, Hr'. (intros ?; cbv beta; tauto).
  - intros [= <- <-]. split_and!; try done.
    intros [|c' r'] Hr'; [done|]. simpl in *. destruct Hr' as [_ Hr'].
    apply N.eqb_neq in Hr'. by rewrite Hr'.
Qed.

Lemma scan_exp_inv s e r :
  scan_exp s = Some (e, r) →
  s = e ++ r ∧ hd_ok (λ c, c = 101%N ∨ c = 69%N) e ∧
  ∀ r', hd_ok (λ c, is_digit c = false ∧ c ≠ 101%N ∧ c ≠ 69%N) r' →
        scan_exp (e ++ r') = Some (e, r').
Proof.
  assert (Hnil : ∀ r', hd_ok (λ c, is_digit c = false ∧ c ≠ 101%N ∧ c ≠ 69%N) r' →
                       scan_exp r' = Some ([], r')).
  { intros [|c' r'] Hr'; [done|]. simpl in *. destruct Hr' as (_ & H1 & H2).
    apply N.eqb_neq in H1, H2. by rewrite H1, H2. }
  unfold scan_exp. destruct s as [|c s].
  { intros [= <- <-]. split_and!; try done. }
  destruct ((c =? 101) || (c =? 69))%N eqn:Hc.
  - destruct s as [|g s]; [done|].
    destruct ((g =? 43) || (g =? 45))%N eqn:Hg.
    + destruct (digits1 s) as [[ds r0]|] eqn:Hs; [|done]. intros [= <- <-].
      apply digits1_inv in Hs as (-> & _ & _ & Hre). split_and!; try done.
      { simpl. nbool; auto. }
      intros r' Hr'. cbn [app]. rewrite Hc, Hg, Hre; [done|].
      eapply hd_ok_impl, Hr'. (intros ?; cbv beta; tauto).
    + destruct (digits1 (g :: s)) as [[ds r0]|] eqn:Hs; [|done]. intros [= <- <-].
      apply digits1_inv in Hs as (Hs & Hne & Hd & Hre). split_and!; try done.
      { by rewrite Hs. } { simpl. nbool; auto. }
      intros r' Hr'. destruct ds as [|d ds]; [done|]. simplify_eq/=.
      rewrite Hc, Hg.
      cbn [app]. rewrite Hre; [done|]. eapply hd_ok_impl, Hr'. (intros ?; cbv beta; tauto).
  - intros [= <- <-]. split_and!; try done.
Qed.

Lemma scan_sign_inv s sg r :
  scan_sign s = (sg, r) →
  s = sg ++ r ∧ ∀ r', hd_ok (λ c, c ≠ 45%N) r' → scan_sign (sg ++ r') = (sg, r').
Proof.
  unfold scan_sign. destruct s as [|c s].
  { intros [= <- <-]. split; [done|]. intros [|c r'] Hr'; [done|].
    simpl in *. apply N.eqb_neq in Hr'. by rewrite Hr'. }
  destruct (c =? 45)%N eqn:Hc.
  - intros [= <- <-]. split; [done|]. intros r' _. simpl. by rewrite Hc.
  - intros [= <- <-]. split; [done|]. intros [|c' r'] Hr'; [done|].
    simpl in *. apply N.eqb_neq in Hr'. by rewrite Hr'.
Qed.

Lemma digit_facts c :
  is_digit c = true → c ≠ 45%N ∧ c ≠ 46%N ∧ c ≠ 101%N ∧ c ≠ 69%N.
Proof. unfold is_digit. intros. nbool. lia. Qed.

Lemma scan_number_inv s lit r :
  scan_number s = Some (lit, r) →
  s = lit ++ r ∧ lit ≠ [] ∧
  hd_ok (λ c, c = 45%N ∨ is_digit c = true) lit ∧
  ∀ r', ends_number r' → scan_number (lit ++ r') = Some (lit, r').
Proof.
  unfold scan_number.
  destruct (scan_sign s) as [sg s0] eqn:Hsg.
  destruct (scan_int s0) as [[i s1]|] eqn:Hi; cbn; [|done].
  destruct (scan_frac s1) as [[f s2]|] eqn:Hf; cbn; [|done].
  destruct (scan_exp s2) as [[e s3]|] eqn:He; cbn; [|done].
  intros [= <- <-].
  apply scan_sign_inv in Hsg as (-> & Hsg).
  apply scan_int_inv in Hi as (-> & Hine & Hid & Hi).
  apply scan_frac_inv in Hf as (-> & Hfd & Hf).
  apply scan_exp_inv in He as (-> & Hed & He).
  split_and!.
  - by rewrite <-!app_assoc.
  - destruct sg, i; done.
  - destruct sg as [|c sg]; simpl.
    + destruct i; [done|]. simpl in *. auto.
    + revert Hsg. clear. intros Hsg. specialize (Hsg [] I).
      unfold scan_sign in Hsg. simpl in Hsg.
      destruct (c =? 45)%N eqn:?; nbool; [auto|]. by simplify_list_eq.
  - intros r' Hr'. rewrite <-!app_assoc.
    assert (Hfe : hd_ok (λ c, is_digit c = false ∧ c ≠ 101%N ∧ c ≠ 69%N) r').
    { eapply hd_ok_impl, Hr'. (intros ?; cbv beta; tauto). }
    assert (Hff : hd_ok (λ c, is_digit c = false ∧ c ≠ 46%N) (e ++ r')).
    { destruct e as [|c e]; simpl.
      - eapply hd_ok_impl, Hr'. (intros ?; cbv beta; tauto).
      - simpl in Hed. destruct Hed as [-> | ->]; (split; [reflexivity | discriminate]). }
    assert (Hii : hd_ok (λ c, is_digit c = false) (f ++ e ++ r')).
    { destruct f as [|c f]; simpl.
      - eapply hd_ok_impl, Hff. (intros ?; cbv beta; tauto).
      - simpl in Hfd. by subst. }
    rewrite Hsg.
    2:{ destruct i as [|c i]; [done|]. simpl in *. by apply digit_facts in Hid as [? _]. }
    rewrite Hi by done. cbn. rewrite Hf by done. cbn. rewrite He by done. done.
Qed.

Lemma number_literal_scan lit r :
  number_literal lit → ends_number r → scan_number (lit ++ r) = Some (lit, r).
Proof. intros (_ & _ & _ & H)%scan_number_inv. apply H. Qed.

Lemma scan_number_literal s lit r :
  scan_number s = Some (lit, r) → number_literal lit.
Proof.
  intros (_ & _ & _ & H)%scan_number_inv. unfold number_literal.
  rewrite <-(app_nil_r lit) at 1. by apply H.
Qed.

(** ** The text of a value parses back *)





Lemma serialize_arr l :
  serialize (VArr l) = Some ([91%N] ++ elements_of l ++ [93%N]).
Proof.
  reflexivity.
Qed.

Lemma serialize_obj ps :
  serialize (VObj ps) = Some ([123%N] ++ members_of true ps ++ [125%N]).
Proof.
  reflexivity.
Qed.

Lemma value_ind' (P : value → Prop) :
  P VUndefined → P VNull → (∀ b, P (VBool b)) → (∀ lit, P (VNum lit)) →
  (∀ s, P (VStr s)) →
  (∀ l, Forall P l → P (VArr l)) →
  (∀ ps, Forall (λ p, P p.2) ps → P (VObj ps)) →
  ∀ v, P v.
Proof.
  intros Hu Hn Hb Hnum Hs Ha Ho. fix IH 1.
  intros [| |b|lit|s|l|ps];
    [exact Hu | exact Hn | apply Hb | apply Hnum | apply Hs | apply Ha | apply Ho].
  - induction l as [|x l IHl]; constructor; [apply IH | exact IHl].
  - induction ps as [|[k x] ps IHps]; constructor; [apply IH | exact IHps].
Qed.

Lemma serialize_None v : serialize v = None ↔ v = VUndefined.
Proof.
  by destruct v as [| |[]| | | |].
Qed.

Lemma jsonify_None v : jsonify v = None ↔ v = VUndefined.
Proof. by destruct v. Qed.


Lemma skip_ws_starts t : starts_value t → skip_ws t = t.
Proof. destruct t as [|c t]; [done|]. simpl. by intros [-> _]. Qed.

Lemma starts_value_app t r : starts_value t → starts_value (t ++ r).
Proof. by destruct t. Qed.

Lemma serialize_starts v :
  wf v = true → starts_value (default (js "null") (serialize v)).
Proof.
  destruct v as [| |[]|lit| | |]; try (by vm_compute).
  simpl. intros Hlit%bool_decide_eq_true.
  apply scan_number_inv in Hlit as (_ & Hne & Hd & _).
  destruct lit as [|c lit]; [done|]. simpl in *.
  destruct Hd as [-> | Hd]; [by vm_compute|].
  unfold is_digit, is_ws in *. nbool. split_and!; try lia.
  repeat (apply orb_false_iff; split); apply N.eqb_neq; lia.
Qed.

Lemma set_prop_fresh k x acc : k ∉ acc.*1 → set_prop k x acc = acc ++ [(k, x)].
Proof.
  induction acc as [|[k' y] acc IH]; [done|]. cbn [set_prop fmap list_fmap].
  intros Hk. apply not_elem_of_cons in Hk as [Hne Hk]. simpl in Hne.
  destruct (decide (k' = k)); [done|]. by rewrite IH.
Qed.


Lemma ends_number_sep c rest :
  c = 44%N ∨ c = 93%N ∨ c = 125%N → ends_number (c :: rest).
Proof. intros [-> | [-> | ->]]; by vm_compute. Qed.

Lemma parse_elements_round l : ∀ x fuel rest acc,
  Forall round_trips (x :: l) →
  list_sum ((λ x, S (vsize x)) <$> (x :: l)) ≤ fuel →
  parse_elements fuel (elements_of (x :: l) ++ 93%N :: rest) acc =
  Some (VArr (acc ++ ((λ x, default VNull (jsonify x)) <$> (x :: l))), rest).
Proof.
  induction l as [|y l IH]; intros x fuel rest acc Hrt Hfuel.
  - apply Forall_cons in Hrt as [Hx _]. cbn [fmap list_fmap list_sum fold_right] in *.
    destruct fuel as [|fuel]; [lia|]. cbn [parse_elements elements_of].
    rewrite app_nil_r, Hx; [|lia|by apply ends_number_sep; auto].
    done.
  - apply Forall_cons in Hrt as [Hx Hrt]. cbn [fmap list_fmap list_sum fold_right] in Hfuel.
    destruct fuel as [|fuel]; [lia|]. cbn [parse_elements].
    change (elements_of (x :: y :: l)) with
      (default (js "null") (serialize x) ++ [44%N] ++ elements_of (y :: l)).
    rewrite <-!app_assoc.
    rewrite Hx; [|lia|by apply ends_number_sep; auto].
    remember (elements_of (y :: l)) as t eqn:Ht. cbn. subst t.
    rewrite IH; [|done|cbn [fmap list_fmap list_sum fold_right]; lia].
    by rewrite <-app_assoc.
Qed.


Lemma jprops_cons_undefined k ps : jprops ((k, VUndefined) :: ps) = jprops ps.
Proof. done. Qed.

Lemma jprops_cons k x j ps :
  jsonify x = Some j → jprops ((k, x) :: ps) = (k, j) :: jprops ps.
Proof. intros Hj. unfold jprops. cbn [omap list_omap]. simpl. by rewrite Hj. Qed.

Lemma members_of_false ps :
  members_of false ps =
  match jprops ps with [] => [] | _ => 44%N :: members_of true ps end.
Proof.
  induction ps as [|[k x] ps IH]; [done|].
  destruct (jsonify x) as [j|] eqn:Hj.
  - rewrite (jprops_cons _ _ _ _ Hj). cbn [members_of].
    destruct (serialize x) eqn:Hs; [done|].
    apply serialize_None in Hs as ->. done.
  - apply jsonify_None in Hj as ->. by rewrite jprops_cons_undefined.
Qed.

Lemma members_of_true_starts ps :
  jprops ps ≠ [] → ∃ t, members_of true ps = 34%N :: t.
Proof.
  induction ps as [|[k x] ps IH]; [done|]. intros Hne.
  cbn [members_of]. destruct (serialize x) eqn:Hs; [by eexists|].
  apply serialize_None in Hs as ->. by apply IH.
Qed.

Lemma serialize_jsonify v : is_Some (serialize v) ↔ is_Some (jsonify v).
Proof.
  rewrite <-!not_eq_None_Some, serialize_None, jsonify_None. done.
Qed.

Lemma parse_members_round ps : ∀ fuel rest acc,
  Forall (λ p, round_trips p.2) ps →
  list_sum ((λ p, if is_undefined p.2 then 0 else S (vsize p.2)) <$> ps) ≤ fuel →
  NoDup (acc.*1 ++ (jprops ps).*1) →
  jprops ps ≠ [] →
  parse_members fuel (members_of true ps ++ 125%N :: rest) acc =
  Some (VObj (acc ++ jprops ps), rest).
Proof.
  induction ps as [|[k x] ps IH]; intros fuel rest acc Hrt Hfuel Hnd Hne; [done|].
  apply Forall_cons in Hrt as [Hx Hrt].
  rewrite fmap_cons in Hfuel. cbn [list_sum fold_right snd] in Hfuel.
  fold (list_sum ((λ p : list N * value,
                     if is_undefined p.2 then 0 else S (vsize p.2)) <$> ps)) in Hfuel.
  cbn [snd] in Hx.
  destruct (serialize x) as [t|] eqn:Hs.
  2:{ apply serialize_None in Hs as ->. cbn [members_of]. simpl.
      rewrite jprops_cons_undefined in *. by apply IH. }
  destruct (jsonify x) as [j|] eqn:Hj.
  2:{ apply jsonify_None in Hj as ->. done. }
  rewrite (jprops_cons _ _ _ _ Hj) in *.
  assert (is_undefined x = false) as Hu by (by destruct x).
  rewrite Hu in Hfuel.
  destruct fuel as [|fuel]; [lia|].
  cbn [members_of]. rewrite Hs. cbn [app]. unfold quote.
  rewrite <-!app_assoc. cbn [parse_members app skip_ws is_ws].
  change (is_ws 34) with false. cbv iota. change (34 =? 34)%N with true. cbv iota.
  rewrite parse_chars_quote. cbn [mbind option_bind skip_ws].
  change (is_ws 58) with false. cbv iota. change (58 =? 58)%N with true. cbv iota.
  assert (Hfresh : k ∉ acc.*1).
  { intros Hin. apply NoDup_app in Hnd as (_ & Hnd & _).
    apply (Hnd k Hin). by left. }
  specialize (Hx fuel). rewrite Hs, Hj in Hx. cbn [default from_option id] in Hx.
  rewrite members_of_false. destruct (jprops ps) as [|p0 jps] eqn:Hjps.
  - rewrite app_nil_r. rewrite Hx; [|lia|by apply ends_number_sep; auto].
    cbn. by rewrite set_prop_fresh.
  - rewrite <-app_assoc. cbn [app].
    rewrite Hx; [|lia|by apply ends_number_sep; auto].
    remember (members_of true ps) as m. cbn. subst m.
    rewrite set_prop_fresh by done.
    rewrite IH; try done; [|lia|].
    + by rewrite <-app_assoc.
    + by rewrite fmap_app, <-app_assoc.
Qed.

Lemma jprops_keys ps : (jprops ps).*1 `sublist_of` ps.*1.
Proof.
  induction ps as [|[k x] ps IH]; [done|].
  destruct (jsonify x) as [j|] eqn:Hj.
  - rewrite (jprops_cons _ _ _ _ Hj). by apply sublist_skip.
  - apply jsonify_None in Hj as ->. rewrite jprops_cons_undefined.
    by apply sublist_cons.
Qed.

Lemma wf_arr l : wf (VArr l) = true ↔ Forall (λ x, wf x = true) l.
Proof. cbn [wf]. by rewrite forallb_forall, Forall_forall; setoid_rewrite list_elem_of_In. Qed.

Lemma wf_obj ps :
  wf (VObj ps) = true ↔ NoDup ps.*1 ∧ Forall (λ p, wf p.2 = true) ps.
Proof.
  cbn [wf]. rewrite andb_true_iff, bool_decide_eq_true, forallb_forall, Forall_forall.
  by setoid_rewrite list_elem_of_In.
Qed.

Lemma parse_literal lit v fuel rest c t :
  lit = c :: t → is_ws c = false →
  (c =? 34)%N = false → (c =? 91)%N = false → (c =? 123)%N = false →
  (if (c =? 116)%N then expect (js "true") (VBool true) (lit ++ rest)
   else if (c =? 102)%N then expect (js "false") (VBool false) (lit ++ rest)
   else if (c =? 110)%N then expect (js "null") VNull (lit ++ rest)
   else '(lit, r') ← scan_number (lit ++ rest); Some (VNum lit, r')) = Some (v, rest) →
  parse_value (S fuel) (lit ++ rest) = Some (v, rest).
Proof.
  intros -> Hws H1 H2 H3 Hv. cbn [parse_value app skip_ws].
  by rewrite Hws, H1, H2, H3.
Qed.

Lemma round_trip v : wf v = true → round_trips v.
Proof.
  induction v as [| |b|lit|s|l IH|ps IH] using value_ind';
    intros Hwf fuel rest Hfuel Hrest; (destruct fuel as [|fuel]; [simpl in Hfuel; lia|]).
  - by eapply parse_literal.
  - by eapply parse_literal.
  - destruct b; by eapply parse_literal.
  - simpl in Hwf. apply bool_decide_eq_true in Hwf.
    cbn [serialize jsonify default from_option id].
    pose proof (scan_number_inv _ _ _ Hwf) as (_ & Hne & Hd & _).
    destruct lit as [|c lit]; [done|]. simpl in Hd.
    eapply parse_literal; [done|..].
    1-4: destruct Hd as [-> | Hd]; [done|]; unfold is_digit, is_ws in *; nbool;
         repeat (apply orb_false_iff; split); apply N.eqb_neq; lia.
    assert (c ≠ 116 ∧ c ≠ 102 ∧ c ≠ 110)%N as (H1 & H2 & H3).
    { destruct Hd as [-> | Hd]; [done|]. unfold is_digit in *. nbool. lia. }
    apply N.eqb_neq in H1, H2, H3. rewrite H1, H2, H3.
    by rewrite number_literal_scan.
  - cbn [serialize jsonify default from_option id]. unfold quote.
    rewrite <-!app_assoc. cbn [app parse_value skip_ws].
    change (is_ws 34) with false. cbv iota. change (34 =? 34)%N with true. cbv iota.
    by rewrite parse_chars_quote.
  - rewrite serialize_arr. cbn [jsonify default from_option id].
    apply wf_arr in Hwf.
    assert (Hrt : Forall round_trips l).
    { rewrite Forall_forall in *. auto. }
    cbn [vsize] in Hfuel. apply le_S_n in Hfuel.
    rewrite <-!app_assoc. cbn [app parse_value skip_ws].
    change (is_ws 91) with false. cbv iota.
    change (91 =? 34)%N with false. change (91 =? 91)%N with true. cbv iota.
    destruct l as [|x l]; [done|].
    assert (Hst : starts_value (elements_of (x :: l) ++ 93%N :: rest)).
    { apply starts_value_app. cbn [elements_of]. apply starts_value_app.
      apply serialize_starts. by apply Forall_cons in Hwf as [? _]. }
    rewrite skip_ws_starts by done.
    destruct (elements_of (x :: l) ++ 93%N :: rest) as [|d r'] eqn:Hd; [done|].
    destruct Hst as (_ & Hd93 & _). apply N.eqb_neq in Hd93. rewrite Hd93.
    rewrite <-Hd. by rewrite parse_elements_round.
  - rewrite serialize_obj. cbn [jsonify default from_option id].
    apply wf_obj in Hwf as [Hnd Hwf].
    assert (Hrt : Forall (λ p, round_trips p.2) ps).
    { rewrite Forall_forall in *. auto. }
    cbn [vsize] in Hfuel. apply le_S_n in Hfuel.
    rewrite <-!app_assoc. cbn [app parse_value skip_ws].
    change (is_ws 123) with false. cbv iota.
    change (123 =? 34)%N with false. change (123 =? 91)%N with false.
    change (123 =? 123)%N with true. cbv iota.
    fold (jprops ps).
    destruct (jprops ps) as [|p0 jps] eqn:Hjps.
    + pose proof (members_of_false ps) as Hm. rewrite Hjps in Hm.
      assert (members_of true ps = []) as ->; [|done].
      revert Hjps. clear. induction ps as [|[k x] ps IH]; [done|].
      destruct (jsonify x) as [j|] eqn:Hj.
      * by rewrite (jprops_cons _ _ _ _ Hj).
      * apply jsonify_None in Hj as ->. rewrite jprops_cons_undefined. by apply IH.
    + destruct (members_of_true_starts ps) as [t Ht]; [by rewrite Hjps|].
      pose proof (parse_members_round ps fuel rest [] Hrt Hfuel) as Hp.
      rewrite Ht in *. cbn [app skip_ws]. change (is_ws 34) with false. cbv iota.
      change (34 =? 125)%N with false. cbv iota.
      cbn [app] in Hp. rewrite Hp; [by rewrite Hjps| |by rewrite Hjps].
      eapply sublist_NoDup; [done | apply jprops_keys].
Qed.

Lemma length_elements_of l :
  Forall (λ x, vsize x < 2 * length (default (js "null") (serialize x))) l →
  list_sum ((λ x, S (vsize x)) <$> l) ≤ 2 * length (elements_of l).
Proof.
  induction 1 as [|x l Hx _ IH]; [done|].
  rewrite fmap_cons. cbn [list_sum fold_right elements_of].
  fold (list_sum ((λ x, S (vsize x)) <$> l)).
  rewrite length_app. destruct l as [|y l]; [simpl in *; lia|].
  rewrite length_app. cbn [length]. lia.
Qed.

Lemma length_members_of ps : ∀ first,
  Forall (λ p, vsize p.2 < 2 * length (default (js "null") (serialize p.2))) ps →
  list_sum ((λ p, if is_undefined p.2 then 0 else S (vsize p.2)) <$> ps)
  ≤ 2 * length (members_of first ps).
Proof.
  induction ps as [|[k x] ps IH]; intros first Hps; [simpl; lia|].
  apply Forall_cons in Hps as [Hx Hps]. cbn [snd] in Hx.
  rewrite fmap_cons. cbn [list_sum fold_right members_of snd].
  fold (list_sum ((λ p : list N * value,
                     if is_undefined p.2 then 0 else S (vsize p.2)) <$> ps)).
  destruct (serialize x) as [t|] eqn:Hs.
  - assert (is_undefined x = false) as -> by (by destruct x).
    cbn [default from_option id] in Hx.
    rewrite !length_app. specialize (IH false Hps). lia.
  - apply serialize_None in Hs as ->. cbn [is_undefined]. by apply IH.
Qed.

Lemma vsize_length v :
  wf v = true → vsize v < 2 * length (default (js "null") (serialize v)).
Proof.
  induction v as [| |b|lit|s|l IH|ps IH] using value_ind'; intros Hwf.
  - simpl. lia.
  - simpl. lia.
  - destruct b; simpl; lia.
  - simpl in *. apply bool_decide_eq_true in Hwf.
    apply scan_number_inv in Hwf as (_ & Hne & _). destruct lit; [done|]. simpl. lia.
  - cbn [serialize default from_option id vsize]. unfold quote.
    rewrite !length_app. simpl. lia.
  - rewrite serialize_arr. cbn [default from_option id vsize].
    apply wf_arr in Hwf. rewrite !length_app. cbn [length].
    assert (Hl := length_elements_of l).
    assert (Forall (λ x, vsize x < 2 * length (default (js "null") (serialize x))) l)
      as Hall by (rewrite Forall_forall in *; auto).
    specialize (Hl Hall). lia.
  - rewrite serialize_obj. cbn [default from_option id vsize].
    apply wf_obj in Hwf as [_ Hwf]. rewrite !length_app. cbn [length].
    assert (Hl := length_members_of ps true).
    assert (Forall (λ p, vsize p.2 < 2 * length (default (js "null") (serialize p.2))) ps)
      as Hall by (rewrite Forall_forall in *; auto).
    specialize (Hl Hall). lia.
Qed.

(** [JSON.parse(JSON.stringify(v))] *)
Theorem parse_stringify v : wf v = true → parse (stringify v) = jsonify v.
Proof.
  intros Hwf. destruct (serialize v) as [t|] eqn:Hs.
  - pose proof (round_trip v Hwf (2 * length t + 2) []) as Hrt.
    pose proof (vsize_length v Hwf) as Hlen.
    unfold stringify, parse. rewrite Hs in *. cbn [default from_option id] in *.
    rewrite app_nil_r in Hrt. rewrite Hrt; [|lia|done].
    cbn. by destruct v.
  - apply serialize_None in Hs as ->. by vm_compute.
Qed.

(** ** What the parser returns *)

Lemma json_arr l : json (VArr l) = true ↔ Forall (λ x, json x = true) l.
Proof. cbn [json]. by rewrite forallb_forall, Forall_forall; setoid_rewrite list_elem_of_In. Qed.

Lemma json_obj ps :
  json (VObj ps) = true ↔ NoDup ps.*1 ∧ Forall (λ p, json p.2 = true) ps.
Proof.
  cbn [json]. rewrite andb_true_iff, bool_decide_eq_true, forallb_forall, Forall_forall.
  by setoid_rewrite list_elem_of_In.
Qed.

Lemma set_prop_keys k x ps :
  (set_prop k x ps).*1 = if decide (k ∈ ps.*1) then ps.*1 else ps.*1 ++ [k].
Proof.
  induction ps as [|[k' y] ps IH]; [done|]. cbn [set_prop].
  destruct (decide (k' = k)) as [->|Hne].
  - rewrite decide_True by (by left). done.
  - rewrite !fmap_cons, IH. cbn [fst].
    destruct (decide (k ∈ ps.*1)) as [Hin|Hnin].
    + rewrite decide_True by (by right). done.
    + rewrite decide_False; [done|]. by intros [?|?]%elem_of_cons.
Qed.

Lemma set_prop_NoDup k x ps : NoDup ps.*1 → NoDup (set_prop k x ps).*1.
Proof.
  intros Hnd. rewrite set_prop_keys. case_decide; [done|].
  apply NoDup_app. split_and!; [done| |apply NoDup_singleton].
  intros k' Hin ->%list_elem_of_singleton. done.
Qed.

Lemma set_prop_Forall (P : value → Prop) k x ps :
  P x → Forall (λ p, P p.2) ps → Forall (λ p, P p.2) (set_prop k x ps).
Proof.
  intros Hx. induction 1 as [|[k' y] ps Hy Hps IH]; cbn [set_prop].
  { by constructor. }
  destruct (decide (k' = k)); constructor; done.
Qed.

Lemma lookup_set_prop k x ps : lookup_prop k (set_prop k x ps) = x.
Proof.
  induction ps as [|[k' y] ps IH]; cbn [set_prop lookup_prop].
  { by rewrite decide_True. }
  destruct (decide (k' = k)); cbn [lookup_prop].
  - by rewrite decide_True.
  - by rewrite decide_False.
Qed.

Lemma lookup_set_prop_ne k k' x ps :
  k ≠ k' → lookup_prop k' (set_prop k x ps) = lookup_prop k' ps.
Proof.
  intros Hne. induction ps as [|[k0 y] ps IH]; cbn [set_prop lookup_prop].
  { by rewrite decide_False. }
  destruct (decide (k0 = k)) as [->|]; cbn [lookup_prop].
  - by rewrite !decide_False.
  - by rewrite IH.
Qed.

Lemma expect_json lit v s v' r :
  expect lit v s = Some (v', r) → v' = v.
Proof. unfold expect. case_decide; naive_solver. Qed.

Lemma parse_value_json fuel :
  (∀ s v r, parse_value fuel s = Some (v, r) → json v = true) ∧
  (∀ s acc v r, parse_elements fuel s acc = Some (v, r) →
                Forall (λ x, json x = true) acc → json v = true) ∧
  (∀ s acc v r, parse_members fuel s acc = Some (v, r) →
                NoDup acc.*1 → Forall (λ p, json p.2 = true) acc → json v = true).
Proof.
  induction fuel as [|fuel (IHv & IHe & IHm)]; [done|]. split_and!.
  - intros s v r. cbn [parse_value].
    destruct (skip_ws s) as [|c t]; [done|].
    repeat match goal with
           | |- (if ?b then _ else _) = _ → _ => destruct b eqn:?
           end.
    + destruct (parse_chars t) as [[u r']|]; [|done]. by intros [= <- <-].
    + destruct (skip_ws t) as [|d r']; [done|].
      destruct (d =? 93)%N; [by intros [= <- <-]|].
      intros H. by eapply IHe.
    + destruct (skip_ws t) as [|d r']; [done|].
      destruct (d =? 125)%N; [by intros [= <- <-]|].
      intros H. eapply IHm; [done|constructor|done].
    + by intros ->%expect_json.
    + by intros ->%expect_json.
    + by intros ->%expect_json.
    + destruct (scan_number (c :: t)) as [[lit r']|] eqn:Hn; [|done].
      intros [= <- <-]. cbn [json]. apply bool_decide_eq_true.
      by eapply scan_number_literal.
  - intros s acc v r. cbn [parse_elements].
    destruct (parse_value fuel s) as [[x r0]|] eqn:Hx; [|done]. cbn.
    apply IHv in Hx.
    assert (Forall (λ x, json x = true) acc → Forall (λ x, json x = true) (acc ++ [x])).
    { intros. apply Forall_app. split; [done|]. by constructor. }
    destruct (skip_ws r0) as [|d r']; [done|].
    destruct (d =? 44)%N; [intros H1 H2; eapply IHe; eauto|].
    destruct (d =? 93)%N; [|done]. intros [= <- <-] Hacc. apply json_arr. auto.
  - intros s acc v r. cbn [parse_members].
    destruct (skip_ws s) as [|q t]; [done|].
    destruct (q =? 34)%N; [|done].
    destruct (parse_chars t) as [[k r1]|]; [|done]. cbn.
    destruct (skip_ws r1) as [|c r2]; [done|].
    destruct (c =? 58)%N; [|done].
    destruct (parse_value fuel r2) as [[x r3]|] eqn:Hx; [|done]. cbn.
    apply IHv in Hx.
    destruct (skip_ws r3) as [|d r']; [done|].
    destruct (d =? 44)%N.
    { intros H1 H2 H3. eapply IHm; [done| |].
      - by apply set_prop_NoDup.
      - by apply (set_prop_Forall (λ x, json x = true)). }
    destruct (d =? 125)%N; [|done]. intros [= <- <-] Hnd Hacc. apply json_obj. split.
    + by apply set_prop_NoDup.
    + by apply (set_prop_Forall (λ x, json x = true)).
Qed.

(** What [JSON.parse] returns is a value of the JSON data model. *)
Theorem parse_json s v : parse s = Some v → json v = true.
Proof.
  unfold parse. destruct (parse_value _ s) as [[v' r]|] eqn:Hp; [|done]. cbn.
  destruct (skip_ws r); [|done]. intros [= <-].
  by eapply (proj1 (parse_value_json _)).
Qed.

Lemma json_wf_jsonify v : json v = true → wf v = true ∧ jsonify v = Some v.
Proof.
  induction v as [| |b|lit|s|l IH|ps IH] using value_ind'; intros Hj; try done.
  - apply json_arr in Hj. split.
    + apply wf_arr. rewrite Forall_forall in *. intros x Hx. by apply IH, Hj.
    + cbn [jsonify]. do 2 f_equal.
      induction l as [|x l IHl]; [done|].
      apply Forall_cons in IH as [IHx IH], Hj as [Hx Hj].
      rewrite fmap_cons, IHl by done. destruct (IHx Hx) as [_ ->]. done.
  - apply json_obj in Hj as [Hnd Hj]. split.
    + apply wf_obj. split; [done|].
      rewrite Forall_forall in *. intros x Hx. by apply IH, Hj.
    + cbn [jsonify]. do 2 f_equal.
      clear Hnd. induction ps as [|[k x] ps IHps]; [done|].
      apply Forall_cons in IH as [IHx IH], Hj as [Hx Hj].
      cbn [omap list_omap]. rewrite IHps by done. simpl in *.
      destruct (IHx Hx) as [_ ->]. done.
Qed.

(** ** [JSON.parse] has fuel enough *)

Lemma skip_ws_length s : length (skip_ws s) ≤ length s.
Proof.
  induction s as [|c s IH]; [done|]. cbn [skip_ws].
  destruct (is_ws c); simpl; lia.
Qed.

Lemma parse_chars_length s : ∀ t r, parse_chars s = Some (t, r) → length r < length s.
Proof.
  induction s as [s IH] using (induction_ltof1 _ (@length N)). unfold ltof in IH.
  intros t r. destruct s as [|c s]; [done|]. cbn [parse_chars].
  destruct (c =? 34)%N; [intros [= <- <-]; simpl; lia|].
  destruct (c =? 92)%N.
  - destruct s as [|e s1]; [done|].
    destruct (e =? 117)%N.
    + destruct s1 as [|h1 [|h2 [|h3 [|h4 s2]]]]; try done.
      destruct (hex_value h1), (hex_value h2), (hex_value h3), (hex_value h4); try done.
      cbn [mbind option_bind].
      destruct (parse_chars s2) as [[t' r']|] eqn:Hp; [|done]. intros [= <- <-].
      apply IH in Hp; simpl in *; lia.
    + destruct (unescape e); [|done]. cbn [mbind option_bind].
      destruct (parse_chars s1) as [[t' r']|] eqn:Hp; [|done]. intros [= <- <-].
      apply IH in Hp; simpl in *; lia.
  - destruct (c <? 32)%N; [done|].
    destruct (parse_chars s) as [[t' r']|] eqn:Hp; [|done]. intros [= <- <-].
    apply IH in Hp; simpl in *; lia.
Qed.

Lemma scan_number_length s lit r : scan_number s = Some (lit, r) → length r < length s.
Proof.
  intros (-> & Hne & _)%scan_number_inv. rewrite length_app.
  destruct lit; [done|]. simpl. lia.
Qed.

Lemma expect_length lit v s v' r :
  lit ≠ [] → expect lit v s = Some (v', r) → length r < length s.
Proof.
  unfold expect. intros Hne. case_decide as Ht; [|done]. intros [= <- <-].
  rewrite length_drop. assert (length lit ≤ length s).
  { rewrite <-Ht, length_take. lia. }
  destruct lit; [done|]. simpl in *. lia.
Qed.

(** More fuel changes no result. *)
Lemma parse_value_mono fuel :
  (∀ s x, parse_value fuel s = Some x →
          ∀ fuel', fuel ≤ fuel' → parse_value fuel' s = Some x) ∧
  (∀ s acc x, parse_elements fuel s acc = Some x →
              ∀ fuel', fuel ≤ fuel' → parse_elements fuel' s acc = Some x) ∧
  (∀ s acc x, parse_members fuel s acc = Some x →
              ∀ fuel', fuel ≤ fuel' → parse_members fuel' s acc = Some x).
Proof.
  induction fuel as [|fuel (IHv & IHe & IHm)]; [done|]. split_and!.
  - intros s x Hx [|fuel'] Hle; [lia|]. apply le_S_n in Hle.
    revert Hx. cbn [parse_value].
    destruct (skip_ws s) as [|c t]; [done|].
    destruct (c =? 34)%N; [done|].
    destruct (c =? 91)%N.
    { destruct (skip_ws t) as [|d r']; [done|]. destruct (d =? 93)%N; [done|]. eauto. }
    destruct (c =? 123)%N; [|done].
    destruct (skip_ws t) as [|d r']; [done|]. destruct (d =? 125)%N; [done|]. eauto.
  - intros s acc x Hx [|fuel'] Hle; [lia|]. apply le_S_n in Hle.
    revert Hx. cbn [parse_elements].
    destruct (parse_value fuel s) as [[y r]|] eqn:Hy; [|done].
    rewrite (IHv _ _ Hy _ Hle). cbn [mbind option_bind].
    destruct (skip_ws r) as [|d r']; [done|].
    destruct (d =? 44)%N; [eauto | done].
  - intros s acc x Hx [|fuel'] Hle; [lia|]. apply le_S_n in Hle.
    revert Hx. cbn [parse_members].
    destruct (skip_ws s) as [|q t]; [done|].
    destruct (q =? 34)%N; [|done].
    destruct (parse_chars t) as [[k r1]|]; [|done]. cbn [mbind option_bind].
    destruct (skip_ws r1) as [|c r2]; [done|].
    destruct (c =? 58)%N; [|done].
    destruct (parse_value fuel r2) as [[y r3]|] eqn:Hy; [|done].
    rewrite (IHv _ _ Hy _ Hle). cbn [mbind option_bind].
    destruct (skip_ws r3) as [|d r']; [done|].
    destruct (d =? 44)%N; [eauto | done].
Qed.

(** A parse that reads [n] code units succeeds with fuel [2 * n]. *)
Lemma parse_value_fuel fuel :
  (∀ s v r, parse_value fuel s = Some (v, r) →
     length r < length s ∧
     parse_value (2 * (length s - length r)) s = Some (v, r)) ∧
  (∀ s acc v r, parse_elements fuel s acc = Some (v, r) →
     length r < length s ∧
     parse_elements (2 * (length s - length r) - 1) s acc = Some (v, r)) ∧
  (∀ s acc v r, parse_members fuel s acc = Some (v, r) →
     length r < length s ∧
     parse_members (2 * (length s - length r) - 1) s acc = Some (v, r)).
Proof.
  induction fuel as [|fuel (IHv & IHe & IHm)]; [done|].
  assert (Hfuel : ∀ n, 0 < n → ∃ m, 2 * n = S m ∧ 2 * n - 1 = m).
  { intros n Hn. exists (2 * n - 1). lia. }
  split_and!.
  - intros s v r Hp. pose proof (skip_ws_length s) as Hws.
    assert (Hlen : length r < length s).
    { revert Hp. cbn [parse_value].
      destruct (skip_ws s) as [|c t]; [done|]. cbn [length] in Hws.
      destruct (c =? 34)%N.
      { destruct (parse_chars t) as [[u r']|] eqn:Hu; [|done]. intros [= <- <-].
        apply parse_chars_length in Hu. lia. }
      destruct (c =? 91)%N.
      { pose proof (skip_ws_length t).
        destruct (skip_ws t) as [|d r']; [done|]. cbn [length] in *.
        destruct (d =? 93)%N; [intros [= <- <-]; lia|].
        intros [? _]%IHe. cbn [length] in *. lia. }
      destruct (c =? 123)%N.
      { pose proof (skip_ws_length t).
        destruct (skip_ws t) as [|d r']; [done|]. cbn [length] in *.
        destruct (d =? 125)%N; [intros [= <- <-]; lia|].
        intros [? _]%IHm. cbn [length] in *. lia. }
      destruct (c =? 116)%N; [intros ?%expect_length; [cbn [length] in *; lia | done]|].
      destruct (c =? 102)%N; [intros ?%expect_length; [cbn [length] in *; lia | done]|].
      destruct (c =? 110)%N; [intros ?%expect_length; [cbn [length] in *; lia | done]|].
      destruct (scan_number (c :: t)) as [[lit r']|] eqn:Hn; [|done]. intros [= <- <-].
      apply scan_number_length in Hn. cbn [length] in *. lia. }
    split; [done|].
    destruct (Hfuel (length s - length r)) as (m & Hm & _); [lia|]. rewrite Hm.
    revert Hp. cbn [parse_value].
    destruct (skip_ws s) as [|c t]; [done|]. cbn [length] in Hws.
    destruct (c =? 34)%N; [done|].
    destruct (c =? 91)%N.
    { pose proof (skip_ws_length t).
      destruct (skip_ws t) as [|d r']; [done|]. destruct (d =? 93)%N; [done|].
      intros [Hl He]%IHe. eapply (proj1 (proj2 (parse_value_mono _))); [exact He|].
      cbn [length] in *. lia. }
    destruct (c =? 123)%N; [|done].
    pose proof (skip_ws_length t).
    destruct (skip_ws t) as [|d r']; [done|]. destruct (d =? 125)%N; [done|].
    intros [Hl He]%IHm. eapply (proj2 (proj2 (parse_value_mono _))); [exact He|].
    cbn [length] in *. lia.
  - intros s acc v r. cbn [parse_elements].
    destruct (parse_value fuel s) as [[y r0]|] eqn:Hy; [|done]. cbn [mbind option_bind].
    apply IHv in Hy as [Hl0 Hy]. pose proof (skip_ws_length r0) as Hws.
    destruct (skip_ws r0) as [|d r'] eqn:Hr0; [done|]. rewrite ?Hr0 in Hws. cbn [length] in Hws.
    destruct (d =? 44)%N eqn:Hd.
    + intros [Hl He]%IHe. split; [lia|].
      destruct (Hfuel (length s - length r)) as (m & Hm & ->); [lia|].
      destruct m as [|m]; [lia|]. cbn [parse_elements].
      rewrite (proj1 (parse_value_mono _) _ _ Hy m) by lia.
      cbn [mbind option_bind]. rewrite Hr0, Hd.
      eapply (proj1 (proj2 (parse_value_mono _))); [exact He|]. lia.
    + destruct (d =? 93)%N eqn:Hd'; [|done]. intros [= <- <-]. split; [lia|].
      destruct (Hfuel (length s - length r')) as (m & Hm & ->); [lia|].
      destruct m as [|m]; [lia|]. cbn [parse_elements].
      rewrite (proj1 (parse_value_mono _) _ _ Hy m) by lia.
      cbn [mbind option_bind]. by rewrite Hr0, Hd, Hd'.
  - intros s acc v r. cbn [parse_members].
    pose proof (skip_ws_length s) as Hws.
    destruct (skip_ws s) as [|q t] eqn:Hs; [done|]. rewrite ?Hs in Hws. cbn [length] in Hws.
    destruct (q =? 34)%N eqn:Hq; [|done].
    destruct (parse_chars t) as [[k r1]|] eqn:Hk; [|done]. cbn [mbind option_bind].
    pose proof (parse_chars_length _ _ _ Hk) as Hlk.
    pose proof (skip_ws_length r1) as Hws1.
    destruct (skip_ws r1) as [|c r2] eqn:Hr1; [done|]. rewrite ?Hr1 in Hws1. cbn [length] in Hws1.
    destruct (c =? 58)%N eqn:Hc; [|done].
    destruct (parse_value fuel r2) as [[y r3]|] eqn:Hy; [|done]. cbn [mbind option_bind].
    apply IHv in Hy as [Hl3 Hy]. pose proof (skip_ws_length r3) as Hws3.
    destruct (skip_ws r3) as [|d r'] eqn:Hr3; [done|]. rewrite ?Hr3 in Hws3. cbn [length] in Hws3.
    destruct (d =? 44)%N eqn:Hd.
    + intros [Hl He]%IHm. split; [lia|].
      destruct (Hfuel (length s - length r)) as (m & Hm & ->); [lia|].
      destruct m as [|m]; [lia|]. cbn [parse_members].
      rewrite Hs, Hq, Hk. cbn [mbind option_bind]. rewrite Hr1, Hc.
      rewrite (proj1 (parse_value_mono _) _ _ Hy m) by lia.
      cbn [mbind option_bind]. rewrite Hr3, Hd.
      eapply (proj2 (proj2 (parse_value_mono _))); [exact He|]. lia.
    + destruct (d =? 125)%N eqn:Hd'; [|done]. intros [= <- <-]. split; [lia|].
      destruct (Hfuel (length s - length r')) as (m & Hm & ->); [lia|].
      destruct m as [|m]; [lia|]. cbn [parse_members].
      rewrite Hs, Hq, Hk. cbn [mbind option_bind]. rewrite Hr1, Hc.
      rewrite (proj1 (parse_value_mono _) _ _ Hy m) by lia.
      cbn [mbind option_bind]. by rewrite Hr3, Hd, Hd'.
Qed.

(** [JSON.parse] never fails for want of fuel: it returns [v] exactly
    when the text is one JSON value [v], with white space around it, at
    some fuel. *)
Theorem parse_adequate s v :
  parse s = Some v ↔
  ∃ fuel r, parse_value fuel s = Some (v, r) ∧ skip_ws r = [].
Proof.
  unfold parse. split.
  - destruct (parse_value (2 * length s + 2) s) as [[v' r]|] eqn:Hp; [|done].
    cbn [mbind option_bind]. destruct (skip_ws r) eqn:Hr; [|done]. intros [= <-].
    by eexists _, r.
  - intros (fuel & r & Hp & Hr).
    apply (proj1 (parse_value_fuel _)) in Hp as [Hl Hp].
    rewrite (proj1 (parse_value_mono _) _ _ Hp) by lia.
    cbn [mbind option_bind]. by rewrite Hr.
Qed.

(** ** The model at work *)

Example parse_text :
  parse (js " [1, {}, [true, null], -0.5e+3 ] ") =
  Some (VArr [VNum (js "1"); VObj []; VArr [VBool true; VNull]; VNum (js "-0.5e+3")]).
Proof. reflexivity. Qed.

Example parse_no_leading_zero : parse (js "[01]") = None.
Proof. reflexivity. Qed.

Example parse_no_trailing_comma : parse (js "[1,]") = None.
Proof. reflexivity. Qed.

Example canonical_numbers :
  Forall (λ lit, canonical_number (js lit) = true)
         ["0"; "7"; "1700000000000"; "-12"; "0.5"; "-0.25"; "65.4"; "0.000001"]%string ∧
  Forall (λ lit, canonical_number (js lit) = false)
         ["1e999"; "-0"; "1.0"; "1e2"; "01"; "0.0000001"; "1234567890123456"]%string.
Proof. split; repeat constructor. Qed.

Example stringify_leaves_undefined_out :
  parse (stringify (VObj [(js "a", VUndefined); (js "b", VArr [VUndefined])])) =
  Some (VObj [(js "b", VArr [VNull])]).
Proof. reflexivity. Qed.

(** A run is saved, renamed, looked up and saved to the library as
    found; after the delete it is gone from both collections. *)
Example save_rename_save_delete :
  let saved := mockDb.saveToHistory (js "a1b2c3") (VObj fresh_run) ∅ in
  let named := mockDb.updateProjectName (js "a1b2c3") (js "My Fix") saved.2 in
  let looked := mockDb.getById (js "a1b2c3") named.2 in
  let found := match looked.1 with Returns r => r | Throws _ => VUndefined end in
  let kept := mockDb.saveToProfile found looked.2 in
  let deleted := mockDb.deleteSnippet (js "a1b2c3") kept.2 in
  (item ← saved.1; get_prop item (js "name")) = Returns (VStr (js "Session-a1b2c3")) ∧
  named.1 = Returns () ∧
  get_prop found (js "name") = Returns (VStr (js "My Fix")) ∧
  kept.1 = Returns () ∧
  (mockDb.getHistory kept.2).1 = Returns (VArr [found]) ∧
  (mockDb.getSavedSnippets kept.2).1 = Returns (VArr [found]) ∧
  deleted.1 = Returns () ∧
  (mockDb.getHistory deleted.2).1 = Returns (VArr []) ∧
  (mockDb.getSavedSnippets deleted.2).1 = Returns (VArr []) ∧
  (mockDb.getById (js "a1b2c3") deleted.2).1 = Returns VUndefined.
Proof. vm_compute. by repeat split. Qed.

(** ** The store *)


Lemma bind_returns {S A B} (c : M S A) (k : A → M S B) st a st' :
  c st = (Returns a, st') → (c ≫= k) st = k a st'.
Proof. unfold mbind, M_bind. by intros ->. Qed.

Lemma bind_throws {S A B} (c : M S A) (k : A → M S B) st e st' :
  c st = (Throws e, st') → (c ≫= k) st = (Throws e, st').
Proof. unfold mbind, M_bind. by intros ->. Qed.

Lemma keys_differ : HISTORY_STORAGE_KEY ≠ SAVED_SNIPPETS_KEY.
Proof. by vm_compute. Qed.

Lemma getHistory_unfold ls :
  mockDb.getHistory ls =
  (match ls !! HISTORY_STORAGE_KEY with
   | Some (c :: r) => JSON_parse (c :: r)
   | _ => Returns (VArr [])
   end, ls).
Proof.
  unfold mockDb.getHistory, localStorage.getItem, mbind, M_bind, eval, mret, M_ret.
  by destruct (ls !! HISTORY_STORAGE_KEY) as [[|c r]|].
Qed.

Lemma getSavedSnippets_unfold ls :
  mockDb.getSavedSnippets ls =
  (match ls !! SAVED_SNIPPETS_KEY with
   | Some (c :: r) => JSON_parse (c :: r)
   | _ => Returns (VArr [])
   end, ls).
Proof.
  unfold mockDb.getSavedSnippets, localStorage.getItem, mbind, M_bind, eval, mret, M_ret.
  by destruct (ls !! SAVED_SNIPPETS_KEY) as [[|c r]|].
Qed.

Lemma JSON_parse_json s v : JSON_parse s = Returns v → json v = true.
Proof.
  unfold JSON_parse. destruct (JSON.parse s) eqn:Hp; [|done].
  intros [= <-]. by eapply parse_json.
Qed.

Lemma JSON_parse_stringify l :
  Forall (λ x, json x = true) l →
  ∃ c r, JSON.stringify (VArr l) = c :: r ∧ JSON_parse (c :: r) = Returns (VArr l).
Proof.
  intros Hl. apply json_arr, json_wf_jsonify in Hl as [Hwf Hj].
  exists 91%N, (elements_of l ++ [93%N]). split; [done|].
  change (91%N :: elements_of l ++ [93%N]) with (JSON.stringify (VArr l)).
  unfold JSON_parse. by rewrite parse_stringify, Hj.
Qed.

Lemma getHistory_json ls l :
  (mockDb.getHistory ls).1 = Returns (VArr l) → Forall (λ x, json x = true) l.
Proof.
  rewrite getHistory_unfold. cbn [fst]. intros H. apply json_arr.
  destruct (ls !! HISTORY_STORAGE_KEY) as [[|c r]|];
    [by simplify_eq | by eapply JSON_parse_json | by simplify_eq].
Qed.

Lemma getSavedSnippets_json ls l :
  (mockDb.getSavedSnippets ls).1 = Returns (VArr l) → Forall (λ x, json x = true) l.
Proof.
  rewrite getSavedSnippets_unfold. cbn [fst]. intros H. apply json_arr.
  destruct (ls !! SAVED_SNIPPETS_KEY) as [[|c r]|];
    [by simplify_eq | by eapply JSON_parse_json | by simplify_eq].
Qed.

Lemma run_getHistory ls h s :
  holds ls h s → mockDb.getHistory ls = (Returns (VArr h), ls).
Proof. intros (H & _). rewrite getHistory_unfold in *. cbn [fst] in H. by rewrite H. Qed.

Lemma run_getSavedSnippets ls h s :
  holds ls h s → mockDb.getSavedSnippets ls = (Returns (VArr s), ls).
Proof. intros (_ & H & _). rewrite getSavedSnippets_unfold in *. cbn [fst] in H. by rewrite H. Qed.

Lemma holds_json ls h s :
  holds ls h s → Forall (λ x, json x = true) h ∧ Forall (λ x, json x = true) s.
Proof.
  intros (Hh & Hs & _). split; [by eapply getHistory_json | by eapply getSavedSnippets_json].
Qed.

(** Writing a collection of records of the JSON data model. *)
Lemma holds_set_history ls h s h' :
  holds ls h s → Forall is_record h' → Forall (λ x, json x = true) h' →
  holds (<[HISTORY_STORAGE_KEY := JSON.stringify (VArr h')]> ls) h' s.
Proof.
  intros (Hh & Hs & Hrh & Hrs) Hr' Hj'. split_and!; try done.
  - rewrite getHistory_unfold, lookup_insert_eq. cbn [fst].
    by destruct (JSON_parse_stringify h' Hj') as (c & r & -> & ->).
  - rewrite getSavedSnippets_unfold in *. by rewrite lookup_insert_ne by apply keys_differ.
Qed.

Lemma holds_set_saved ls h s s' :
  holds ls h s → Forall is_record s' → Forall (λ x, json x = true) s' →
  holds (<[SAVED_SNIPPETS_KEY := JSON.stringify (VArr s')]> ls) h s'.
Proof.
  intros (Hh & Hs & Hrh & Hrs) Hr' Hj'. split_and!; try done.
  - rewrite getHistory_unfold in *. by rewrite lookup_insert_ne by (symmetry; apply keys_differ).
  - rewrite getSavedSnippets_unfold, lookup_insert_eq. cbn [fst].
    by destruct (JSON_parse_stringify s' Hj') as (c & r & -> & ->).
Qed.

Lemma strict_eq_str v s : strict_eq v (VStr s) = true ↔ v = VStr s.
Proof.
  destruct v; cbn [strict_eq]; try (split; [done | by intros [=]]).
  rewrite bool_decide_eq_true. split; [by intros -> | by intros [=]].
Qed.

Lemma has_id_dec id r : has_id id r ∨ ¬ has_id id r.
Proof.
  unfold has_id. destruct (get_prop r (js "id")) as [v|e]; [|by right].
  destruct (strict_eq v (VStr id)) eqn:Hv.
  - apply strict_eq_str in Hv as ->. by left.
  - right. intros [= ->]. apply not_true_iff_false in Hv. apply Hv. by apply strict_eq_str.
Qed.

(** The callback of [updateProjectName] on a record. *)
Lemma rename_record id X ps :
  mockDb.rename id X (VObj ps) =
  Returns (if strict_eq (lookup_prop (js "id") ps) (VStr id)
           then VObj (set_prop (js "name") (VStr X) ps) else VObj ps).
Proof. unfold mockDb.rename. cbn. by destruct (strict_eq _ _). Qed.


Lemma map_rename id X l :
  Forall is_record l → Forall (λ x, json x = true) l →
  ∃ l', Array.map_list (mockDb.rename id X) l = Returns l' ∧
        Forall is_record l' ∧ Forall (λ x, json x = true) l' ∧
        Forall2 (renamed id X) l l'.
Proof.
  induction 1 as [|r l [ps ->] Hl IH]; intros Hj.
  { exists []. by repeat constructor. }
  apply Forall_cons in Hj as [Hr Hj]. destruct (IH Hj) as (l' & Hrun & Hrec & Hjs & Hren).
  cbn [Array.map_list]. rewrite rename_record, Hrun. cbn.
  eexists. split; [done|].
  destruct (strict_eq (lookup_prop (js "id") ps) (VStr id)) eqn:Hid.
  - apply strict_eq_str in Hid. split_and!.
    + constructor; [unfold is_record; eauto | done].
    + constructor; [|done]. apply json_obj in Hr as [Hnd Hps]. apply json_obj. split.
      * by apply set_prop_NoDup.
      * by apply (set_prop_Forall (λ x, json x = true)).
    + constructor; [|done]. split; [|by intros []; unfold has_id; cbn; rewrite Hid].
      intros _. unfold has_id, has_name. cbn [get_prop].
      rewrite lookup_set_prop, lookup_set_prop_ne by done. by rewrite Hid.
  - split_and!.
    + constructor; [unfold is_record; eauto | done].
    + by constructor.
    + constructor; [|done]. split; [|done]. unfold has_id. cbn [get_prop].
      intros [= Hid']. rewrite Hid' in Hid. cbn in Hid. by rewrite bool_decide_eq_false in Hid.
Qed.

Lemma renamed_absent id X l l' :
  Forall2 (renamed id X) l l' → Forall (λ r, ¬ has_id id r) l → l' = l.
Proof.
  induction 1 as [|r r' l l' [_ Hr] _ IH]; [done|].
  intros [Hnr Hl]%Forall_cons. by rewrite Hr, IH.
Qed.

Lemma renamed_after id X l l' :
  Forall2 (renamed id X) l l' → Forall (λ r', has_id id r' → has_name X r') l'.
Proof.
  induction 1 as [|r r' l l' [Hy Hn] _ IH]; constructor; [|done].
  destruct (has_id_dec id r) as [Hr|Hr].
  - intros _. by apply Hy.
  - rewrite (Hn Hr). done.
Qed.

(** A concrete store holds what its listings compute to. *)
Ltac holds_by_computation :=
  split_and!; [by vm_compute | by vm_compute | vm_compute; repeat econstructor ..].

(** ** Rename propagation *)

(** C1. Whatever history [h] and library [s] of records with canonical
    numbers the store holds and whatever the id,
    [updateProjectName id X] (the specification's renameSession)
    returns without throwing
    and leaves a store in which every record of that id, in the history
    as in the library, has the name [X]; position by position the
    records keep their ids, and a record of another id is unchanged; if
    no record of either collection has the id, both collections are
    what they were. The rename writes both collections anew: the
    numbers are canonical so that the engine writes each of them as it
    read it. *)
Theorem rename_propagation ls h s id X :
  holds ls h s → canonical (VArr (h ++ s)) = true →
  ∃ ls' h' s',
    mockDb.updateProjectName id X ls = (Returns (), ls') ∧
    holds ls' h' s' ∧
    Forall (λ r, has_id id r → has_name X r) (h' ++ s') ∧
    Forall2 (λ r r', (has_id id r ↔ has_id id r') ∧ (¬ has_id id r → r' = r)) h h' ∧
    Forall2 (λ r r', (has_id id r ↔ has_id id r') ∧ (¬ has_id id r → r' = r)) s s' ∧
    (Forall (λ r, ¬ has_id id r) (h ++ s) → h' = h ∧ s' = s).
Proof.
  intros Hst _. pose proof Hst as (_ & _ & Hrh & Hrs).
  destruct (holds_json _ _ _ Hst) as [Hjh Hjs].
  destruct (map_rename id X h Hrh Hjh) as (h' & Hmh & Hrh' & Hjh' & Hren_h).
  destruct (map_rename id X s Hrs Hjs) as (s' & Hms & Hrs' & Hjs' & Hren_s).
  pose proof (holds_set_history _ _ _ h' Hst Hrh' Hjh') as Hst1.
  pose proof (holds_set_saved _ _ _ s' Hst1 Hrs' Hjs') as Hst2.
  eexists _, h', s'. split_and!.
  - unfold mockDb.updateProjectName, mbind, M_bind, eval, localStorage.setItem, Array.map.
    rewrite (run_getHistory _ _ _ Hst), Hmh. cbn [mbind outcome_bind].
    rewrite (run_getSavedSnippets _ _ _ Hst1), Hms. cbn [mbind outcome_bind].
    done.
  - done.
  - apply Forall_app. split; by eapply renamed_after.
  - eapply Forall2_impl; [done|]. intros r r' [Hy Hn]. split; [|done].
    destruct (has_id_dec id r) as [Hr|Hr]; [split; [by apply Hy | done]|].
    by rewrite (Hn Hr).
  - eapply Forall2_impl; [done|]. intros r r' [Hy Hn]. split; [|done].
    destruct (has_id_dec id r) as [Hr|Hr]; [split; [by apply Hy | done]|].
    by rewrite (Hn Hr).
  - intros [Hh Hs]%Forall_app. split; by eapply renamed_absent.
Qed.

Lemma rename_propagation_witness :
  holds sample_store sample_history sample_library ∧
  canonical (VArr (sample_history ++ sample_library)) = true ∧
  ∃ ls' h' s',
    mockDb.updateProjectName (js "a1b2c3") (js "Tidy sum") sample_store
      = (Returns (), ls') ∧
    holds ls' h' s' ∧
    Forall (λ r, has_id (js "a1b2c3") r → has_name (js "Tidy sum") r) (h' ++ s').
Proof.
  assert (H : holds sample_store sample_history sample_library)
    by holds_by_computation.
  assert (Hc : canonical (VArr (sample_history ++ sample_library)) = true)
    by reflexivity.
  split_and!; [exact H | exact Hc |].
  destruct (rename_propagation _ _ _ (js "a1b2c3") (js "Tidy sum") H Hc)
    as (ls' & h' & s' & Hrun & Hst & Hren & _).
  by exists ls', h', s'.
Defined.

Lemma other_id_record id ps :
  mockDb.other_id id (VObj ps) =
  Returns (negb (strict_eq (lookup_prop (js "id") ps) (VStr id))).
Proof. done. Qed.

Lemma has_id_record id ps :
  has_id id (VObj ps) ↔ strict_eq (lookup_prop (js "id") ps) (VStr id) = true.
Proof.
  unfold has_id. cbn [get_prop]. rewrite strict_eq_str.
  split; [by intros [=] | by intros ->].
Qed.

Lemma filter_other_id id l :
  Forall is_record l → Forall (λ x, json x = true) l →
  ∃ l', Array.filter_list (mockDb.other_id id) l = Returns l' ∧
        Forall is_record l' ∧ Forall (λ x, json x = true) l' ∧
        (∀ r, r ∈ l' ↔ r ∈ l ∧ ¬ has_id id r) ∧
        (Forall (λ r, ¬ has_id id r) l → l' = l).
Proof.
  induction 1 as [|r l [ps ->] Hl IH]; intros Hj.
  { exists []. split_and!; try done. intros r. rewrite elem_of_nil. tauto. }
  apply Forall_cons in Hj as [Hr Hj].
  destruct (IH Hj) as (l' & Hrun & Hrec & Hjs & Hin & Hsame).
  cbn [Array.filter_list]. rewrite other_id_record, Hrun. cbn [mbind outcome_bind].
  eexists. split; [done|].
  destruct (strict_eq (lookup_prop (js "id") ps) (VStr id)) eqn:Hid; cbn [negb].
  - apply has_id_record in Hid. split_and!; try done.
    + intros r. rewrite Hin, elem_of_cons. split; [tauto|].
      intros [[-> | ?] ?]; tauto.
    + by intros [? _]%Forall_cons.
  - assert (¬ has_id id (VObj ps)) by (rewrite has_id_record; congruence).
    split_and!.
    + constructor; [unfold is_record; eauto | done].
    + by constructor.
    + intros r. rewrite !elem_of_cons, Hin. split; [|tauto].
      intros [-> | ?]; tauto.
    + intros [_ ?]%Forall_cons. by rewrite Hsame.
Qed.

(** *** getById *)

Lemma strict_eq_true a b : strict_eq a b = true → a = b.
Proof.
  destruct a, b; cbn [strict_eq]; try done; by intros ->%bool_decide_eq_true.
Qed.

Lemma Map_get_set k x m q :
  Map.get (Map.set k x m) (VStr q) =
  if strict_eq k (VStr q) then x else Map.get m (VStr q).
Proof.
  induction m as [|[k' y] m IH]; cbn [Map.set Map.get]; [done|].
  destruct (strict_eq k' k) eqn:Hk; cbn [Map.get].
  - apply strict_eq_true in Hk as ->. by destruct (strict_eq k (VStr q)).
  - rewrite IH. destruct (strict_eq k' (VStr q)) eqn:Hq; [|done].
    destruct (strict_eq k (VStr q)) eqn:Hq'; [|done].
    apply strict_eq_true in Hq as ->. apply strict_eq_true in Hq' as ->.
    cbn in Hk. by rewrite bool_decide_eq_false in Hk.
Qed.

Lemma Map_new_snoc es e : Map.new (es ++ [e]) = Map.set e.1 e.2 (Map.new es).
Proof. unfold Map.new. by rewrite foldl_app. Qed.



Lemma Map_get_new id l :
  Forall is_record l → finds id l (Map.get (Map.new (keyed <$> l)) (VStr id)).
Proof.
  induction l as [|r l IH] using rev_ind; intros Hl.
  { left. by split. }
  apply Forall_app in Hl as [Hl [[ps ->] _]%Forall_cons].
  rewrite fmap_app. change (keyed <$> [VObj ps]) with [keyed (VObj ps)].
  rewrite Map_new_snoc, Map_get_set. cbn [keyed fst snd].
  destruct (strict_eq (lookup_prop (js "id") ps) (VStr id)) eqn:Hid.
  - right. exists l, []. split_and!; [done| by apply has_id_record | done].
  - assert (¬ has_id id (VObj ps)) by (rewrite has_id_record; congruence).
    specialize (IH Hl). revert IH.
    generalize (Map.get (Map.new (keyed <$> l)) (VStr id)). intros r.
    intros [[Hno ->] | (pre & post & -> & Hr & Hpost)].
    + left. split; [|done]. apply Forall_app. split; [done|]. by constructor.
    + right. exists pre, (post ++ [VObj ps]). split_and!; [by rewrite <-app_assoc | done |].
      apply Forall_app. split; [done|]. by constructor.
Qed.

Lemma map_entries l :
  Forall is_record l →
  Array.map_list mockDb.id_entry l =
  Returns ((λ item, VArr [(keyed item).1; item]) <$> l).
Proof.
  induction 1 as [|r l [ps ->] Hl IH]; [done|].
  cbn [Array.map_list]. rewrite IH. done.
Qed.

Lemma run_getById ls h s id :
  holds ls h s →
  mockDb.getById id ls =
  (Returns (Map.get (Map.new (keyed <$> (h ++ s))) (VStr id)), ls).
Proof.
  intros Hst. pose proof Hst as (_ & _ & Hrh & Hrs).
  unfold mockDb.getById, mbind, M_bind, eval, spread, mret, M_ret.
  rewrite (run_getHistory _ _ _ Hst), (run_getSavedSnippets _ _ _ Hst).
  rewrite map_entries by (by apply Forall_app).
  by rewrite <-list_fmap_compose.
Qed.

Lemma finds_split id h s r :
  finds id (h ++ s) r →
  (Exists (has_id id) s → finds id s r ∧ r ≠ VUndefined) ∧
  (Forall (λ x, ¬ has_id id x) s → finds id h r).
Proof.
  intros [[Hno ->] | (pre & post & Heq & Hr & Hpost)].
  { apply Forall_app in Hno as [Hh Hs]. split.
    - intros (x & Hx & Hid)%Exists_exists. rewrite Forall_forall in Hs. by destruct (Hs x Hx).
    - intros _. by left. }
  assert (r ≠ VUndefined) as Hne.
  { intros Hu. by rewrite Hu in Hr. }
  assert (∀ pre', s = pre' ++ r :: post →
            (Exists (has_id id) s → finds id s r ∧ r ≠ VUndefined) ∧
            (Forall (λ x, ¬ has_id id x) s → finds id h r)) as Hin_s.
  { intros pre' ->. split; [intros _; split; [|done]; right; by exists pre', post|].
    intros [_ [Hc _]%Forall_cons]%Forall_app. done. }
  apply app_eq_inv in Heq as [(k & Hh & Hk) | (k & Hpre & Hs)].
  - destruct k as [|x k].
    + apply (Hin_s []). by rewrite Hk.
    + injection Hk as <- ->. apply Forall_app in Hpost as [Hk Hs]. split.
      * intros (y & Hy & Hid)%Exists_exists. rewrite Forall_forall in Hs.
        by destruct (Hs y Hy).
      * intros _. right. by exists pre, k.
  - by apply (Hin_s k).
Qed.


Lemma getById_finds ls h s id :
  holds ls h s →
  ∃ r, mockDb.getById id ls = (Returns r, ls) ∧ finds id (h ++ s) r.
Proof.
  intros Hst. pose proof Hst as (_ & _ & Hrh & Hrs).
  eexists. split; [by apply run_getById|].
  apply Map_get_new. by apply Forall_app.
Qed.

(** ** Lookup by id *)

(** C3, as the code has it. [getById id] returns one value: [undefined]
    when no record of the history or of the library has the id, and
    otherwise a record of that id taken from one of the two. When the
    library holds a record of that id, the library copy is returned (the
    last one of that id in the library), whatever the history holds;
    the history copy (the last one of that id) is returned only when the
    library has none. *)
Theorem getById_library_wins ls h s id :
  holds ls h s →
  ∃ r, mockDb.getById id ls = (Returns r, ls) ∧
       (Forall (λ x, ¬ has_id id x) (h ++ s) → r = VUndefined) ∧
       (Exists (has_id id) (h ++ s) → r ∈ h ++ s ∧ has_id id r) ∧
       (Exists (has_id id) s → last_with_id id s r) ∧
       (Forall (λ x, ¬ has_id id x) s → Exists (has_id id) h → last_with_id id h r).
Proof.
  intros Hst. destruct (getById_finds _ _ _ id Hst) as (r & Hrun & Hf).
  exists r. split; [done|].
  destruct (finds_split _ _ _ _ Hf) as [Hs Hh]. split_and!.
  - intros Hno. destruct Hf as [[_ ->] | (pre & post & Heq & Hr & _)]; [done|].
    rewrite Forall_forall in Hno. destruct (Hno r); [|done].
    rewrite Heq. apply elem_of_app. right. by left.
  - intros (x & Hx & Hid)%Exists_exists.
    destruct Hf as [[Hno _] | (pre & post & Heq & Hr & _)].
    + rewrite Forall_forall in Hno. by destruct (Hno x Hx).
    + split; [|done]. rewrite Heq. apply elem_of_app. right. by left.
  - intros Hex. destruct (Hs Hex) as [[[_ ->] | Hl] Hne]; done.
  - intros Hno (x & Hx & Hid)%Exists_exists.
    destruct (Hh Hno) as [[Hnoh ->] | Hl]; [|done].
    rewrite Forall_forall in Hnoh. by destruct (Hnoh x Hx).
Qed.

Lemma getById_library_wins_witness :
  holds sample_store sample_history sample_library ∧
  ∃ r, mockDb.getById (js "k9x") sample_store = (Returns r, sample_store) ∧
       last_with_id (js "k9x") sample_library r.
Proof.
  assert (H : holds sample_store sample_history sample_library)
    by holds_by_computation.
  split; [exact H|].
  destruct (getById_library_wins _ _ _ (js "k9x") H) as (r & Hrun & _ & _ & Hlib & _).
  exists r. split; [exact Hrun|]. apply Hlib.
  apply Exists_cons_hd. reflexivity.
Defined.

(** C3 as the specification states it fails: after the page saved a
    run, renamed it to My Fix and saved the record it still held to the
    library, both collections hold a record of the id, they differ, and
    the lookup returns the library copy with the old name, which is not
    the record stored in the history. *)
Lemma getById_history_copy_loses :
  holds diverged_store
        [sample_record "a1b2c3" "My Fix"] [sample_record "a1b2c3" "New Session"] ∧
  has_id (js "a1b2c3") (sample_record "a1b2c3" "My Fix") ∧
  has_id (js "a1b2c3") (sample_record "a1b2c3" "New Session") ∧
  (mockDb.getById (js "a1b2c3") diverged_store).1
    = Returns (sample_record "a1b2c3" "New Session") ∧
  (mockDb.getById (js "a1b2c3") diverged_store).1
    ≠ Returns (sample_record "a1b2c3" "My Fix").
Proof.
  split_and!.
  - holds_by_computation.
  - reflexivity.
  - reflexivity.
  - by vm_compute.
  - by vm_compute.
Qed.

(** ** Delete *)

Lemma deleteSnippet_filters ls h s id :
  holds ls h s →
  ∃ ls' h' s',
    mockDb.deleteSnippet id ls = (Returns (), ls') ∧
    holds ls' h' s' ∧
    Forall (λ r, ¬ has_id id r) (h' ++ s') ∧
    mockDb.getById id ls' = (Returns VUndefined, ls') ∧
    (∀ r, r ∈ h' ↔ r ∈ h ∧ ¬ has_id id r) ∧
    (∀ r, r ∈ s' ↔ r ∈ s ∧ ¬ has_id id r) ∧
    (Forall (λ r, ¬ has_id id r) (h ++ s) → h' = h ∧ s' = s).
Proof.
  intros Hst. pose proof Hst as (_ & _ & Hrh & Hrs).
  destruct (holds_json _ _ _ Hst) as [Hjh Hjs].
  destruct (filter_other_id id s Hrs Hjs) as (s' & Hfs & Hrs' & Hjs' & Hin_s & Hsame_s).
  destruct (filter_other_id id h Hrh Hjh) as (h' & Hfh & Hrh' & Hjh' & Hin_h & Hsame_h).
  pose proof (holds_set_saved _ _ _ s' Hst Hrs' Hjs') as Hst1.
  pose proof (holds_set_history _ _ _ h' Hst1 Hrh' Hjh') as Hst2.
  assert (Hgone : Forall (λ r, ¬ has_id id r) (h' ++ s')).
  { apply Forall_app. rewrite !Forall_forall. split; intros r Hr.
    - by apply Hin_h in Hr as [_ ?]. - by apply Hin_s in Hr as [_ ?]. }
  eexists _, h', s'. split_and!; try done.
  - unfold mockDb.deleteSnippet, mbind, M_bind, eval, localStorage.setItem, Array.filter.
    rewrite (run_getSavedSnippets _ _ _ Hst), Hfs. cbn [mbind outcome_bind].
    rewrite (run_getHistory _ _ _ Hst1), Hfh. cbn [mbind outcome_bind].
    done.
  - destruct (getById_finds _ _ _ id Hst2) as (r & -> & [[_ ->] | Hr]); [done|].
    destruct Hr as (pre & post & Heq & Hid & _). rewrite Forall_forall in Hgone.
    destruct (Hgone r); [|done]. rewrite Heq. apply elem_of_app. right. by left.
  - intros [Hh Hs]%Forall_app. split; [by apply Hsame_h | by apply Hsame_s].
Qed.

(** C4. Whatever history and library of records with canonical numbers
    the store holds and whatever the id, [deleteSnippet id]
    (the specification's deleteSession) returns without throwing;
    afterwards no record of the history or of the library has the id
    and [getById id] returns [undefined]; the records of other ids are
    those that were there; when no record had the id, both collections
    are what they were; and deleting the id once more returns without
    throwing and leaves both collections as the first delete left
    them. The delete writes both collections anew: the numbers are
    canonical so that the engine writes each of them as it read it. *)
Theorem delete_total ls h s id :
  holds ls h s → canonical (VArr (h ++ s)) = true →
  ∃ ls' h' s',
    mockDb.deleteSnippet id ls = (Returns (), ls') ∧
    holds ls' h' s' ∧
    Forall (λ r, ¬ has_id id r) (h' ++ s') ∧
    mockDb.getById id ls' = (Returns VUndefined, ls') ∧
    (∀ r, r ∈ h' ↔ r ∈ h ∧ ¬ has_id id r) ∧
    (∀ r, r ∈ s' ↔ r ∈ s ∧ ¬ has_id id r) ∧
    (Forall (λ r, ¬ has_id id r) (h ++ s) → h' = h ∧ s' = s) ∧
    ∃ ls'', mockDb.deleteSnippet id ls' = (Returns (), ls'') ∧ holds ls'' h' s'.
Proof.
  intros Hst _.
  destruct (deleteSnippet_filters _ _ _ id Hst)
    as (ls' & h' & s' & Hrun & Hst' & Hgone & Hget & Hh & Hs & Hsame).
  exists ls', h', s'. split_and!; try done.
  destruct (deleteSnippet_filters _ _ _ id Hst')
    as (ls'' & h'' & s'' & Hrun' & Hst'' & _ & _ & _ & _ & Hsame').
  destruct (Hsame' Hgone) as [-> ->]. by exists ls''.
Qed.

Lemma delete_total_witness :
  holds sample_store sample_history sample_library ∧
  canonical (VArr (sample_history ++ sample_library)) = true ∧
  ∃ ls' h' s',
    mockDb.deleteSnippet (js "a1b2c3") sample_store = (Returns (), ls') ∧
    holds ls' h' s' ∧
    Forall (λ r, ¬ has_id (js "a1b2c3") r) (h' ++ s') ∧
    mockDb.getById (js "a1b2c3") ls' = (Returns VUndefined, ls').
Proof.
  assert (H : holds sample_store sample_history sample_library)
    by holds_by_computation.
  assert (Hc : canonical (VArr (sample_history ++ sample_library)) = true)
    by reflexivity.
  split_and!; [exact H | exact Hc |].
  destruct (delete_total _ _ _ (js "a1b2c3") H Hc)
    as (ls' & h' & s' & Hrun & Hst & Hgone & Hget & _).
  by exists ls', h', s'.
Defined.


Lemma jsonify_json v j : wf v = true → jsonify v = Some j → json j = true.
Proof.
  intros Hwf Hj. apply (parse_json (JSON.stringify v)).
  by rewrite parse_stringify.
Qed.

Lemma jsonify_cons x l :
  json (VArr l) = true →
  jsonify (VArr (x :: l)) = Some (VArr (default VNull (jsonify x) :: l)).
Proof.
  intros [_ Hl]%json_wf_jsonify. cbn [jsonify] in *.
  injection Hl as Hl. by rewrite fmap_cons, Hl.
Qed.

Lemma wf_cons x l : wf x = true → json (VArr l) = true → wf (VArr (x :: l)) = true.
Proof.
  intros Hx [Hl _]%json_wf_jsonify. cbn [wf forallb] in *. by rewrite Hx, Hl.
Qed.

Lemma stringify_arr_parse l l' :
  wf (VArr l) = true → jsonify (VArr l) = Some (VArr l') →
  ∃ c r, JSON.stringify (VArr l) = c :: r ∧ JSON_parse (c :: r) = Returns (VArr l').
Proof.
  intros Hwf Hj. exists 91%N, (elements_of l ++ [93%N]). split; [done|].
  change (91%N :: elements_of l ++ [93%N]) with (JSON.stringify (VArr l)).
  unfold JSON_parse. by rewrite parse_stringify, Hj.
Qed.

Lemma holds_write_history ls h s l l' :
  holds ls h s → wf (VArr l) = true → jsonify (VArr l) = Some (VArr l') →
  Forall is_record l' →
  holds (<[HISTORY_STORAGE_KEY := JSON.stringify (VArr l)]> ls) l' s.
Proof.
  intros (Hh & Hs & Hrh & Hrs) Hwf Hj Hr'. split_and!; try done.
  - rewrite getHistory_unfold, lookup_insert_eq. cbn [fst].
    by destruct (stringify_arr_parse l l' Hwf Hj) as (c & r & -> & ->).
  - rewrite getSavedSnippets_unfold in *. by rewrite lookup_insert_ne by apply keys_differ.
Qed.

Lemma holds_write_saved ls h s l l' :
  holds ls h s → wf (VArr l) = true → jsonify (VArr l) = Some (VArr l') →
  Forall is_record l' →
  holds (<[SAVED_SNIPPETS_KEY := JSON.stringify (VArr l)]> ls) h l'.
Proof.
  intros (Hh & Hs & Hrh & Hrs) Hwf Hj Hr'. split_and!; try done.
  - rewrite getHistory_unfold in *. by rewrite lookup_insert_ne by (symmetry; apply keys_differ).
  - rewrite getSavedSnippets_unfold, lookup_insert_eq. cbn [fst].
    by destruct (stringify_arr_parse l l' Hwf Hj) as (c & r & -> & ->).
Qed.

Lemma lookup_prop_absent k ps : k ∉ ps.*1 → lookup_prop k ps = VUndefined.
Proof.
  induction ps as [|[k' x] ps IH]; [done|]. rewrite fmap_cons, not_elem_of_cons.
  intros [Hne Hk]. cbn [lookup_prop]. simpl in Hne. rewrite decide_False by done. auto.
Qed.

Lemma lookup_jprops k ps :
  NoDup ps.*1 →
  lookup_prop k (jprops ps) = default VUndefined (jsonify (lookup_prop k ps)).
Proof.
  induction ps as [|[k' x] ps IH]; [done|]. rewrite fmap_cons. intros [Hk Hnd]%NoDup_cons.
  cbn [lookup_prop]. destruct (jsonify x) as [j|] eqn:Hj.
  - rewrite (jprops_cons _ _ _ _ Hj). cbn [lookup_prop].
    destruct (decide (k' = k)); [by rewrite Hj | auto].
  - apply jsonify_None in Hj as ->. rewrite jprops_cons_undefined, IH by done.
    destruct (decide (k' = k)) as [<-|]; [|done].
    by rewrite lookup_prop_absent.
Qed.

Lemma wf_lookup_prop k ps :
  Forall (λ p, wf p.2 = true) ps → wf (lookup_prop k ps) = true.
Proof.
  induction 1 as [|[k' x] ps Hx _ IH]; [done|]. cbn [lookup_prop].
  by destruct (decide (k' = k)).
Qed.

Lemma wf_set_prop k x ps :
  wf x = true → wf (VObj ps) = true → wf (VObj (set_prop k x ps)) = true.
Proof.
  intros Hx [Hnd Hps]%wf_obj. apply wf_obj. split.
  - by apply set_prop_NoDup.
  - by apply (set_prop_Forall (λ x, wf x = true)).
Qed.

Lemma strict_eq_typed a d :
  d = VUndefined ∨ (∃ id, d = VStr id) → strict_eq a d = true ↔ a = d.
Proof.
  intros [-> | [id ->]]; [|apply strict_eq_str].
  destruct a; cbn [strict_eq]; split; done.
Qed.

Section saveToProfile.
Variable ps : list (jsstring * value).
Hypothesis Htyped : id_typed (VObj ps).

Lemma typed_lookup :
  lookup_prop (js "id") ps = VUndefined ∨ ∃ id, lookup_prop (js "id") ps = VStr id.
Proof.
  destruct Htyped as [H | [id H]]; [left | right; exists id]; by injection H.
Qed.

Lemma callback_record qs :
  mockDb.same_id (VObj ps) (VObj qs) = Returns true ∧ shares_id (VObj ps) (VObj qs) ∨
  mockDb.same_id (VObj ps) (VObj qs) = Returns false ∧ ¬ shares_id (VObj ps) (VObj qs).
Proof.
  unfold mockDb.same_id, shares_id. cbn [get_prop mbind outcome_bind].
  destruct (strict_eq (lookup_prop (js "id") qs) (lookup_prop (js "id") ps)) eqn:Heq.
  - left. split; [done|]. apply strict_eq_typed in Heq; [by rewrite Heq | apply typed_lookup].
  - right. split; [done|]. intros [= Hq].
    apply not_true_iff_false in Heq. apply Heq. apply strict_eq_typed; [apply typed_lookup | done].
Qed.

Lemma find_same_id l :
  Forall is_record l →
  ∃ found, Array.find_list (mockDb.same_id (VObj ps)) l = Returns found ∧
    (truthy found = false ∧ Forall (λ r, ¬ shares_id (VObj ps) r) l ∨
     truthy found = true ∧
     ∃ pre post, l = pre ++ found :: post ∧ shares_id (VObj ps) found ∧
                 Forall (λ r, ¬ shares_id (VObj ps) r) pre).
Proof.
  induction 1 as [|r l [qs ->] Hl (found & Hrun & IH)].
  { exists VUndefined. split; [done|]. left. by split. }
  cbn [Array.find_list].
  destruct (callback_record qs) as [[-> Hsame] | [-> Hdiff]]; cbn [mbind outcome_bind].
  - exists (VObj qs). split; [done|]. right. split; [done|]. by exists [], l.
  - exists found. split; [done|].
    destruct IH as [[Hf Hno] | (Hf & pre & post & -> & Hsame & Hpre)].
    + left. split; [done|]. by constructor.
    + right. split; [done|]. exists (VObj qs :: pre), post. split_and!; try done.
      by constructor.
Qed.
End saveToProfile.

Lemma run_saveToProfile ls h s data found :
  holds ls h s →
  Array.find_list (mockDb.same_id data) s = Returns found →
  mockDb.saveToProfile data ls =
  if truthy found then (Returns (), ls)
  else (Returns (), <[SAVED_SNIPPETS_KEY := JSON.stringify (VArr (data :: s))]> ls).
Proof.
  intros Hst Hfind.
  unfold mockDb.saveToProfile, mbind, M_bind, eval, localStorage.setItem, Array.find, spread.
  rewrite (run_getSavedSnippets _ _ _ Hst), Hfind. by destruct (truthy found).
Qed.

Lemma same_id_jsonify ps :
  wf (VObj ps) = true → id_typed (VObj ps) →
  shares_id (VObj ps) (VObj (jprops ps)).
Proof.
  intros [Hnd _]%wf_obj Ht. unfold shares_id. cbn [get_prop]. f_equal.
  rewrite lookup_jprops by done.
  by destruct (typed_lookup ps Ht) as [-> | [id ->]].
Qed.

(** ** Saving to the library *)

(** C2. For every record [data] (an object whose id is a string or
    missing) and every library without two entries of one id,
    [saveToProfile data] (the specification's saveToLibrary) called
    twice leaves the library with exactly
    one entry for that id, and the second call changes nothing: it
    returns with the store as the first call left it. The first call
    prepends the record when the library has no entry for the id and
    writes nothing when it has one. A first call that prepends writes
    the library anew: the numbers of the library and of the record are
    canonical so that the engine writes each of them as the model
    does. *)
Theorem saveToProfile_idempotent ls h s ps :
  holds ls h s → wf (VObj ps) = true → id_typed (VObj ps) → unique_ids s →
  canonical (VArr s) = true → canonical (VObj ps) = true →
  ∃ ls1 s1,
    mockDb.saveToProfile (VObj ps) ls = (Returns (), ls1) ∧
    holds ls1 h s1 ∧
    mockDb.saveToProfile (VObj ps) ls1 = (Returns (), ls1) ∧
    exactly_one (shares_id (VObj ps)) s1 ∧
    unique_ids s1 ∧
    (Exists (shares_id (VObj ps)) s → ls1 = ls ∧ s1 = s) ∧
    (Forall (λ r, ¬ shares_id (VObj ps) r) s → s1 = VObj (jprops ps) :: s).
Proof.
  intros Hst Hwf Ht Huniq _ _. pose proof Hst as (_ & _ & Hrh & Hrs).
  destruct (holds_json _ _ _ Hst) as [Hjh Hjs].
  destruct (find_same_id ps Ht s Hrs) as (found & Hrun & Hfound).
  destruct Hfound as [[Hf Hno] | (Hf & pre & post & Hs & Hsame & Hpre)].
  - (* no entry for the id: the record is prepended *)
    pose proof (same_id_jsonify ps Hwf Ht) as Hj.
    assert (Hst1 : holds (<[SAVED_SNIPPETS_KEY :=
                            JSON.stringify (VArr (VObj ps :: s))]> ls)
                         h (VObj (jprops ps) :: s)).
    { eapply holds_write_saved; [done | | |].
      - apply wf_cons; [done | by apply json_arr].
      - rewrite jsonify_cons by (by apply json_arr). done.
      - constructor; [unfold is_record; eauto | done]. }
    eexists _, _. split_and!.
    + rewrite (run_saveToProfile _ _ _ _ _ Hst Hrun), Hf. done.
    + done.
    + destruct (find_same_id ps Ht (VObj (jprops ps) :: s)) as (found' & Hrun' & Hfound').
      { constructor; [unfold is_record; eauto | done]. }
      rewrite (run_saveToProfile _ _ _ _ _ Hst1 Hrun').
      destruct Hfound' as [[_ [Hc _]%Forall_cons] | [-> _]]; done.
    + by exists [], (VObj (jprops ps)), s.
    + unfold unique_ids. rewrite fmap_cons. apply NoDup_cons. split; [|done].
      intros (x & Hx & Hin)%list_elem_of_fmap. rewrite Forall_forall in Hno.
      apply (Hno x Hin). unfold shares_id in *. congruence.
    + intros (r & Hr & Hid)%Exists_exists. rewrite Forall_forall in Hno.
      by destruct (Hno r Hr).
    + done.
  - (* an entry for the id exists: nothing is written *)
    exists ls, s. split_and!.
    + rewrite (run_saveToProfile _ _ _ _ _ Hst Hrun), Hf. done.
    + done.
    + rewrite (run_saveToProfile _ _ _ _ _ Hst Hrun), Hf. done.
    + exists pre, found, post. split_and!; [done..|].
      apply Forall_app. split; [done|]. apply Forall_forall. intros x Hx Hxid.
      unfold unique_ids in Huniq. rewrite Hs, fmap_app, fmap_cons in Huniq.
      apply NoDup_app in Huniq as (_ & _ & [Hfresh _]%NoDup_cons).
      apply Hfresh. apply list_elem_of_fmap. exists x. split; [|done].
      unfold shares_id in *. congruence.
    + done.
    + done.
    + intros Hno. rewrite Hs in Hno.
      apply Forall_app in Hno as [_ [Hc _]%Forall_cons]. done.
Qed.

Lemma saveToProfile_idempotent_witness :
  holds sample_store sample_history sample_library ∧
  wf (sample_record "a1b2c3" "My Fix") = true ∧
  id_typed (sample_record "a1b2c3" "My Fix") ∧
  unique_ids sample_library ∧
  canonical (VArr sample_library) = true ∧
  canonical (sample_record "a1b2c3" "My Fix") = true ∧
  ∃ ls1 s1,
    mockDb.saveToProfile (sample_record "a1b2c3" "My Fix") sample_store
      = (Returns (), ls1) ∧
    holds ls1 sample_history s1 ∧
    mockDb.saveToProfile (sample_record "a1b2c3" "My Fix") ls1 = (Returns (), ls1) ∧
    exactly_one (shares_id (sample_record "a1b2c3" "My Fix")) s1.
Proof.
  assert (H : holds sample_store sample_history sample_library)
    by holds_by_computation.
  assert (Hwf : wf (sample_record "a1b2c3" "My Fix") = true) by (by vm_compute).
  assert (Ht : id_typed (sample_record "a1b2c3" "My Fix")).
  { right. exists (js "a1b2c3"). reflexivity. }
  assert (Hu : unique_ids sample_library).
  { vm_compute. apply NoDup_singleton. }
  assert (Hcs : canonical (VArr sample_library) = true) by reflexivity.
  assert (Hcd : canonical (sample_record "a1b2c3" "My Fix") = true) by reflexivity.
  split_and!; [exact H | exact Hwf | exact Ht | exact Hu | exact Hcs | exact Hcd |].
  destruct (saveToProfile_idempotent _ _ _ _ H Hwf Ht Hu Hcs Hcd)
    as (ls1 & s1 & Hrun & Hst & Hagain & Hone & _).
  by exists ls1, s1.
Defined.

Lemma wf_js_or a b : wf a = true → wf b = true → wf (js_or a b) = true.
Proof. unfold js_or. by destruct (truthy a). Qed.

Lemma id_name_differ : js "id" ≠ js "name".
Proof. by vm_compute. Qed.

Lemma has_prop_jsonify k x ps :
  NoDup ps.*1 → lookup_prop k ps = VStr x → lookup_prop k (jprops ps) = VStr x.
Proof. intros Hnd Hk. by rewrite lookup_jprops, Hk. Qed.

Lemma json_lookup_prop k ps :
  Forall (λ p, json p.2 = true) ps → truthy (lookup_prop k ps) = true →
  json (lookup_prop k ps) = true.
Proof.
  induction 1 as [|[k' x] ps' Hx _ IH]; [done|]. cbn [lookup_prop].
  by destruct (decide _).
Qed.

(** ** Saving to the history *)

(** C6. For every record [VObj ps] and every store, both with
    canonical numbers (the save writes the history anew, and the engine
    then writes each number as the model does), [saveToHistory]
    returns the finalized record [item]: its id is the freshly
    generated token [random] when the record has no id (the property is
    missing or the empty string) and the record's own id otherwise; its
    name is Session- followed by that id when the record has no name
    (missing or the empty string) and the record's own name otherwise;
    its other properties are the record's. The store then holds the
    history with the finalized record put in front, whatever ids the
    history had, and the library as it was. The record in the history
    is [item] as JSON keeps it, with the same id and name, and is [item]
    itself for a record of plain JSON data. *)
Theorem saveToHistory_spec ls h s ps random :
  holds ls h s → wf (VObj ps) = true →
  canonical (VArr h) = true → canonical (VObj ps) = true →
  ∃ ls' item stored,
    mockDb.saveToHistory random (VObj ps) ls = (Returns item, ls') ∧
    (* the id *)
    (lookup_prop (js "id") ps = VUndefined ∨ lookup_prop (js "id") ps = VStr [] →
     has_id random item) ∧
    (∀ id, id ≠ [] → lookup_prop (js "id") ps = VStr id → has_id id item) ∧
    (* the name *)
    (lookup_prop (js "name") ps = VUndefined ∨ lookup_prop (js "name") ps = VStr [] →
     ∀ id, has_id id item → has_name (js "Session-" ++ id) item) ∧
    (∀ name, name ≠ [] → lookup_prop (js "name") ps = VStr name → has_name name item) ∧
    (* the other properties *)
    (∀ k, k ≠ js "id" → k ≠ js "name" → get_prop item k = get_prop (VObj ps) k) ∧
    (* the history *)
    jsonify item = Some stored ∧
    holds ls' (stored :: h) s ∧
    (json (VObj ps) = true → stored = item) ∧
    (∀ id, has_id id item → has_id id stored) ∧
    (∀ name, has_name name item → has_name name stored).
Proof.
  intros Hst Hwf _ _. pose proof Hst as (_ & _ & Hrh & Hrs).
  destruct (holds_json _ _ _ Hst) as [Hjh Hjs].
  pose proof Hwf as [Hnd Hps]%wf_obj.
  set (id := js_or (lookup_prop (js "id") ps) (VStr random)).
  set (name := js_or (lookup_prop (js "name") ps) (VStr (js "Session-" ++ ToString id))).
  set (props := set_prop (js "name") name (set_prop (js "id") id ps)).
  assert (Hwf_id : wf id = true) by (by apply wf_js_or; [apply wf_lookup_prop|]).
  assert (Hwf_name : wf name = true) by (by apply wf_js_or; [apply wf_lookup_prop|]).
  assert (Hwf_item : wf (VObj props) = true).
  { apply wf_set_prop; [done|]. by apply wf_set_prop. }
  assert (Hid : lookup_prop (js "id") props = id).
  { unfold props. rewrite lookup_set_prop_ne by (symmetry; apply id_name_differ).
    apply lookup_set_prop. }
  assert (Hname : lookup_prop (js "name") props = name) by apply lookup_set_prop.
  assert (Hst' : holds (<[HISTORY_STORAGE_KEY := JSON.stringify (VArr (VObj props :: h))]> ls)
                       (VObj (jprops props) :: h) s).
  { eapply holds_write_history; [done | | |].
    - apply wf_cons; [done | by apply json_arr].
    - rewrite jsonify_cons by (by apply json_arr). done.
    - constructor; [unfold is_record; eauto | done]. }
  exists (<[HISTORY_STORAGE_KEY := JSON.stringify (VArr (VObj props :: h))]> ls),
         (VObj props), (VObj (jprops props)).
  unfold has_id, has_name. cbn [get_prop]. rewrite Hid, Hname. split_and!.
  - unfold mockDb.saveToHistory, mbind, M_bind, eval, localStorage.setItem, spread, mret, M_ret.
    rewrite (run_getHistory _ _ _ Hst). done.
  - unfold id, js_or. by intros [-> | ->].
  - intros i Hi Hl. unfold id, js_or. rewrite Hl. by destruct i.
  - intros Hl i [= Hi]. f_equal. unfold name, js_or. rewrite Hi.
    by destruct Hl as [-> | ->].
  - intros n Hn Hl. unfold name, js_or. rewrite Hl. by destruct n.
  - intros k Hk1 Hk2. unfold props. by rewrite !lookup_set_prop_ne.
  - done.
  - done.
  - intros Hj. f_equal.
    assert (json (VObj props) = true) as [_ Hp]%json_wf_jsonify; [|by injection Hp].
    apply json_obj in Hj as [_ Hj]. apply json_obj. split.
    { by apply wf_obj in Hwf_item as [? _]. }
    assert (json id = true).
    { unfold id, js_or. destruct (truthy _) eqn:?; [|done]. by apply json_lookup_prop. }
    assert (json name = true).
    { unfold name, js_or. destruct (truthy _) eqn:?; [|done]. by apply json_lookup_prop. }
    apply (set_prop_Forall (λ x, json x = true)); [done|].
    by apply (set_prop_Forall (λ x, json x = true)).
  - intros i [= Hi]. f_equal. apply has_prop_jsonify; [|congruence].
    by apply wf_obj in Hwf_item as [? _].
  - intros n [= Hn]. f_equal. apply has_prop_jsonify; [|congruence].
    by apply wf_obj in Hwf_item as [? _].
Qed.

Lemma saveToHistory_spec_witness :
  holds sample_store sample_history sample_library ∧
  wf (VObj fresh_run) = true ∧
  canonical (VArr sample_history) = true ∧ canonical (VObj fresh_run) = true ∧
  ∃ ls' item,
    mockDb.saveToHistory (js "q7w8e9r") (VObj fresh_run) sample_store
      = (Returns item, ls') ∧
    has_id (js "q7w8e9r") item ∧
    has_name (js "Session-q7w8e9r") item ∧
    holds ls' (item :: sample_history) sample_library.
Proof.
  assert (H : holds sample_store sample_history sample_library)
    by holds_by_computation.
  assert (Hwf : wf (VObj fresh_run) = true) by (by vm_compute).
  assert (Hch : canonical (VArr sample_history) = true) by reflexivity.
  assert (Hcd : canonical (VObj fresh_run) = true) by reflexivity.
  split_and!; [exact H | exact Hwf | exact Hch | exact Hcd |].
  destruct (saveToHistory_spec _ _ _ _ (js "q7w8e9r") H Hwf Hch Hcd)
    as (ls' & item & stored & Hrun & Hnew & _ & Hname & _ & _ & _ & Hst & Hsame & _).
  exists ls', item. split_and!.
  - exact Hrun.
  - apply Hnew. left. reflexivity.
  - apply (Hname (or_introl eq_refl)), Hnew. left. reflexivity.
  - rewrite <-(Hsame eq_refl). exact Hst.
Defined.

(** ** Reading a collection *)

(** C5, as the code has it. Reading the history or the library
    ([getHistory] and [getSavedSnippets], the specification's
    listHistory and listLibrary) returns
    the empty sequence when nothing is stored under the key, or the
    empty string is; it never reports a missing collection. A stored
    text that is not empty is handed to [JSON.parse]: the listing
    returns what it parses to, and when it is not JSON the SyntaxError
    of [JSON.parse] reaches the caller. *)
Theorem read_collection ls :
  (ls !! HISTORY_STORAGE_KEY = None ∨ ls !! HISTORY_STORAGE_KEY = Some [] →
   mockDb.getHistory ls = (Returns (VArr []), ls)) ∧
  (ls !! SAVED_SNIPPETS_KEY = None ∨ ls !! SAVED_SNIPPETS_KEY = Some [] →
   mockDb.getSavedSnippets ls = (Returns (VArr []), ls)) ∧
  (∀ raw, ls !! HISTORY_STORAGE_KEY = Some raw → raw ≠ [] →
     match JSON.parse raw with
     | Some v => mockDb.getHistory ls = (Returns v, ls)
     | None => mockDb.getHistory ls = (Throws SyntaxError, ls)
     end) ∧
  (∀ raw, ls !! SAVED_SNIPPETS_KEY = Some raw → raw ≠ [] →
     match JSON.parse raw with
     | Some v => mockDb.getSavedSnippets ls = (Returns v, ls)
     | None => mockDb.getSavedSnippets ls = (Throws SyntaxError, ls)
     end).
Proof.
  rewrite getHistory_unfold, getSavedSnippets_unfold. split_and!.
  - by intros [-> | ->].
  - by intros [-> | ->].
  - intros [|c r] -> Hne; [done|]. unfold JSON_parse. by destruct (JSON.parse _).
  - intros [|c r] -> Hne; [done|]. unfold JSON_parse. by destruct (JSON.parse _).
Qed.

(** C5 as the specification states it fails: a corrupt text under the
    history key, or under the library key, makes the listing throw
    instead of returning the empty sequence. *)
Lemma malformed_payload_throws :
  JSON.parse (js "{oops") = None ∧
  (mockDb.getHistory {[ HISTORY_STORAGE_KEY := js "{oops" ]}).1 = Throws SyntaxError ∧
  (mockDb.getSavedSnippets {[ SAVED_SNIPPETS_KEY := js "{oops" ]}).1 = Throws SyntaxError.
Proof. by vm_compute. Qed.

(** ** The result classifier *)

Lemma every_list_Forall {A} (p : A → bool) l :
  Array.every_list p l = true ↔ Forall (λ x, p x = true) l.
Proof.
  induction l as [|x l IH]; cbn [Array.every_list]; [by split|].
  rewrite Forall_cons, <-IH. destruct (p x); [tauto|]. split; [done | by intros [? _]].
Qed.

(** C7. [realL1Changes] and [alreadyOptimal] are the specification's
    hasRealRuleChanges and isAlreadyOptimal. With the rule-based changes
    [No rule-based optimizations applicable], whatever the rest of the
    result, [realL1Changes] is false and [alreadyOptimal] is true; with
    [Replaced manual loop with built-in sum], [realL1Changes] is true
    and [alreadyOptimal] is false; for every state of [result],
    [alreadyOptimal] holds exactly when there is a result whose
    rule-based change list is not empty and [realL1Changes] is false;
    and that is when the list is not empty and every entry of it
    contains the sentinel, whatever the case of its letters. *)
Theorem sentinel_classification :
  (∀ er ai,
     let r := Some {| error_report := er;
                      l1_changes := Some [js "No rule-based optimizations applicable"];
                      l2 := ai |} in
     Derived.realL1Changes r = false ∧ Derived.alreadyOptimal r = true) ∧
  (∀ er ai,
     let r := Some {| error_report := er;
                      l1_changes := Some [js "Replaced manual loop with built-in sum"];
                      l2 := ai |} in
     Derived.realL1Changes r = true ∧ Derived.alreadyOptimal r = false) ∧
  (∀ result,
     Derived.alreadyOptimal result = true ↔
     (∃ r c l, result = Some r ∧ l1_changes r = Some (c :: l)) ∧
     Derived.realL1Changes result = false) ∧
  (∀ result,
     Derived.alreadyOptimal result = true ↔
     ∃ r c l, result = Some r ∧ l1_changes r = Some (c :: l) ∧
              Forall (λ e, includes (toLowerCase e) NO_CHANGE_SENTINEL = true) (c :: l)).
Proof.
  assert (Hopt : ∀ result,
     Derived.alreadyOptimal result = true ↔
     (∃ r c l, result = Some r ∧ l1_changes r = Some (c :: l)) ∧
     Derived.realL1Changes result = false).
  { intros [[er [[|c l]|] ai]|]; unfold Derived.alreadyOptimal;
      cbn [mbind option_bind l1_changes non_empty andb].
    - split; [done|]. by intros [(r & c & l & [= <-] & [=]) _].
    - rewrite negb_true_iff. split; [|by intros [_ ?]].
      intros H. split; [|done]. by eexists _, c, l.
    - split; [done|]. by intros [(r & c & l & [= <-] & [=]) _].
    - split; [done|]. by intros [(r & c & l & [=] & _) _]. }
  split_and!.
  - intros er ai. by vm_compute.
  - intros er ai. by vm_compute.
  - exact Hopt.
  - intros result. rewrite Hopt. split.
    + intros [(r & c & l & -> & Hl) Hreal]. exists r, c, l. split_and!; [done..|].
      unfold Derived.realL1Changes, hasRealL1Changes in Hreal. rewrite Hl in Hreal.
      cbn [non_empty negb default from_option id] in Hreal.
      by apply every_list_Forall, negb_false_iff.
    + intros (r & c & l & -> & Hl & Hall). split; [by exists r, c, l|].
      unfold Derived.realL1Changes, hasRealL1Changes. rewrite Hl.
      cbn [non_empty negb default from_option id].
      by apply negb_false_iff, every_list_Forall.
Qed.

(** ** The optimizer page *)

Import OptimizePage.

Lemma loadSession_unfold sid pg ls :
  sid ≠ [] →
  loadSession (Some sid) (pg, ls) =
  match ls !! OPEN_SESSION_KEY with
  | Some (d :: q) =>
      try_catch
        (session ← eval (JSON_parse (d :: q));
         session_id ← eval (get_prop session (js "id"));
         if strict_eq session_id (VStr sid) then
           original_code ← eval (get_prop session (js "original_code"));
           setUserCode (js_or original_code (VStr []));;
           name ← eval (get_prop session (js "name"));
           setProjectName (js_or name (VStr (js "Loaded Session")));;
           name' ← eval (get_prop session (js "name"));
           setTempName (js_or name' (VStr (js "Loaded Session")));;
           session_id' ← eval (get_prop session (js "id"));
           setSavedSessionId session_id';;
           original_analysis ← eval (get_prop session (js "original_analysis"));
           (if truthy original_analysis then
              r ← eval (loaded_result session);
              setResult r
            else mret ());;
           storage (localStorage.removeItem OPEN_SESSION_KEY)
         else mret ())
        (λ _, mret ()) (pg, ls)
  | _ => (Returns (), (pg, ls))
  end.
Proof.
  intros Hsid. destruct sid as [|c p]; [done|]. unfold loadSession.
  unfold mbind at 1, M_bind at 1, storage at 1, localStorage.getItem. cbn [fst snd].
  by destruct (ls !! OPEN_SESSION_KEY) as [[|d q]|].
Qed.

(** ** Loading the session named in the URL *)

(** C8. Let the URL carry the session id [sid]. When the slot holds
    the JSON text of a session whose id is [sid], the mount effect
    returns without throwing, sets the code, the two names and the
    saved session id from the slot and removes the slot. For a session
    with an analysis it sets the result as well: the three flags up,
    the analysis of the slot, and its report, optimized analysis, two
    codes, level, rule-based changes and AI result, each with the
    fallback the page gives it when the slot has none; for a session
    without an analysis the result is left as it was. A second mount,
    from any page state and with no new write, changes neither the page
    nor the store. When there is no slot, or the slot holds no session
    of that id, the effect returns without throwing and changes neither
    the page nor the store. *)
Theorem hydration_consume_once pg ls sid :
  sid ≠ [] →
  (* a slot whose id is the id in the URL *)
  (∀ raw session,
     ls !! OPEN_SESSION_KEY = Some raw →
     JSON.parse raw = Some session →
     get_prop session (js "id") = Returns (VStr sid) →
     ∃ pg' ps,
       session = VObj ps ∧
       loadSession (Some sid) (pg, ls) = (Returns (), (pg', delete OPEN_SESSION_KEY ls)) ∧
       userCode pg' = js_or (lookup_prop (js "original_code") ps) (VStr []) ∧
       projectName pg' =
         js_or (lookup_prop (js "name") ps) (VStr (js "Loaded Session")) ∧
       tempName pg' = projectName pg' ∧
       savedSessionId pg' = VStr sid ∧
       (truthy (lookup_prop (js "original_analysis") ps) = false →
        result pg' = result pg) ∧
       (truthy (lookup_prop (js "original_analysis") ps) = true →
        result pg' =
          VObj [
            (js "passed_error_check", VBool true);
            (js "passed_complexity", VBool true);
            (js "optimization_ran", VBool true);
            (js "error_report",
               js_or (lookup_prop (js "error_report") ps) (VObj []));
            (js "original_analysis", lookup_prop (js "original_analysis") ps);
            (js "optimized_analysis",
               js_or (lookup_prop (js "optimized_analysis") ps)
                     (lookup_prop (js "original_analysis") ps));
            (js "original_code",
               js_or (lookup_prop (js "original_code") ps) (VStr []));
            (js "optimized_code",
               js_or (lookup_prop (js "optimized_code") ps) (VStr []));
            (js "optimization_level",
               js_or (lookup_prop (js "optimization_level") ps) (VStr (js "level1")));
            (js "l1_changes",
               js_or (lookup_prop (js "l1_changes") ps) (VArr []));
            (js "l2",
               js_or (lookup_prop (js "l2") ps)
                 (VObj [(js "winning_model", VStr []); (js "score", VNum (js "0"));
                        (js "confidence", VNum (js "0")); (js "risk", VStr []);
                        (js "changes_applied", VArr []);
                        (js "additional_suggestions", VArr []);
                        (js "ranked_models", VArr []);
                        (js "syntax_valid", VBool false)]));
            (js "error", VNull)]) ∧
       ∀ pg2, loadSession (Some sid) (pg2, delete OPEN_SESSION_KEY ls)
              = (Returns (), (pg2, delete OPEN_SESSION_KEY ls))) ∧
  (* no slot, or a slot of another id *)
  (ls !! OPEN_SESSION_KEY = None →
   loadSession (Some sid) (pg, ls) = (Returns (), (pg, ls))) ∧
  (∀ raw,
     ls !! OPEN_SESSION_KEY = Some raw →
     (∀ session, JSON.parse raw = Some session →
                 get_prop session (js "id") ≠ Returns (VStr sid)) →
     loadSession (Some sid) (pg, ls) = (Returns (), (pg, ls))).
Proof.
  intros Hsid. split_and!.
  - intros raw session Hraw Hparse Hid.
    assert (∃ ps, session = VObj ps) as [ps ->].
    { destruct session; try done. by eexists. }
    injection Hid as Hid.
    rewrite loadSession_unfold, Hraw by done.
    destruct raw as [|d q]; [done|].
    destruct (truthy (lookup_prop (js "original_analysis") ps)) eqn:Ha.
    + eexists _, ps. split_and!.
      * done.
      * unfold try_catch, mbind, M_bind, eval, JSON_parse. rewrite Hparse.
        cbn [get_prop]. rewrite Hid. cbn [strict_eq]. rewrite bool_decide_eq_true_2 by done.
        cbn [setUserCode setProjectName setTempName setSavedSessionId setResult fst snd].
        rewrite Ha. unfold loaded_result. cbn [get_prop mbind outcome_bind].
        cbn [setResult storage localStorage.removeItem fst snd]. done.
      * done.
      * done.
      * done.
      * done.
      * intros Hf. congruence.
      * intros _. reflexivity.
      * intros pg2. rewrite loadSession_unfold by done. by rewrite lookup_delete_eq.
    + eexists _, ps. split_and!.
      * done.
      * unfold try_catch, mbind, M_bind, eval, JSON_parse. rewrite Hparse.
        cbn [get_prop]. rewrite Hid. cbn [strict_eq]. rewrite bool_decide_eq_true_2 by done.
        cbn [setUserCode setProjectName setTempName setSavedSessionId setResult fst snd].
        rewrite Ha. cbn [mret M_ret storage localStorage.removeItem fst snd]. done.
      * done.
      * done.
      * done.
      * done.
      * intros _. reflexivity.
      * intros Ht. congruence.
      * intros pg2. rewrite loadSession_unfold by done. by rewrite lookup_delete_eq.
  - intros Hnone. by rewrite loadSession_unfold, Hnone.
  - intros raw Hraw Hother. rewrite loadSession_unfold, Hraw by done.
    destruct raw as [|d q]; [done|].
    unfold try_catch, mbind, M_bind, eval, JSON_parse.
    destruct (JSON.parse (d :: q)) as [session|] eqn:Hparse; [|done].
    specialize (Hother session eq_refl).
    destruct (get_prop session (js "id")) as [v|e] eqn:Hv; [|done].
    destruct (strict_eq v (VStr sid)) eqn:Heq; [|done].
    apply strict_eq_str in Heq as ->. done.
Qed.

Lemma hydration_consume_once_witness :
  js "s1" ≠ [] ∧
  ∃ pg',
    loadSession (Some (js "s1")) (sample_page, slot_store)
      = (Returns (), (pg', delete OPEN_SESSION_KEY slot_store)) ∧
    userCode pg' = VStr (js "total = 0") ∧
    projectName pg' = VStr (js "My Fix") ∧
    tempName pg' = VStr (js "My Fix") ∧
    savedSessionId pg' = VStr (js "s1") ∧
    result pg' =
      VObj [
        (js "passed_error_check", VBool true);
        (js "passed_complexity", VBool true);
        (js "optimization_ran", VBool true);
        (js "error_report", VObj []);
        (js "original_analysis", VObj [(js "loc", VNum (js "1"))]);
        (js "optimized_analysis", VObj [(js "loc", VNum (js "1"))]);
        (js "original_code", VStr (js "total = 0"));
        (js "optimized_code", VStr []);
        (js "optimization_level", VStr (js "level1"));
        (js "l1_changes", VArr []);
        (js "l2",
           VObj [(js "winning_model", VStr []); (js "score", VNum (js "0"));
                 (js "confidence", VNum (js "0")); (js "risk", VStr []);
                 (js "changes_applied", VArr []);
                 (js "additional_suggestions", VArr []);
                 (js "ranked_models", VArr []);
                 (js "syntax_valid", VBool false)]);
        (js "error", VNull)] ∧
    loadSession (Some (js "s1")) (pg', delete OPEN_SESSION_KEY slot_store)
      = (Returns (), (pg', delete OPEN_SESSION_KEY slot_store)).
Proof.
  assert (Hsid : js "s1" ≠ []) by discriminate.
  split; [exact Hsid|].
  destruct (hydration_consume_once sample_page slot_store (js "s1") Hsid)
    as (Hload & _ & _).
  destruct (Hload (JSON.stringify sample_slot) sample_slot)
    as (pg' & ps & Hps & Hrun & Hcode & Hname & Htemp & Hid & _ & Hres & Hagain).
  - reflexivity.
  - by vm_compute.
  - reflexivity.
  - unfold sample_slot in Hps. injection Hps as <-.
    exists pg'. split_and!.
    + exact Hrun.
    + exact Hcode.
    + exact Hname.
    + rewrite Htemp. exact Hname.
    + exact Hid.
    + exact (Hres eq_refl).
    + exact (Hagain pg').
Defined.

(** * The store as its callers use it *)

(** ** The samples *)

Lemma sample_record_result id name : is_result (sample_record id name).
Proof.
  split_and!.
  - eexists. reflexivity.
  - reflexivity.
  - right. eexists. reflexivity.
Qed.

Lemma broken_history : malformed HISTORY_STORAGE_KEY broken_history_store.
Proof. exists 123%N, (js "oops"). split; by vm_compute. Qed.

Lemma broken_library : malformed SAVED_SNIPPETS_KEY broken_library_store.
Proof. exists 123%N, (js "oops"). split; by vm_compute. Qed.

(** ** What one call writes *)

Lemma renamed_ids id X l l' :
  Forall2 (renamed id X) l l' →
  (λ r, get_prop r (js "id")) <$> l' = (λ r, get_prop r (js "id")) <$> l.
Proof.
  induction 1 as [|r r' l l' [Hy Hn] _ IH]; [done|].
  rewrite !fmap_cons, IH. f_equal.
  destruct (has_id_dec id r) as [Hr|Hr].
  - destruct (Hy Hr) as [Hr' _]. unfold has_id in *. congruence.
  - by rewrite (Hn Hr).
Qed.

Lemma updateProjectName_renames ls h s id X :
  holds ls h s →
  ∃ h' s',
    mockDb.updateProjectName id X ls =
      (Returns (), <[SAVED_SNIPPETS_KEY := JSON.stringify (VArr s')]>
                     (<[HISTORY_STORAGE_KEY := JSON.stringify (VArr h')]> ls)) ∧
    Array.map_list (mockDb.rename id X) h = Returns h' ∧
    Array.map_list (mockDb.rename id X) s = Returns s' ∧
    holds (<[SAVED_SNIPPETS_KEY := JSON.stringify (VArr s')]>
             (<[HISTORY_STORAGE_KEY := JSON.stringify (VArr h')]> ls)) h' s' ∧
    Forall2 (renamed id X) h h' ∧ Forall2 (renamed id X) s s'.
Proof.
  intros Hst. pose proof Hst as (_ & _ & Hrh & Hrs).
  destruct (holds_json _ _ _ Hst) as [Hjh Hjs].
  destruct (map_rename id X h Hrh Hjh) as (h' & Hmh & Hrh' & Hjh' & Hren_h).
  destruct (map_rename id X s Hrs Hjs) as (s' & Hms & Hrs' & Hjs' & Hren_s).
  pose proof (holds_set_history _ _ _ h' Hst Hrh' Hjh') as Hst1.
  pose proof (holds_set_saved _ _ _ s' Hst1 Hrs' Hjs') as Hst2.
  exists h', s'. split_and!; try done.
  unfold mockDb.updateProjectName, mbind, M_bind, eval, localStorage.setItem, Array.map.
  rewrite (run_getHistory _ _ _ Hst), Hmh. cbn [mbind outcome_bind].
  rewrite (run_getSavedSnippets _ _ _ Hst1), Hms. cbn [mbind outcome_bind].
  done.
Qed.

Lemma filter_list_sublist p l l' :
  Array.filter_list p l = Returns l' → l' `sublist_of` l.
Proof.
  revert l'. induction l as [|x l IH]; intros l'; cbn [Array.filter_list].
  { by intros [= <-]. }
  destruct (p x) as [b|e]; [|done]. cbn [mbind outcome_bind].
  destruct (Array.filter_list p l) as [t|e]; [|done]. cbn [mbind outcome_bind].
  intros [= <-]. destruct b; [apply sublist_skip | apply sublist_cons]; by apply IH.
Qed.

Lemma unique_ids_sublist l' l : l' `sublist_of` l → unique_ids l → unique_ids l'.
Proof.
  intros Hsub Hu. unfold unique_ids in *.
  eapply sublist_NoDup; [done|]. by apply fmap_sublist.
Qed.

Lemma deleteSnippet_writes ls h s id :
  holds ls h s →
  ∃ h' s',
    mockDb.deleteSnippet id ls =
      (Returns (), <[HISTORY_STORAGE_KEY := JSON.stringify (VArr h')]>
                     (<[SAVED_SNIPPETS_KEY := JSON.stringify (VArr s')]> ls)) ∧
    Array.filter_list (mockDb.other_id id) h = Returns h' ∧
    Array.filter_list (mockDb.other_id id) s = Returns s' ∧
    holds (<[HISTORY_STORAGE_KEY := JSON.stringify (VArr h')]>
             (<[SAVED_SNIPPETS_KEY := JSON.stringify (VArr s')]> ls)) h' s'.
Proof.
  intros Hst. pose proof Hst as (_ & _ & Hrh & Hrs).
  destruct (holds_json _ _ _ Hst) as [Hjh Hjs].
  destruct (filter_other_id id s Hrs Hjs) as (s' & Hfs & Hrs' & Hjs' & _).
  destruct (filter_other_id id h Hrh Hjh) as (h' & Hfh & Hrh' & Hjh' & _).
  pose proof (holds_set_saved _ _ _ s' Hst Hrs' Hjs') as Hst1.
  pose proof (holds_set_history _ _ _ h' Hst1 Hrh' Hjh') as Hst2.
  exists h', s'. split_and!; try done.
  unfold mockDb.deleteSnippet, mbind, M_bind, eval, localStorage.setItem, Array.filter.
  rewrite (run_getSavedSnippets _ _ _ Hst), Hfs. cbn [mbind outcome_bind].
  rewrite (run_getHistory _ _ _ Hst1), Hfh. cbn [mbind outcome_bind].
  done.
Qed.

(** What one call of [saveToHistory] writes. *)
Lemma saveToHistory_writes ls h s ps random :
  holds ls h s → wf (VObj ps) = true →
  let id := js_or (lookup_prop (js "id") ps) (VStr random) in
  let name := js_or (lookup_prop (js "name") ps) (VStr (js "Session-" ++ ToString id)) in
  let props := set_prop (js "name") name (set_prop (js "id") id ps) in
  mockDb.saveToHistory random (VObj ps) ls =
    (Returns (VObj props),
     <[HISTORY_STORAGE_KEY := JSON.stringify (VArr (VObj props :: h))]> ls) ∧
  wf (VObj props) = true ∧
  holds (<[HISTORY_STORAGE_KEY := JSON.stringify (VArr (VObj props :: h))]> ls)
        (VObj (jprops props) :: h) s.
Proof.
  intros Hst Hwf id name props. pose proof Hst as (_ & _ & Hrh & Hrs).
  destruct (holds_json _ _ _ Hst) as [Hjh Hjs].
  pose proof Hwf as [Hnd Hps]%wf_obj.
  assert (Hwf_id : wf id = true) by (by apply wf_js_or; [apply wf_lookup_prop|]).
  assert (Hwf_name : wf name = true) by (by apply wf_js_or; [apply wf_lookup_prop|]).
  assert (Hwf_item : wf (VObj props) = true).
  { apply wf_set_prop; [done|]. by apply wf_set_prop. }
  split_and!; [|done|].
  - unfold mockDb.saveToHistory, mbind, M_bind, eval, localStorage.setItem, spread, mret, M_ret.
    rewrite (run_getHistory _ _ _ Hst). done.
  - eapply holds_write_history; [done | | |].
    + apply wf_cons; [done | by apply json_arr].
    + rewrite jsonify_cons by (by apply json_arr). done.
    + constructor; [unfold is_record; eauto | done].
Qed.

(** What one call of [saveToProfile] writes. *)
Lemma saveToProfile_writes ls h s ps :
  holds ls h s → wf (VObj ps) = true → id_typed (VObj ps) →
  Exists (shares_id (VObj ps)) s ∧
    mockDb.saveToProfile (VObj ps) ls = (Returns (), ls) ∨
  Forall (λ r, ¬ shares_id (VObj ps) r) s ∧
    mockDb.saveToProfile (VObj ps) ls =
      (Returns (), <[SAVED_SNIPPETS_KEY := JSON.stringify (VArr (VObj ps :: s))]> ls) ∧
    holds (<[SAVED_SNIPPETS_KEY := JSON.stringify (VArr (VObj ps :: s))]> ls)
          h (VObj (jprops ps) :: s).
Proof.
  intros Hst Hwf Ht. pose proof Hst as (_ & _ & Hrh & Hrs).
  destruct (holds_json _ _ _ Hst) as [Hjh Hjs].
  destruct (find_same_id ps Ht s Hrs) as (found & Hrun & Hfound).
  rewrite (run_saveToProfile _ _ _ _ _ Hst Hrun).
  destruct Hfound as [[-> Hno] | (-> & pre & post & Hs & Hsame & Hpre)].
  - right. split_and!; [done..|].
    eapply holds_write_saved; [done | | |].
    + apply wf_cons; [done | by apply json_arr].
    + rewrite jsonify_cons by (by apply json_arr). done.
    + constructor; [unfold is_record; eauto | done].
  - left. split; [|done]. rewrite Hs. apply Exists_app. right. by left.
Qed.

Lemma unique_ids_prepend ps s :
  wf (VObj ps) = true → id_typed (VObj ps) →
  Forall (λ r, ¬ shares_id (VObj ps) r) s →
  unique_ids s → unique_ids (VObj (jprops ps) :: s).
Proof.
  intros Hwf Ht Hno Hu. pose proof (same_id_jsonify ps Hwf Ht) as Hj.
  unfold unique_ids. rewrite fmap_cons. apply NoDup_cons. split; [|done].
  intros (x & Hx & Hin)%list_elem_of_fmap. rewrite Forall_forall in Hno.
  apply (Hno x Hin). unfold shares_id in *. congruence.
Qed.

Lemma holds_other_keys ls ls' h s :
  ls' !! HISTORY_STORAGE_KEY = ls !! HISTORY_STORAGE_KEY →
  ls' !! SAVED_SNIPPETS_KEY = ls !! SAVED_SNIPPETS_KEY →
  holds ls h s → holds ls' h s.
Proof.
  intros Hh Hs (H1 & H2 & ? & ?). split_and!; try done.
  - rewrite getHistory_unfold in *. by rewrite Hh.
  - rewrite getSavedSnippets_unfold in *. by rewrite Hs.
Qed.

(** ** The stores of the application *)

(** X1. Every store of the application holds a history and a library of
    records, so that the two listings return without throwing, and no
    two entries of its library have the same id. *)
Theorem reachable_invariant ls :
  reachable ls → ∃ h s, holds ls h s ∧ unique_ids s.
Proof.
  induction 1 as
    [ ls Hh Hs
    | ls random data _ (h & s & Hst & Hu) ([ps ->] & Hwf & Ht)
    | ls id newName _ (h & s & Hst & Hu)
    | ls data _ (h & s & Hst & Hu) ([ps ->] & Hwf & Ht)
    | ls id _ (h & s & Hst & Hu)
    | ls key val _ (h & s & Hst & Hu) Hk1 Hk2
    | ls key _ (h & s & Hst & Hu) Hk1 Hk2 ].
  - exists [], []. split; [|constructor]. split_and!; try done.
    + by rewrite getHistory_unfold, Hh.
    + by rewrite getSavedSnippets_unfold, Hs.
  - destruct (saveToHistory_writes _ _ _ _ random Hst Hwf) as (-> & _ & Hst').
    eauto.
  - destruct (updateProjectName_renames _ _ _ id newName Hst)
      as (h' & s' & -> & _ & _ & Hst' & _ & Hren).
    exists h', s'. split; [done|]. unfold unique_ids.
    by rewrite (renamed_ids _ _ _ _ Hren).
  - destruct (saveToProfile_writes _ _ _ _ Hst Hwf Ht)
      as [(_ & ->) | (Hno & -> & Hst1)].
    + eauto.
    + exists h, (VObj (jprops ps) :: s). split; [done|]. by apply unique_ids_prepend.
  - destruct (deleteSnippet_writes _ _ _ id Hst) as (h' & s' & -> & _ & Hfs & Hst').
    exists h', s'. split; [done|].
    eapply unique_ids_sublist; [|done]. by eapply filter_list_sublist.
  - exists h, s. split; [|done]. eapply holds_other_keys; [| |done].
    + cbn. by rewrite lookup_insert_ne.
    + cbn. by rewrite lookup_insert_ne.
  - exists h, s. split; [|done]. eapply holds_other_keys; [| |done].
    + cbn. by rewrite lookup_delete_ne.
    + cbn. by rewrite lookup_delete_ne.
Qed.

Lemma reachable_invariant_witness :
  reachable diverged_store ∧
  ∃ h s, holds diverged_store h s ∧ unique_ids s.
Proof.
  assert (H : reachable diverged_store).
  { apply reach_saveToProfile; [|apply sample_record_result].
    apply reach_updateProjectName.
    apply reach_saveToHistory; [|apply sample_record_result].
    apply reach_start; reflexivity. }
  split; [exact H|]. exact (reachable_invariant _ H).
Defined.

(** ** Lookup after a save *)

Lemma last_with_id_unique id l r r' :
  last_with_id id l r → last_with_id id l r' → r' = r.
Proof.
  intros (pre & post & -> & Hr & Hpost) (pre' & post' & Heq & Hr' & Hpost').
  apply app_eq_inv in Heq as [(k & -> & Hk) | (k & -> & Hk)].
  - destruct k as [|x k]; [by injection Hk|]. injection Hk as -> ->.
    apply Forall_app in Hpost' as [_ [Hc _]%Forall_cons]. done.
  - destruct k as [|x k]; [by injection Hk|]. injection Hk as -> ->.
    apply Forall_app in Hpost as [_ [Hc _]%Forall_cons]. done.
Qed.

Lemma finds_unique id l r r' : finds id l r → finds id l r' → r' = r.
Proof.
  intros [[Hno ->] | Hr] [[Hno' ->] | Hr']; [done | | | by eapply last_with_id_unique].
  - destruct Hr' as (pre & post & -> & Hc & _).
    apply Forall_app in Hno as [_ [Hn _]%Forall_cons]. done.
  - destruct Hr as (pre & post & -> & Hc & _).
    apply Forall_app in Hno' as [_ [Hn _]%Forall_cons]. done.
Qed.

Lemma finds_older id x l r : Exists (has_id id) l → finds id l r → finds id (x :: l) r.
Proof.
  intros Hex [[Hno ->] | (pre & post & -> & Hr & Hpost)].
  - apply Exists_exists in Hex as (y & Hy & Hid). rewrite Forall_forall in Hno.
    by destruct (Hno y Hy).
  - right. by exists (x :: pre), post.
Qed.

Lemma finds_newest id x l :
  has_id id x → Forall (λ r, ¬ has_id id r) l → finds id (x :: l) x.
Proof. intros Hx Hl. right. by exists [], l. Qed.

Lemma finds_elem id l r : finds id l r → r = VUndefined ∨ r ∈ l ∧ has_id id r.
Proof.
  intros [[_ ->] | (pre & post & -> & Hr & _)]; [by left | right].
  split; [|done]. apply elem_of_app. right. by left.
Qed.

Lemma getById_returns ls h s id r :
  holds ls h s → finds id (h ++ s) r → mockDb.getById id ls = (Returns r, ls).
Proof.
  intros Hst Hr. destruct (getById_finds _ _ _ id Hst) as (r' & -> & Hr').
  by rewrite (finds_unique _ _ _ _ Hr Hr').
Qed.

(** X2. [saveToHistory] puts the record in front of the history and
    [getById] returns the last record of an id: the record just saved is
    what [getById] returns for its id when no other record of the
    history or of the library has that id; when one has, [getById]
    goes on returning the record it returned before the save. The save
    writes the history anew: the numbers of the history and of the
    record are canonical, so that the engine writes each of them as the
    model does. *)
Theorem saveToHistory_getById ls h s ps random :
  holds ls h s → wf (VObj ps) = true →
  canonical (VArr h) = true → canonical (VObj ps) = true →
  ∃ item stored ls',
    mockDb.saveToHistory random (VObj ps) ls = (Returns item, ls') ∧
    jsonify item = Some stored ∧
    ∀ id, has_id id item →
      (Forall (λ r, ¬ has_id id r) (h ++ s) →
       mockDb.getById id ls' = (Returns stored, ls')) ∧
      (Exists (has_id id) (h ++ s) →
       ∃ old, old ∈ h ++ s ∧
              mockDb.getById id ls = (Returns old, ls) ∧
              mockDb.getById id ls' = (Returns old, ls')).
Proof.
  intros Hst Hwf _ _.
  destruct (saveToHistory_writes _ _ _ _ random Hst Hwf) as (Hrun & Hwf' & Hst').
  eexists _, _, _. split_and!; [exact Hrun | done |].
  intros id Hid. split.
  - intros Hno. apply (getById_returns _ _ _ _ _ Hst'). apply finds_newest; [|done].
    unfold has_id in *. cbn [get_prop] in *. injection Hid as Hid. f_equal.
    apply has_prop_jsonify; [|done]. by apply wf_obj in Hwf' as [? _].
  - intros Hex. destruct (getById_finds _ _ _ id Hst) as (old & Hold & Hfinds).
    exists old. split_and!; [|done|].
    + destruct (finds_elem _ _ _ Hfinds) as [-> | [? _]]; [|done].
      destruct Hfinds as [[Hno _] | (pre & post & _ & Hc & _)]; [|done].
      apply Exists_exists in Hex as (y & Hy & Hyid). rewrite Forall_forall in Hno.
      by destruct (Hno y Hy).
    + apply (getById_returns _ _ _ _ _ Hst'). by apply finds_older.
Qed.

Lemma saveToHistory_getById_witness :
  holds sample_store sample_history sample_library ∧
  wf (sample_record "a1b2c3" "Third run") = true ∧
  canonical (VArr sample_history) = true ∧
  canonical (sample_record "a1b2c3" "Third run") = true ∧
  ∃ item stored ls',
    mockDb.saveToHistory (js "q7w8e9r") (sample_record "a1b2c3" "Third run") sample_store
      = (Returns item, ls') ∧
    jsonify item = Some stored ∧
    ∃ old, old ∈ sample_history ++ sample_library ∧
           mockDb.getById (js "a1b2c3") ls' = (Returns old, ls').
Proof.
  assert (H : holds sample_store sample_history sample_library)
    by holds_by_computation.
  assert (Hwf : wf (sample_record "a1b2c3" "Third run") = true) by reflexivity.
  assert (Hch : canonical (VArr sample_history) = true) by reflexivity.
  assert (Hcd : canonical (sample_record "a1b2c3" "Third run") = true) by reflexivity.
  split_and!; [exact H | exact Hwf | exact Hch | exact Hcd |].
  destruct (saveToHistory_getById _ _ _ _ (js "q7w8e9r") H Hwf Hch Hcd)
    as (item & stored & ls' & Hrun & Hstored & Hget).
  exists item, stored, ls'. split_and!; [exact Hrun | exact Hstored |].
  destruct (Hget (js "a1b2c3")) as [_ Hold].
  { injection Hrun as <- _. reflexivity. }
  destruct Hold as (old & Hin & _ & Hnew).
  { apply Exists_app. left. apply Exists_cons_hd. reflexivity. }
  exists old. split; [exact Hin | exact Hnew].
Defined.

(** ** A delete after a save *)

Lemma filter_other_id_hit id r l :
  has_id id r → is_record r →
  Array.filter_list (mockDb.other_id id) (r :: l) =
  Array.filter_list (mockDb.other_id id) l.
Proof.
  intros Hid [ps ->]. cbn [Array.filter_list]. rewrite other_id_record.
  apply has_id_record in Hid as ->. cbn [mbind outcome_bind negb].
  by destruct (Array.filter_list _ l).
Qed.

Lemma filter_other_id_same id l :
  Forall is_record l → Forall (λ r, ¬ has_id id r) l →
  Array.filter_list (mockDb.other_id id) l = Returns l.
Proof.
  induction 1 as [|r l [ps ->] Hl IH]; [done|]. intros [Hr Hno]%Forall_cons.
  cbn [Array.filter_list]. rewrite other_id_record, IH by done.
  rewrite has_id_record in Hr. apply not_true_is_false in Hr as ->. done.
Qed.

(** X3. A delete undoes a save. When no record of the history or of the
    library has the id of the record [saveToHistory] returns,
    [deleteSnippet] of that id brings both collections back to what
    they were before the save; and likewise for a record that
    [saveToProfile] put into the library. The save and the delete write
    the collections anew: the numbers of the two collections and of
    the record are canonical, so that the engine writes each of them
    as the model does. *)
Theorem deleteSnippet_undoes_save ls h s ps random id :
  holds ls h s → wf (VObj ps) = true →
  canonical (VArr (h ++ s)) = true → canonical (VObj ps) = true →
  Forall (λ r, ¬ has_id id r) (h ++ s) →
  (∃ item ls1,
     mockDb.saveToHistory random (VObj ps) ls = (Returns item, ls1) ∧
     (has_id id item →
      ∃ ls2, mockDb.deleteSnippet id ls1 = (Returns (), ls2) ∧ holds ls2 h s)) ∧
  (has_id id (VObj ps) →
   ∃ ls1 ls2,
     mockDb.saveToProfile (VObj ps) ls = (Returns (), ls1) ∧
     holds ls1 h (VObj (jprops ps) :: s) ∧
     mockDb.deleteSnippet id ls1 = (Returns (), ls2) ∧ holds ls2 h s).
Proof.
  intros Hst Hwf _ _ [Hnh Hns]%Forall_app. pose proof Hst as (_ & _ & Hrh & Hrs). split.
  - destruct (saveToHistory_writes _ _ _ _ random Hst Hwf) as (Hrun & Hwf' & Hst').
    eexists _, _. split; [exact Hrun|]. intros Hid.
    assert (Hid' : has_id id (VObj (jprops
      (set_prop (js "name")
         (js_or (lookup_prop (js "name") ps)
            (VStr (js "Session-" ++
               ToString (js_or (lookup_prop (js "id") ps) (VStr random)))))
         (set_prop (js "id") (js_or (lookup_prop (js "id") ps) (VStr random)) ps))))).
    { unfold has_id in *. cbn [get_prop] in *. injection Hid as Hid. f_equal.
      apply has_prop_jsonify; [|done]. by apply wf_obj in Hwf' as [? _]. }
    destruct (deleteSnippet_writes _ _ _ id Hst') as (h' & s' & Hdel & Hfh & Hfs & Hst'').
    rewrite filter_other_id_hit, filter_other_id_same in Hfh
      by (done || unfold is_record; eauto).
    rewrite filter_other_id_same in Hfs by done.
    injection Hfh as <-. injection Hfs as <-. eauto.
  - intros Hid.
    assert (Ht : id_typed (VObj ps)) by (right; by exists id).
    destruct (saveToProfile_writes _ _ _ _ Hst Hwf Ht)
      as [(Hex & _) | (_ & Hrun & Hst')].
    { apply Exists_exists in Hex as (x & Hx & Hxid). rewrite Forall_forall in Hns.
      destruct (Hns x Hx). unfold has_id, shares_id in *. congruence. }
    assert (Hid' : has_id id (VObj (jprops ps))).
    { pose proof (same_id_jsonify ps Hwf Ht). unfold has_id, shares_id in *. congruence. }
    destruct (deleteSnippet_writes _ _ _ id Hst') as (h' & s' & Hdel & Hfh & Hfs & Hst'').
    rewrite filter_other_id_hit, filter_other_id_same in Hfs
      by (done || unfold is_record; eauto).
    rewrite filter_other_id_same in Hfh by done.
    injection Hfh as <-. injection Hfs as <-. eauto 10.
Qed.

Lemma deleteSnippet_undoes_save_witness :
  holds sample_store sample_history sample_library ∧
  wf (VObj fresh_run) = true ∧
  canonical (VArr (sample_history ++ sample_library)) = true ∧
  canonical (VObj fresh_run) = true ∧
  Forall (λ r, ¬ has_id (js "q7w8e9r") r) (sample_history ++ sample_library) ∧
  ∃ item ls1 ls2,
    mockDb.saveToHistory (js "q7w8e9r") (VObj fresh_run) sample_store
      = (Returns item, ls1) ∧
    mockDb.deleteSnippet (js "q7w8e9r") ls1 = (Returns (), ls2) ∧
    holds ls2 sample_history sample_library.
Proof.
  assert (H : holds sample_store sample_history sample_library)
    by holds_by_computation.
  assert (Hwf : wf (VObj fresh_run) = true) by reflexivity.
  assert (Hno : Forall (λ r, ¬ has_id (js "q7w8e9r") r) (sample_history ++ sample_library)).
  { repeat constructor; by vm_compute. }
  assert (Hc : canonical (VArr (sample_history ++ sample_library)) = true)
    by reflexivity.
  assert (Hcd : canonical (VObj fresh_run) = true) by reflexivity.
  split_and!; [exact H | exact Hwf | exact Hc | exact Hcd | exact Hno |].
  destruct (deleteSnippet_undoes_save _ _ _ _ (js "q7w8e9r") (js "q7w8e9r")
              H Hwf Hc Hcd Hno)
    as [(item & ls1 & Hrun & Hdel) _].
  destruct Hdel as (ls2 & Hdel & Hst).
  { injection Hrun as <- _. reflexivity. }
  exists item, ls1, ls2. split_and!; [exact Hrun | exact Hdel | exact Hst].
Defined.

(** ** One rename after another *)

Lemma set_prop_set_prop k x y ps : set_prop k y (set_prop k x ps) = set_prop k y ps.
Proof.
  induction ps as [|[k' z] ps IH]; cbn [set_prop].
  { by rewrite decide_True. }
  destruct (decide (k' = k)); cbn [set_prop].
  - by rewrite decide_True.
  - by rewrite decide_False, IH.
Qed.

Lemma map_rename_again id X Y l l1 :
  Forall is_record l →
  Array.map_list (mockDb.rename id X) l = Returns l1 →
  Array.map_list (mockDb.rename id Y) l1 = Array.map_list (mockDb.rename id Y) l.
Proof.
  intros Hl. revert l1. induction Hl as [|r l [ps ->] Hl IH]; intros l1.
  { by intros [= <-]. }
  cbn [Array.map_list]. rewrite !rename_record. cbn [mbind outcome_bind].
  destruct (Array.map_list (mockDb.rename id X) l) as [t|e] eqn:Ht; [|done].
  cbn [mbind outcome_bind]. intros [= <-]. cbn [Array.map_list].
  rewrite (IH t eq_refl).
  destruct (strict_eq (lookup_prop (js "id") ps) (VStr id)) eqn:Hid.
  - rewrite rename_record, lookup_set_prop_ne by (symmetry; apply id_name_differ).
    by rewrite Hid, set_prop_set_prop.
  - by rewrite rename_record, Hid.
Qed.

(** X4. The last rename wins: renaming a session and then renaming it
    again leaves the store that the second rename alone would leave; in
    particular a rename repeated with the same name changes nothing
    more. *)
Theorem updateProjectName_last_wins ls h s id X Y :
  holds ls h s →
  mockDb.updateProjectName id Y (mockDb.updateProjectName id X ls).2 =
  mockDb.updateProjectName id Y ls.
Proof.
  intros Hst. pose proof Hst as (_ & _ & Hrh & Hrs).
  destruct (updateProjectName_renames _ _ _ id X Hst)
    as (h1 & s1 & -> & Hh1 & Hs1 & Hst1 & _).
  cbn [snd].
  destruct (updateProjectName_renames _ _ _ id Y Hst1)
    as (h2 & s2 & -> & Hh2 & Hs2 & _).
  destruct (updateProjectName_renames _ _ _ id Y Hst)
    as (h2' & s2' & -> & Hh2' & Hs2' & _).
  rewrite (map_rename_again _ _ _ _ _ Hrh Hh1), Hh2' in Hh2. injection Hh2 as <-.
  rewrite (map_rename_again _ _ _ _ _ Hrs Hs1), Hs2' in Hs2. injection Hs2 as <-.
  f_equal.
  rewrite (insert_insert_ne _ HISTORY_STORAGE_KEY SAVED_SNIPPETS_KEY) by apply keys_differ.
  by rewrite !insert_insert_eq.
Qed.

Lemma updateProjectName_last_wins_witness :
  holds sample_store sample_history sample_library ∧
  mockDb.updateProjectName (js "a1b2c3") (js "My Fix")
    (mockDb.updateProjectName (js "a1b2c3") (js "Tidy sum") sample_store).2 =
  mockDb.updateProjectName (js "a1b2c3") (js "My Fix") sample_store.
Proof.
  assert (H : holds sample_store sample_history sample_library)
    by holds_by_computation.
  split; [exact H|].
  exact (updateProjectName_last_wins _ _ _ (js "a1b2c3") (js "Tidy sum") (js "My Fix") H).
Defined.

(** ** A collection that cannot be read *)

Lemma getHistory_run ls : mockDb.getHistory ls = ((mockDb.getHistory ls).1, ls).
Proof. by rewrite getHistory_unfold. Qed.

Lemma getSavedSnippets_run ls :
  mockDb.getSavedSnippets ls = ((mockDb.getSavedSnippets ls).1, ls).
Proof. by rewrite getSavedSnippets_unfold. Qed.

Lemma getHistory_malformed ls :
  malformed HISTORY_STORAGE_KEY ls → mockDb.getHistory ls = (Throws SyntaxError, ls).
Proof.
  intros (c & r & Hraw & Hparse). rewrite getHistory_unfold, Hraw.
  unfold JSON_parse. by rewrite Hparse.
Qed.

Lemma getSavedSnippets_malformed ls :
  malformed SAVED_SNIPPETS_KEY ls →
  mockDb.getSavedSnippets ls = (Throws SyntaxError, ls).
Proof.
  intros (c & r & Hraw & Hparse). rewrite getSavedSnippets_unfold, Hraw.
  unfold JSON_parse. by rewrite Hparse.
Qed.

Lemma getHistory_stores ls v :
  stores HISTORY_STORAGE_KEY ls v → mockDb.getHistory ls = (Returns v, ls).
Proof.
  intros (c & r & Hraw & Hparse). rewrite getHistory_unfold, Hraw.
  unfold JSON_parse. by rewrite Hparse.
Qed.

Lemma malformed_other_key k k' x ls :
  k ≠ k' → malformed k' ls → malformed k' (<[k := x]> ls).
Proof.
  intros Hne (c & r & Hraw & Hparse). exists c, r. by rewrite lookup_insert_ne.
Qed.

(** X5. When the text stored for the history is not JSON, every
    operation that reads the history throws the SyntaxError of
    [JSON.parse] and leaves the store as it was: [saveToHistory] saves
    nothing, [updateProjectName] renames nothing, [getById] finds
    nothing. *)
Theorem malformed_history_throws ls random data id X :
  malformed HISTORY_STORAGE_KEY ls →
  mockDb.saveToHistory random data ls = (Throws SyntaxError, ls) ∧
  mockDb.updateProjectName id X ls = (Throws SyntaxError, ls) ∧
  mockDb.getById id ls = (Throws SyntaxError, ls).
Proof.
  intros Hbad%getHistory_malformed. split_and!.
  - unfold mockDb.saveToHistory. by rewrite (bind_throws _ _ _ _ _ Hbad).
  - unfold mockDb.updateProjectName. by rewrite (bind_throws _ _ _ _ _ Hbad).
  - unfold mockDb.getById. by rewrite (bind_throws _ _ _ _ _ Hbad).
Qed.

Lemma malformed_history_throws_witness :
  malformed HISTORY_STORAGE_KEY broken_history_store ∧
  mockDb.saveToHistory (js "q7w8e9r") (VObj fresh_run) broken_history_store
    = (Throws SyntaxError, broken_history_store) ∧
  mockDb.getById (js "k9x") broken_history_store
    = (Throws SyntaxError, broken_history_store).
Proof.
  split; [exact broken_history|].
  destruct (malformed_history_throws broken_history_store (js "q7w8e9r") (VObj fresh_run)
              (js "k9x") (js "My Fix") broken_history) as (Hsave & _ & Hget).
  split; [exact Hsave | exact Hget].
Defined.

(** X6. A rename is not atomic. When the history can be read and the
    text stored for the library is not JSON, [updateProjectName] throws
    the SyntaxError only after it has written the renamed history: the
    store it leaves holds the history with the new name, the records
    of other ids being what they were (for a history whose numbers are
    canonical, which the engine writes as it read them). With a library
    that cannot be read, [saveToProfile] and [deleteSnippet] throw before
    they write. *)
Theorem updateProjectName_not_atomic ls h data id X :
  (mockDb.getHistory ls).1 = Returns (VArr h) → Forall is_record h →
  canonical (VArr h) = true →
  malformed SAVED_SNIPPETS_KEY ls →
  (∃ h',
     mockDb.updateProjectName id X ls =
       (Throws SyntaxError, <[HISTORY_STORAGE_KEY := JSON.stringify (VArr h')]> ls) ∧
     (mockDb.getHistory (<[HISTORY_STORAGE_KEY := JSON.stringify (VArr h')]> ls)).1
       = Returns (VArr h') ∧
     Forall (λ r, has_id id r → has_name X r) h' ∧
     Forall2 (λ r r', (has_id id r ↔ has_id id r') ∧ (¬ has_id id r → r' = r)) h h') ∧
  mockDb.saveToProfile data ls = (Throws SyntaxError, ls) ∧
  mockDb.deleteSnippet id ls = (Throws SyntaxError, ls).
Proof.
  intros Hh Hrh _ Hbad. split_and!.
  - pose proof (getHistory_json _ _ Hh) as Hjh.
    destruct (map_rename id X h Hrh Hjh) as (h' & Hmh & Hrh' & Hjh' & Hren).
    exists h'. split_and!.
    + unfold mockDb.updateProjectName, mbind, M_bind.
      rewrite getHistory_run, Hh. unfold eval, Array.map. rewrite Hmh.
      cbn [mbind outcome_bind localStorage.setItem].
      rewrite getSavedSnippets_malformed; [done|].
      apply malformed_other_key; [apply keys_differ | done].
    + rewrite getHistory_unfold, lookup_insert_eq. cbn [fst].
      by destruct (JSON_parse_stringify h' Hjh') as (c & r & -> & ->).
    + by eapply renamed_after.
    + eapply Forall2_impl; [done|]. intros r r' [Hy Hn]. split; [|done].
      destruct (has_id_dec id r) as [Hr|Hr]; [split; [by apply Hy | done]|].
      by rewrite (Hn Hr).
  - apply getSavedSnippets_malformed in Hbad.
    unfold mockDb.saveToProfile. by rewrite (bind_throws _ _ _ _ _ Hbad).
  - apply getSavedSnippets_malformed in Hbad.
    unfold mockDb.deleteSnippet. by rewrite (bind_throws _ _ _ _ _ Hbad).
Qed.

Lemma updateProjectName_not_atomic_witness :
  (mockDb.getHistory broken_library_store).1 = Returns (VArr sample_history) ∧
  Forall is_record sample_history ∧
  canonical (VArr sample_history) = true ∧
  malformed SAVED_SNIPPETS_KEY broken_library_store ∧
  ∃ h',
    mockDb.updateProjectName (js "a1b2c3") (js "My Fix") broken_library_store =
      (Throws SyntaxError,
       <[HISTORY_STORAGE_KEY := JSON.stringify (VArr h')]> broken_library_store) ∧
    Forall (λ r, has_id (js "a1b2c3") r → has_name (js "My Fix") r) h'.
Proof.
  assert (Hh : (mockDb.getHistory broken_library_store).1 = Returns (VArr sample_history))
    by (by vm_compute).
  assert (Hr : Forall is_record sample_history) by (vm_compute; repeat econstructor).
  assert (Hc : canonical (VArr sample_history) = true) by reflexivity.
  split_and!; [exact Hh | exact Hr | exact Hc | exact broken_library |].
  destruct (updateProjectName_not_atomic _ _ (VObj fresh_run) (js "a1b2c3") (js "My Fix")
              Hh Hr Hc broken_library) as ((h' & Hrun & _ & Hnamed & _) & _).
  exists h'. split; [exact Hrun | exact Hnamed].
Defined.

(** X7. A delete is not atomic either. It filters the library first:
    when the library can be read and the text stored for the history is
    not JSON, [deleteSnippet] throws the SyntaxError after it has
    written the library without the records of the id; the records it
    keeps are those of other ids, as they were (for a library whose
    numbers are canonical, which the engine writes as it read them). *)
Theorem deleteSnippet_not_atomic ls s id :
  (mockDb.getSavedSnippets ls).1 = Returns (VArr s) → Forall is_record s →
  canonical (VArr s) = true →
  malformed HISTORY_STORAGE_KEY ls →
  ∃ s',
    mockDb.deleteSnippet id ls =
      (Throws SyntaxError, <[SAVED_SNIPPETS_KEY := JSON.stringify (VArr s')]> ls) ∧
    (mockDb.getSavedSnippets (<[SAVED_SNIPPETS_KEY := JSON.stringify (VArr s')]> ls)).1
      = Returns (VArr s') ∧
    (∀ r, r ∈ s' ↔ r ∈ s ∧ ¬ has_id id r).
Proof.
  intros Hs Hrs _ Hbad. pose proof (getSavedSnippets_json _ _ Hs) as Hjs.
  destruct (filter_other_id id s Hrs Hjs) as (s' & Hfs & Hrs' & Hjs' & Hin & _).
  exists s'. split_and!; [| |done].
  - unfold mockDb.deleteSnippet, mbind, M_bind.
    rewrite getSavedSnippets_run, Hs. unfold eval, Array.filter. rewrite Hfs.
    cbn [mbind outcome_bind localStorage.setItem].
    rewrite getHistory_malformed; [done|].
    apply malformed_other_key; [symmetry; apply keys_differ | done].
  - rewrite getSavedSnippets_unfold, lookup_insert_eq. cbn [fst].
    by destruct (JSON_parse_stringify s' Hjs') as (c & r & -> & ->).
Qed.

Lemma deleteSnippet_not_atomic_witness :
  (mockDb.getSavedSnippets broken_history_store).1 = Returns (VArr sample_library) ∧
  Forall is_record sample_library ∧
  canonical (VArr sample_library) = true ∧
  malformed HISTORY_STORAGE_KEY broken_history_store ∧
  ∃ s',
    mockDb.deleteSnippet (js "k9x") broken_history_store =
      (Throws SyntaxError,
       <[SAVED_SNIPPETS_KEY := JSON.stringify (VArr s')]> broken_history_store) ∧
    ∀ r, r ∈ s' ↔ r ∈ sample_library ∧ ¬ has_id (js "k9x") r.
Proof.
  assert (Hs : (mockDb.getSavedSnippets broken_history_store).1
               = Returns (VArr sample_library)) by (by vm_compute).
  assert (Hr : Forall is_record sample_library) by (vm_compute; repeat econstructor).
  assert (Hc : canonical (VArr sample_library) = true) by reflexivity.
  split_and!; [exact Hs | exact Hr | exact Hc | exact broken_history |].
  destruct (deleteSnippet_not_atomic _ _ (js "k9x") Hs Hr Hc broken_history)
    as (s' & Hrun & _ & Hin).
  exists s'. split; [exact Hrun | exact Hin].
Defined.

(** X8. A history that is JSON but not an array. The listing returns
    the value as it is, and the operations that treat it as an array
    throw a TypeError and write nothing: [updateProjectName] for every
    such value, [saveToHistory] and [getById] for every one that is not
    a string (a string is spread into its characters). *)
Theorem history_not_an_array ls v random data id X :
  stores HISTORY_STORAGE_KEY ls v → ¬ is_array v →
  mockDb.getHistory ls = (Returns v, ls) ∧
  mockDb.updateProjectName id X ls = (Throws TypeError, ls) ∧
  ((∀ t, v ≠ VStr t) →
   mockDb.saveToHistory random data ls = (Throws TypeError, ls) ∧
   mockDb.getById id ls = (Throws TypeError, ls)).
Proof.
  intros Hv%getHistory_stores Harr. split_and!; [done| |intros Hstr; split].
  - unfold mockDb.updateProjectName. rewrite (bind_returns _ _ _ _ _ Hv).
    unfold mbind at 1, M_bind at 1, eval.
    destruct v; try done. destruct Harr. by eexists.
  - unfold mockDb.saveToHistory. rewrite (bind_returns _ _ _ _ _ Hv).
    unfold mbind, M_bind, eval.
    destruct data; cbn [get_prop]; try done;
      (destruct v as [| | | |t|l|]; try done;
         [by destruct (Hstr t) | destruct Harr; by eexists]).
  - unfold mockDb.getById. rewrite (bind_returns _ _ _ _ _ Hv).
    unfold mbind at 1, M_bind at 1, eval.
    destruct v as [| | | |t|l|]; try done;
      [by destruct (Hstr t) | destruct Harr; by eexists].
Qed.

Lemma history_not_an_array_witness :
  stores HISTORY_STORAGE_KEY null_history_store VNull ∧ ¬ is_array VNull ∧
  mockDb.getHistory null_history_store = (Returns VNull, null_history_store) ∧
  mockDb.updateProjectName (js "k9x") (js "My Fix") null_history_store
    = (Throws TypeError, null_history_store) ∧
  mockDb.saveToHistory (js "q7w8e9r") (VObj fresh_run) null_history_store
    = (Throws TypeError, null_history_store).
Proof.
  assert (Hv : stores HISTORY_STORAGE_KEY null_history_store VNull).
  { exists 110%N, (js "ull"). split; by vm_compute. }
  assert (Ha : ¬ is_array VNull) by (by intros [l Hl]).
  split_and!; [exact Hv | exact Ha | | |].
  - apply (history_not_an_array _ _ (js "q7w8e9r") (VObj fresh_run) (js "k9x")
             (js "My Fix") Hv Ha).
  - apply (history_not_an_array _ _ (js "q7w8e9r") (VObj fresh_run) (js "k9x")
             (js "My Fix") Hv Ha).
  - apply (history_not_an_array _ _ (js "q7w8e9r") (VObj fresh_run) (js "k9x")
             (js "My Fix") Hv Ha). by intros t.
Defined.

(** * The account and the application shell *)

Lemma stringify_obj_parse ps j :
  wf (VObj ps) = true → jsonify (VObj ps) = Some j →
  ∃ c r, JSON.stringify (VObj ps) = c :: r ∧ JSON_parse (c :: r) = Returns j.
Proof.
  intros Hwf Hj. exists 123%N, (members_of true ps ++ [125%N]). split; [done|].
  change (123%N :: members_of true ps ++ [125%N]) with (JSON.stringify (VObj ps)).
  unfold JSON_parse. by rewrite parse_stringify, Hj.
Qed.

Lemma getProfile_unfold ls :
  mockAuth.getProfile ls =
  (match ls !! USER_PROFILE_DETAILS with
   | Some (c :: r) => JSON_parse (c :: r)
   | _ => Returns VNull
   end, ls).
Proof.
  unfold mockAuth.getProfile, localStorage.getItem, mbind, M_bind, eval, mret, M_ret.
  by destruct (ls !! USER_PROFILE_DETAILS) as [[|c r]|].
Qed.

Lemma account_keys_differ :
  CURRENT_USER_NAME ≠ USER_PROFILE_DETAILS ∧
  CURRENT_USER_NAME ≠ HISTORY_STORAGE_KEY ∧ CURRENT_USER_NAME ≠ SAVED_SNIPPETS_KEY ∧
  USER_PROFILE_DETAILS ≠ HISTORY_STORAGE_KEY ∧ USER_PROFILE_DETAILS ≠ SAVED_SNIPPETS_KEY ∧
  USER_KEY ≠ CURRENT_USER_NAME ∧ USER_KEY ≠ USER_PROFILE_DETAILS ∧
  USER_KEY ≠ HISTORY_STORAGE_KEY ∧ USER_KEY ≠ SAVED_SNIPPETS_KEY.
Proof. by vm_compute. Qed.

(** ** Logging in *)

Lemma profile_text_parses today userName userEmail :
  let profile :=
    VObj [(js "name", VStr userName); (js "email", VStr userEmail);
          (js "joinDate", VStr today);
          (js "bio", VStr (js "Ready to optimize some Python code!"))] in
  ∃ c r, JSON.stringify profile = c :: r ∧ JSON_parse (c :: r) = Returns profile.
Proof. cbv zeta. apply stringify_obj_parse; by vm_compute. Qed.

Lemma login_writes today userName userEmail ls :
  ∃ ls',
    mockAuth.login today userName userEmail ls = (Returns (), ls') ∧
    ls' !! CURRENT_USER_NAME = Some userName ∧
    mockAuth.getProfile ls' =
      (Returns (VObj [(js "name", VStr userName);
                      (js "email", VStr (default (js "demo@example.com") userEmail));
                      (js "joinDate", VStr today);
                      (js "bio", VStr (js "Ready to optimize some Python code!"))]),
       ls') ∧
    (∀ k, k ≠ CURRENT_USER_NAME → k ≠ USER_PROFILE_DETAILS → ls' !! k = ls !! k).
Proof.
  destruct account_keys_differ as (Hk1 & _).
  eexists. split.
  { unfold mockAuth.login, mbind, M_bind, localStorage.setItem. reflexivity. }
  split_and!.
  - by rewrite lookup_insert_ne, lookup_insert_eq.
  - rewrite getProfile_unfold, lookup_insert_eq.
    by destruct (profile_text_parses today userName
                   (default (js "demo@example.com") userEmail)) as (c & r & -> & ->).
  - intros k Hc Hp. by rewrite !lookup_insert_ne.
Qed.

Lemma holds_frame ls ls' h s :
  (∀ k, k ≠ CURRENT_USER_NAME → k ≠ USER_PROFILE_DETAILS → ls' !! k = ls !! k) →
  holds ls h s → holds ls' h s.
Proof.
  destruct account_keys_differ as (_ & Hk2 & Hk3 & Hk4 & Hk5 & _).
  intros Hframe. apply holds_other_keys; by apply Hframe.
Qed.

(** X9. After [login], whatever the store held, [getUserName] returns
    the name and [getProfile] returns the profile that was built from
    the name, the address (the demo address when none is given), the
    date of the day and the standard text; no key but the two of the
    account is written, so the history and the library are what they
    were. *)
Theorem login_then_read ls today userName userEmail :
  ∃ ls',
    mockAuth.login today userName userEmail ls = (Returns (), ls') ∧
    mockAuth.getUserName ls' = (Returns (Some userName), ls') ∧
    mockAuth.getProfile ls' =
      (Returns (VObj [(js "name", VStr userName);
                      (js "email", VStr (default (js "demo@example.com") userEmail));
                      (js "joinDate", VStr today);
                      (js "bio", VStr (js "Ready to optimize some Python code!"))]),
       ls') ∧
    (∀ k, k ≠ CURRENT_USER_NAME → k ≠ USER_PROFILE_DETAILS → ls' !! k = ls !! k) ∧
    (∀ h s, holds ls h s → holds ls' h s).
Proof.
  destruct (login_writes today userName userEmail ls)
    as (ls' & Hrun & Hname & Hprofile & Hframe).
  exists ls'. split_and!; [done | | done | done |].
  - unfold mockAuth.getUserName, localStorage.getItem. by rewrite Hname.
  - intros h s. by apply holds_frame.
Qed.

(** ** Logging out *)

(** X10. After the sign-out of [Layout], as the [App] that renders it
    wires it, the user name of that [App] is [null], the location is
    the login page, and the two keys of [mockAuth] are gone from the
    store: [getUserName] and [getProfile] return [null], a reload
    starts logged out, and the listener of the storage event signs out
    the [App] of another tab, whatever its state. No other key is
    touched: the history and the library survive the sign-out. *)
Theorem logout_keeps_sessions sh ls :
  ∃ sh' ls',
    Layout.handleLogout AuthApp.onLogout (sh, ls) = (Returns (), (sh', ls')) ∧
    user sh' = VNull ∧ pathname sh' = js "/login" ∧
    mockAuth.getUserName ls' = (Returns None, ls') ∧
    mockAuth.getProfile ls' = (Returns VNull, ls') ∧
    AuthApp.initial_currentUserName ls' = (Returns VNull, ls') ∧
    (∀ sh0, ∃ sh1,
       AuthApp.checkLoginStatus (sh0, ls') = (Returns (), (sh1, ls')) ∧
       user sh1 = VNull ∧ pathname sh1 = pathname sh0) ∧
    (∀ k, k ≠ CURRENT_USER_NAME → k ≠ USER_PROFILE_DETAILS → ls' !! k = ls !! k) ∧
    (∀ h s, holds ls h s → holds ls' h s).
Proof.
  destruct account_keys_differ as (Hk1 & Hk2 & Hk3 & Hk4 & Hk5 & _).
  eexists _, _. split.
  { unfold Layout.handleLogout, AuthApp.onLogout, AuthApp.setCurrentUserName,
      mockAuth.logout, navigate, setUser,
      in_store, set_state, mbind, M_bind, localStorage.removeItem.
    cbn [fst snd]. reflexivity. }
  cbn [fst snd user pathname].
  assert (Hname : ∀ m : gmap jsstring jsstring,
            mockAuth.getUserName (delete USER_PROFILE_DETAILS (delete CURRENT_USER_NAME m))
            = (Returns None, delete USER_PROFILE_DETAILS (delete CURRENT_USER_NAME m))).
  { intros m. unfold mockAuth.getUserName, localStorage.getItem.
    by rewrite lookup_delete_ne, lookup_delete_eq. }
  split_and!.
  - done.
  - done.
  - apply Hname.
  - rewrite getProfile_unfold. by rewrite lookup_delete_eq.
  - unfold AuthApp.initial_currentUserName, mbind, M_bind. by rewrite Hname.
  - intros sh0. eexists. split.
    { unfold AuthApp.checkLoginStatus, AuthApp.setCurrentUserName, setUser, in_store,
        set_state, mbind, M_bind. cbn [fst snd]. rewrite Hname. reflexivity. }
    done.
  - intros k Hc Hp. by rewrite !lookup_delete_ne.
  - intros h s. apply holds_other_keys; by rewrite !lookup_delete_ne.
Qed.

(** ** Editing the profile *)

(** X11. [updateProfile] followed by [getProfile] returns the profile
    that was given, as JSON keeps it. It writes the profile only: the
    name that [getUserName] returns stays the name of the login, also
    when the profile carries another name. *)
Theorem updateProfile_then_read ls ps :
  wf (VObj ps) = true →
  ∃ ls',
    mockAuth.updateProfile (VObj ps) ls = (Returns (), ls') ∧
    mockAuth.getProfile ls' = (Returns (VObj (jprops ps)), ls') ∧
    (mockAuth.getUserName ls').1 = (mockAuth.getUserName ls).1 ∧
    (∀ k, k ≠ USER_PROFILE_DETAILS → ls' !! k = ls !! k).
Proof.
  intros Hwf. destruct account_keys_differ as (Hk1 & _).
  eexists. split; [unfold mockAuth.updateProfile, localStorage.setItem; reflexivity|].
  split_and!.
  - rewrite getProfile_unfold, lookup_insert_eq.
    by edestruct (stringify_obj_parse ps) as (c & r & -> & ->).
  - unfold mockAuth.getUserName, localStorage.getItem. cbn [fst].
    by rewrite lookup_insert_ne.
  - intros k Hk. by rewrite lookup_insert_ne.
Qed.

Lemma updateProfile_then_read_witness :
  wf (VObj sample_profile) = true ∧
  ∃ ls',
    mockAuth.updateProfile (VObj sample_profile) ∅ = (Returns (), ls') ∧
    mockAuth.getProfile ls' = (Returns (VObj sample_profile), ls').
Proof.
  assert (Hwf : wf (VObj sample_profile) = true) by reflexivity.
  split; [exact Hwf|].
  destruct (updateProfile_then_read ∅ sample_profile Hwf) as (ls' & Hrun & Hget & _).
  exists ls'. split; [exact Hrun | exact Hget].
Defined.

(** ** Reading the logged-in user *)

Lemma initial_user_unfold ls :
  App.initial_user ls =
  (Returns
     match ls !! USER_KEY with
     | Some (c :: r) =>
         match JSON.parse (c :: r) with
         | Some (VStr s) => VStr s
         | Some (VObj ps) =>
             js_or (js_or (lookup_prop (js "username") ps) (lookup_prop (js "email") ps))
                   (VStr [])
         | _ => VStr []
         end
     | _ => VStr []
     end, ls).
Proof.
  unfold App.initial_user, try_catch, mbind, M_bind, localStorage.getItem, eval,
    mret, M_ret, JSON_parse.
  destruct (ls !! USER_KEY) as [[|c r]|]; [done| |done].
  destruct (JSON.parse (c :: r)) as [[| | | | | |ps]|]; try done.
  cbn [get_prop]. unfold js_or.
  destruct (truthy (lookup_prop (js "username") ps)) eqn:Hu; [|done].
  by rewrite Hu.
Qed.

(** X12. The initialiser of the user of [App] never throws and writes
    nothing. It yields the empty string, which [App] takes for logged
    out, when nothing or the empty text is stored for the user, when
    the text is not JSON, and when it is JSON for [null] or for any
    value that is neither a string nor an object; a stored string is the
    user; of a stored object the [username], else the [email], else the
    empty string is. *)
Theorem initial_user_total ls :
  ∃ u,
    App.initial_user ls = (Returns u, ls) ∧
    (ls !! USER_KEY = None ∨ ls !! USER_KEY = Some [] → u = VStr []) ∧
    (malformed USER_KEY ls → u = VStr []) ∧
    (∀ s, stores USER_KEY ls (VStr s) → u = VStr s) ∧
    (∀ ps, stores USER_KEY ls (VObj ps) →
       u = js_or (js_or (lookup_prop (js "username") ps) (lookup_prop (js "email") ps))
                 (VStr [])) ∧
    (∀ v, stores USER_KEY ls v → (∀ s, v ≠ VStr s) → ¬ is_record v → u = VStr []).
Proof.
  eexists. split; [apply initial_user_unfold|]. split_and!.
  - by intros [-> | ->].
  - by intros (c & r & -> & ->).
  - by intros s (c & r & -> & ->).
  - by intros ps (c & r & -> & ->).
  - intros v (c & r & -> & ->) Hs Hr. destruct v as [| | | |s| |ps]; try done.
    + by destruct (Hs s).
    + destruct Hr. by eexists.
Qed.

Lemma getLoggedInUser_unfold ls :
  getLoggedInUser ls =
  (Returns
     (VObj [(js "email",
             match ls !! USER_KEY with
             | Some (c :: r) =>
                 match JSON.parse (c :: r) with
                 | Some (VStr s) => VStr s
                 | Some (VObj ps) => js_or (lookup_prop (js "email") ps) (VStr [])
                 | _ => VStr []
                 end
             | _ => VStr []
             end);
            (js "name",
             match ls !! USER_KEY with
             | Some (c :: r) =>
                 match JSON.parse (c :: r) with
                 | Some (VStr s) => VStr s
                 | Some (VObj ps) => js_or (lookup_prop (js "name") ps) (VStr [])
                 | _ => VStr []
                 end
             | _ => VStr []
             end)]), ls).
Proof.
  unfold getLoggedInUser, try_catch, mbind, M_bind, localStorage.getItem, eval,
    mret, M_ret, JSON_parse.
  destruct (ls !! USER_KEY) as [[|c r]|]; [done| |done].
  by destruct (JSON.parse (c :: r)) as [[| | | | | |ps]|].
Qed.

(** X13. [getLoggedInUser] never throws and writes nothing: it always
    returns an object with an [email] and a [name]. Both are the empty
    string when nothing or the empty text is stored for the user, when
    the text is not JSON, and when it is JSON for a value that is
    neither a string nor an object; a stored string is both the address
    and the name; of a stored object they are its [email] and its
    [name], the empty string in place of a missing or empty one. *)
Theorem getLoggedInUser_total ls :
  ∃ email name,
    getLoggedInUser ls =
      (Returns (VObj [(js "email", email); (js "name", name)]), ls) ∧
    (ls !! USER_KEY = None ∨ ls !! USER_KEY = Some [] →
     email = VStr [] ∧ name = VStr []) ∧
    (malformed USER_KEY ls → email = VStr [] ∧ name = VStr []) ∧
    (∀ s, stores USER_KEY ls (VStr s) → email = VStr s ∧ name = VStr s) ∧
    (∀ ps, stores USER_KEY ls (VObj ps) →
       email = js_or (lookup_prop (js "email") ps) (VStr []) ∧
       name = js_or (lookup_prop (js "name") ps) (VStr [])) ∧
    (∀ v, stores USER_KEY ls v → (∀ s, v ≠ VStr s) → ¬ is_record v →
       email = VStr [] ∧ name = VStr []).
Proof.
  eexists _, _. split; [apply getLoggedInUser_unfold|]. split_and!.
  - by intros [-> | ->].
  - by intros (c & r & -> & ->).
  - by intros s (c & r & -> & ->).
  - by intros ps (c & r & -> & ->).
  - intros v (c & r & -> & ->) Hs Hr. destruct v as [| | | |s| |ps]; try done.
    + by destruct (Hs s).
    + destruct Hr. by eexists.
Qed.

(** * Names *)

(** ** [trim] *)

Lemma trimStart_hd s c r : trimStart s = c :: r → is_space c = false.
Proof.
  induction s as [|x s IH]; cbn [trimStart]; [done|].
  destruct (is_space x) eqn:Hx; [done|]. by intros [= <- <-].
Qed.

Lemma trimStart_keeps c r : is_space c = false → trimStart (c :: r) = c :: r.
Proof. intros Hc. cbn [trimStart]. by rewrite Hc. Qed.

Lemma trimStart_idem s : trimStart (trimStart s) = trimStart s.
Proof.
  destruct (trimStart s) as [|c r] eqn:Hs; [done|].
  apply trimStart_keeps. by eapply trimStart_hd.
Qed.

Lemma trimStart_snoc l c :
  is_space c = false → trimStart (l ++ [c]) = trimStart l ++ [c].
Proof.
  intros Hc. induction l as [|x l IH]; cbn [trimStart app].
  { by rewrite Hc. }
  by destruct (is_space x).
Qed.

Lemma trimEnd_keeps c r : is_space c = false → trimEnd (c :: r) = c :: trimEnd r.
Proof.
  intros Hc. unfold trimEnd. rewrite reverse_cons, trimStart_snoc by done.
  by rewrite reverse_app.
Qed.

Lemma trimEnd_idem s : trimEnd (trimEnd s) = trimEnd s.
Proof. unfold trimEnd. by rewrite reverse_involutive, trimStart_idem. Qed.

Lemma trimEnd_last s r c : trimEnd s = r ++ [c] → is_space c = false.
Proof.
  unfold trimEnd. intros Hs. apply (f_equal reverse) in Hs.
  rewrite reverse_involutive, reverse_app, reverse_singleton in Hs.
  by eapply trimStart_hd.
Qed.

Lemma trim_hd s c r : trim s = c :: r → is_space c = false.
Proof.
  unfold trim. destruct (trimStart s) as [|x t] eqn:Hs; [done|].
  pose proof (trimStart_hd _ _ _ Hs) as Hx.
  rewrite trimEnd_keeps by done. by intros [= <- _].
Qed.

Lemma trim_last s r c : trim s = r ++ [c] → is_space c = false.
Proof. apply trimEnd_last. Qed.

Lemma trim_idem s : trim (trim s) = trim s.
Proof.
  unfold trim at 1. destruct (trim s) as [|c r] eqn:Hs; [done|].
  rewrite trimStart_keeps by (by eapply trim_hd).
  rewrite <-Hs. unfold trim. apply trimEnd_idem.
Qed.

Lemma trimStart_nil s : trimStart s = [] ↔ Forall (λ c, is_space c = true) s.
Proof.
  induction s as [|c s IH]; cbn [trimStart]; [by split|].
  rewrite Forall_cons. destruct (is_space c); [tauto|]. split; [done | by intros [? _]].
Qed.

Lemma trim_nil s : trim s = [] ↔ Forall (λ c, is_space c = true) s.
Proof.
  unfold trim. rewrite <-trimStart_nil.
  destruct (trimStart s) as [|c r] eqn:Hs; [done|].
  rewrite trimEnd_keeps by (by eapply trimStart_hd). done.
Qed.

(** ** The title of a session *)

(** What [commitRename] and [handleRenameSubmit] make of the text. *)
Lemma final_name_ok t :
  let n := match trim t with [] => js "Untitled Session" | _ => trim t end in
  n ≠ [] ∧ trim n = n.
Proof.
  cbv zeta. destruct (trim t) as [|c r] eqn:Ht.
  - split; [done | by vm_compute].
  - split; [done|]. rewrite <-Ht. apply trim_idem.
Qed.

(** X14. A committed title is never blank. When the title input holds
    the text [t], the Enter key and the loss of focus (when the edit was
    not cancelled) set the project name to [t] without the white space
    around it, and to Untitled Session when nothing is left; the name
    is not empty and has no white space at either end. The page leaves
    the renaming mode, and it sends one PATCH request with that name for
    the saved session when there is one, none when there is not. *)
Theorem commitRename_normalises st t :
  Title.tempName st = VStr t →
  ∃ n st',
    Title.handleRenameKeyDown (js "Enter") st = (Returns (), st') ∧
    (Title.renameCancelledRef st = false →
     Title.handleRenameBlur st = (Returns (), st')) ∧
    Title.projectName st' = VStr n ∧
    n ≠ [] ∧
    (∀ c r, n = c :: r → is_space c = false) ∧
    (∀ r c, n = r ++ [c] → is_space c = false) ∧
    (trim t ≠ [] → n = trim t) ∧
    (trim t = [] → n = js "Untitled Session") ∧
    Title.isRenaming st' = false ∧
    Title.tempName st' = VStr t ∧
    (truthy (Title.savedSessionId st) = false → Title.sent st' = Title.sent st) ∧
    (truthy (Title.savedSessionId st) = true →
     Title.sent st' = Title.sent st ++
       [{| method := js "PATCH";
           url := API_BASE ++ js "/api/sessions/item/" ++ ToString (Title.savedSessionId st);
           body := JSON.stringify (VObj [(js "name", VStr n)]) |}]).
Proof.
  intros Ht.
  destruct (final_name_ok t) as [Hne Htrim].
  exists (match trim t with [] => js "Untitled Session" | _ => trim t end).
  destruct st as [pn tn ir sid ref log]. cbn [Title.tempName] in Ht. subst tn.
  cbn [Title.renameCancelledRef Title.savedSessionId Title.sent].
  destruct (truthy sid) eqn:Hsid.
  - eexists. split_and!.
    + unfold Title.handleRenameKeyDown, Title.commitRename, Title.read, mbind, M_bind.
      rewrite bool_decide_eq_true_2 by done.
      cbn [Title.set_renameCancelledRef Title.tempName Title.savedSessionId eval trim_of].
      rewrite Hsid. reflexivity.
    + intros ->. unfold Title.handleRenameBlur, Title.commitRename, Title.read, mbind, M_bind.
      cbn [Title.renameCancelledRef Title.tempName Title.savedSessionId eval trim_of].
      rewrite Hsid. reflexivity.
    + reflexivity.
    + done.
    + intros c r Hn. rewrite <-Htrim in Hn. by eapply trim_hd.
    + intros r c Hn. rewrite <-Htrim in Hn. by eapply trim_last.
    + by destruct (trim t).
    + by intros ->.
    + reflexivity.
    + reflexivity.
    + done.
    + intros _. reflexivity.
  - eexists. split_and!.
    + unfold Title.handleRenameKeyDown, Title.commitRename, Title.read, mbind, M_bind.
      rewrite bool_decide_eq_true_2 by done.
      cbn [Title.set_renameCancelledRef Title.tempName Title.savedSessionId eval trim_of].
      rewrite Hsid. reflexivity.
    + intros ->. unfold Title.handleRenameBlur, Title.commitRename, Title.read, mbind, M_bind.
      cbn [Title.renameCancelledRef Title.tempName Title.savedSessionId eval trim_of].
      rewrite Hsid. reflexivity.
    + reflexivity.
    + done.
    + intros c r Hn. rewrite <-Htrim in Hn. by eapply trim_hd.
    + intros r c Hn. rewrite <-Htrim in Hn. by eapply trim_last.
    + by destruct (trim t).
    + by intros ->.
    + reflexivity.
    + reflexivity.
    + intros _. reflexivity.
    + done.
Qed.

Lemma commitRename_normalises_witness :
  Title.tempName sample_title = VStr (js "  Tidy sum ") ∧
  ∃ st',
    Title.handleRenameKeyDown (js "Enter") sample_title = (Returns (), st') ∧
    Title.projectName st' = VStr (js "Tidy sum") ∧
    length (Title.sent st') = 1.
Proof.
  split; [reflexivity|].
  destruct (commitRename_normalises sample_title (js "  Tidy sum ") eq_refl)
    as (n & st' & Hrun & _ & Hname & _ & _ & _ & Htrim & _ & _ & _ & _ & Hsent).
  exists st'. split_and!.
  - exact Hrun.
  - rewrite Hname, Htrim; [reflexivity | by vm_compute].
  - rewrite Hsent; reflexivity.
Defined.

(** X15. Escape cancels. The Escape key leaves the project name as it
    is, puts it back into the input, leaves the renaming mode and sends
    nothing; the loss of focus that follows it commits nothing either,
    whatever the input holds by then: it only clears the mark that
    Escape set, so that a later edit can be committed again. *)
Theorem escape_cancels_rename st :
  ∃ st1,
    Title.handleRenameKeyDown (js "Escape") st = (Returns (), st1) ∧
    Title.projectName st1 = Title.projectName st ∧
    Title.tempName st1 = Title.projectName st ∧
    Title.isRenaming st1 = false ∧
    Title.sent st1 = Title.sent st ∧
    Title.renameCancelledRef st1 = true ∧
    ∀ typed, ∃ st2,
      (Title.setTempName typed;; Title.handleRenameBlur) st1 = (Returns (), st2) ∧
      Title.projectName st2 = Title.projectName st ∧
      Title.sent st2 = Title.sent st ∧
      Title.isRenaming st2 = false ∧
      Title.renameCancelledRef st2 = false.
Proof.
  destruct st as [pn tn ir sid ref log]. eexists. split_and!.
  - unfold Title.handleRenameKeyDown, Title.read, mbind, M_bind.
    rewrite bool_decide_eq_false_2 by (by vm_compute).
    rewrite bool_decide_eq_true_2 by done. reflexivity.
  - reflexivity.
  - reflexivity.
  - reflexivity.
  - reflexivity.
  - reflexivity.
  - intros typed. eexists. split_and!; reflexivity.
Qed.

(** ** The name of a login *)

Lemma before_at_spec email :
  (64%N ∉ LoginPage.before_at email) ∧ (LoginPage.before_at email `prefix_of` email).
Proof.
  induction email as [|c r [IH1 IH2]]; cbn [LoginPage.before_at].
  { split; [apply not_elem_of_nil | done]. }
  destruct (c =? 64)%N eqn:Hc.
  - split; [apply not_elem_of_nil | apply prefix_nil].
  - apply N.eqb_neq in Hc. split.
    + rewrite not_elem_of_cons. split; [congruence | done].
    + by apply prefix_cons.
Qed.

(** X16. The name of a login is never empty: it is the demo name when
    one is given, else the name that was typed, else the part of the
    address before its first commercial at, else User. The callback of
    the login stores it with [mockAuth.login] together with the address
    as it was typed (the demo address is not used, even for an empty
    one), hands it to [onLogin], so that the user of [App] is not empty
    afterwards, and leaves the history and the library as they were. *)
Theorem login_name_never_empty sh ls today demoName name email :
  ∃ n sh' ls',
    n = LoginPage.finalName demoName name email ∧
    n ≠ [] ∧
    (∀ d, demoName = Some d → d ≠ [] → n = d) ∧
    (demoName = None ∨ demoName = Some [] →
     (name ≠ [] → n = name) ∧
     (name = [] → LoginPage.before_at email ≠ [] →
      n = LoginPage.before_at email ∧ (64%N ∉ n) ∧ (n `prefix_of` email)) ∧
     (name = [] → LoginPage.before_at email = [] → n = js "User")) ∧
    LoginPage.login_timeout today demoName name email App.handleLogin (sh, ls)
      = (Returns (), (sh', ls')) ∧
    user sh' = VStr n ∧ truthy (user sh') = true ∧
    pathname sh' = js "/optimize" ∧ loading sh' = false ∧
    mockAuth.getUserName ls' = (Returns (Some n), ls') ∧
    mockAuth.getProfile ls' =
      (Returns (VObj [(js "name", VStr n); (js "email", VStr email);
                      (js "joinDate", VStr today);
                      (js "bio", VStr (js "Ready to optimize some Python code!"))]),
       ls') ∧
    (∀ h s, holds ls h s → holds ls' h s).
Proof.
  destruct (login_writes today (LoginPage.finalName demoName name email) (Some email) ls)
    as (ls' & Hlogin & Hname & Hprofile & Hframe).
  assert (Hne : LoginPage.finalName demoName name email ≠ []).
  { unfold LoginPage.finalName, LoginPage.or_else. by repeat case_match. }
  eexists _, _, ls'. split_and!; [reflexivity | done | | | | | | | | | done |].
  - intros d -> Hd. unfold LoginPage.finalName, LoginPage.or_else. cbn [default from_option id].
    by destruct d.
  - intros Hdemo.
    assert (default [] demoName = []) as Hd by (by destruct Hdemo as [-> | ->]).
    unfold LoginPage.finalName, LoginPage.or_else. rewrite Hd. split_and!.
    + intros Hn. by destruct name.
    + intros -> Hb. destruct (before_at_spec email) as [H1 H2].
      by destruct (LoginPage.before_at email).
    + by intros -> ->.
  - unfold LoginPage.login_timeout, App.handleLogin, navigate, setUser, setLoading,
      in_store, set_state, mbind, M_bind. cbn [fst snd]. rewrite Hlogin.
    cbn [fst snd]. reflexivity.
  - reflexivity.
  - cbn [user truthy]. by destruct (LoginPage.finalName demoName name email).
  - reflexivity.
  - reflexivity.
  - unfold mockAuth.getUserName, localStorage.getItem. by rewrite Hname.
  - intros h s. by apply holds_frame.
Qed.

(** * The optimizer page over the local store *)

Section local_optimizer.
Import LocalOptimizePage.

Lemma set_prop_same k v ps :
  lookup_prop k ps = v → v ≠ VUndefined → set_prop k v ps = ps.
Proof.
  intros Hv Hne. induction ps as [|[k' y] ps IH]; cbn [lookup_prop set_prop] in *.
  { congruence. }
  destruct (decide (k' = k)) as [->|]; [by rewrite Hv|]. by rewrite IH.
Qed.

Lemma truthy_defined v : truthy v = true → v ≠ VUndefined.
Proof. by destruct v. Qed.

Lemma js_or_truthy a b : truthy a = true → js_or a b = a.
Proof. unfold js_or. by intros ->. Qed.

(** A record that has an id and a name is saved as it is. *)
Lemma saveToHistory_finalized ls h s ps random :
  holds ls h s → wf (VObj ps) = true →
  truthy (lookup_prop (js "id") ps) = true →
  truthy (lookup_prop (js "name") ps) = true →
  mockDb.saveToHistory random (VObj ps) ls =
    (Returns (VObj ps),
     <[HISTORY_STORAGE_KEY := JSON.stringify (VArr (VObj ps :: h))]> ls) ∧
  holds (<[HISTORY_STORAGE_KEY := JSON.stringify (VArr (VObj ps :: h))]> ls)
        (VObj (jprops ps) :: h) s.
Proof.
  intros Hst Hwf Hid Hname.
  destruct (saveToHistory_writes _ _ _ _ random Hst Hwf) as (Hrun & _ & Hst').
  rewrite !js_or_truthy in Hrun, Hst' by done.
  rewrite (set_prop_same (js "id")) in Hrun, Hst' by (done || by apply truthy_defined).
  rewrite (set_prop_same (js "name")) in Hrun, Hst' by (done || by apply truthy_defined).
  done.
Qed.

(** The handlers, step by step. *)

Lemma load_session_run c p st ls v :
  mockDb.getById (c :: p) ls = (Returns v, ls) →
  load (Some (c :: p)) (st, ls) =
  if truthy v then
    match get_prop v (js "originalCode"), get_prop v (js "level"),
          get_prop v (js "name") with
    | Returns code, Returns level, Returns name =>
        (Returns (),
         ({| userCode := code; optimizationResult := v; selectedLevel := level;
             projectName := js_or name (VStr (js "Session-" ++ c :: p));
             isRenaming := isRenaming st;
             tempName := js_or name (VStr (js "Session-" ++ c :: p));
             isProcessing := isProcessing st; isSaving := isSaving st;
             hasJustSaved := hasJustSaved st; timers := timers st |}, ls))
    | _, _, _ => (Throws TypeError, (st, ls))
    end
  else (Returns (), (st, ls)).
Proof.
  intros Hget. destruct st as [uc res lvl pn ir tn ip isv hjs tm].
  unfold load, mbind at 1, M_bind at 1, in_store. cbn [fst snd]. rewrite Hget.
  destruct v; cbn [truthy]; try done; try (by destruct b);
    try (by destruct (negb (mantissa_zero lit)));
    try (by destruct s).
Qed.




Lemma handleRunOptimization_run st ls fd existingId random random' ls' :
  optional_prop (optimizationResult st) (js "id") = Returns existingId →
  let resultWithId :=
    VObj (set_prop (js "name") (projectName st)
            (set_prop (js "id") (js_or existingId (VStr random)) fd)) in
  mockDb.saveToHistory random' resultWithId ls = (Returns resultWithId, ls') →
  handleRunOptimization (Returns (VObj fd)) random random' (st, ls) =
  (Returns (),
   ({| userCode := userCode st; optimizationResult := resultWithId;
       selectedLevel := selectedLevel st; projectName := projectName st;
       isRenaming := isRenaming st; tempName := tempName st;
       isProcessing := false; isSaving := isSaving st;
       hasJustSaved := false; timers := timers st |}, ls')).
Proof.
  intros Hid item Hsave. destruct st as [uc res lvl pn ir tn ip isv hjs tm].
  cbn [optimizationResult projectName] in *.
  unfold handleRunOptimization, try_finally, mbind at 1, M_bind at 1, get_state.
  cbn [fst snd]. unfold mbind at 1, M_bind at 1, setIsProcessing, set_state.
  cbn [fst snd]. unfold mbind at 1, M_bind at 1, setHasJustSaved, set_state.
  cbn [fst snd]. unfold mbind at 1, M_bind at 1, eval.
  unfold mbind at 1, M_bind at 1. cbn [optimizationResult projectName]. rewrite Hid.
  cbn [own_props]. cbv zeta. fold item. clearbody item.
  unfold mbind, M_bind, setOptimizationResult, setIsProcessing, set_state, in_store.
  cbn [fst snd]. by rewrite Hsave.
Qed.

(** The id under which a run is saved: the id of the result the page
    holds, a new one when it holds none. *)
Lemma run_id_cases v random :
  v = VNull ∨ (∃ ps, v = VObj ps ∧ id_typed v) →
  ∃ i existingId,
    optional_prop v (js "id") = Returns existingId ∧
    js_or existingId (VStr random) = VStr i ∧
    (existingId = VStr i ∧ i ≠ [] ∨
     (existingId = VUndefined ∨ existingId = VStr []) ∧ i = random).
Proof.
  intros [-> | (ps & -> & [Hu | [i Hi]])].
  - exists random, VUndefined. split_and!; [done | done | right; split; [by left | done]].
  - exists random, VUndefined. cbn [optional_prop]. rewrite Hu.
    split_and!; [done | done | right; split; [by left | done]].
  - cbn [optional_prop]. rewrite Hi. destruct i as [|c i].
    + exists random, (VStr []). split_and!; [done | done | right; split; [by right | done]].
    + exists (c :: i), (VStr (c :: i)). split_and!; [done | done | by left].
Qed.

(** X17. A run is saved under the id and the name of the page. For a
    page that holds no result, or a result whose id is a string or
    missing, and whose project name is a string that is not empty:
    when the optimizer returns a result, [handleRunOptimization] returns
    with the processing flag down; the page holds that result with the
    id of the result it held before (a new id when it held none) and
    with the project name; and the history holds that same record, as
    JSON keeps it, in front of the records it had. A second run of the
    page therefore adds a second record with the same id. The run
    writes the history anew: the numbers of the history and of the
    result are canonical, so that the engine writes each of them as the
    model does. *)
Theorem handleRunOptimization_saves st ls h s fd n random random' :
  holds ls h s → wf (VObj fd) = true →
  canonical (VArr h) = true → canonical (VObj fd) = true →
  projectName st = VStr n → n ≠ [] → random ≠ [] →
  optimizationResult st = VNull ∨
    (∃ ps, optimizationResult st = VObj ps ∧ id_typed (optimizationResult st)) →
  ∃ i st' ls',
    handleRunOptimization (Returns (VObj fd)) random random' (st, ls)
      = (Returns (), (st', ls')) ∧
    (optional_prop (optimizationResult st) (js "id") = Returns (VStr i) ∧ i ≠ [] ∨
     (optional_prop (optimizationResult st) (js "id") = Returns VUndefined ∨
      optional_prop (optimizationResult st) (js "id") = Returns (VStr [])) ∧
     i = random) ∧
    optimizationResult st' =
      VObj (set_prop (js "name") (VStr n) (set_prop (js "id") (VStr i) fd)) ∧
    has_id i (optimizationResult st') ∧ has_name n (optimizationResult st') ∧
    (∀ k, k ≠ js "id" → k ≠ js "name" →
          get_prop (optimizationResult st') k = get_prop (VObj fd) k) ∧
    (∃ stored, jsonify (optimizationResult st') = Some stored ∧
               has_id i stored ∧ has_name n stored ∧ holds ls' (stored :: h) s) ∧
    isProcessing st' = false ∧ hasJustSaved st' = false ∧
    projectName st' = VStr n.
Proof.
  intros Hst Hwf _ _ Hn Hne Hrandom Hres.
  destruct (run_id_cases _ random Hres) as (i & existingId & Hopt & Hid & Hi).
  assert (Hi_ne : i ≠ []) by (by destruct Hi as [[_ ?] | [_ ->]]).
  set (props := set_prop (js "name") (VStr n) (set_prop (js "id") (VStr i) fd)).
  assert (Hwf' : wf (VObj props) = true).
  { apply wf_set_prop; [done|]. by apply wf_set_prop. }
  assert (Hlid : lookup_prop (js "id") props = VStr i).
  { unfold props. rewrite lookup_set_prop_ne by (symmetry; apply id_name_differ).
    apply lookup_set_prop. }
  assert (Hlname : lookup_prop (js "name") props = VStr n) by apply lookup_set_prop.
  destruct (saveToHistory_finalized _ _ _ props random' Hst Hwf') as [Hsave Hst'].
  { rewrite Hlid. by destruct i. }
  { rewrite Hlname. by destruct n. }
  pose proof (handleRunOptimization_run st ls fd existingId random random'
                (<[HISTORY_STORAGE_KEY := JSON.stringify (VArr (VObj props :: h))]> ls)
                Hopt) as Hrun.
  cbv zeta in Hrun. rewrite Hid, Hn in Hrun. fold props in Hrun.
  specialize (Hrun Hsave).
  eexists i, _, _. split; [exact Hrun|].
  cbn [optimizationResult isProcessing hasJustSaved projectName]. split_and!.
  - destruct Hi as [[-> ?] | [[-> | ->] ->]]; rewrite Hopt; auto.
  - done.
  - unfold has_id. cbn [get_prop]. by rewrite Hlid.
  - unfold has_name. cbn [get_prop]. by rewrite Hlname.
  - intros k Hk1 Hk2. cbn [get_prop]. unfold props.
    by rewrite !lookup_set_prop_ne.
  - exists (VObj (jprops props)). split_and!; [done| | |done].
    + unfold has_id. cbn [get_prop]. f_equal. apply has_prop_jsonify; [|done].
      by apply wf_obj in Hwf' as [? _].
    + unfold has_name. cbn [get_prop]. f_equal. apply has_prop_jsonify; [|done].
      by apply wf_obj in Hwf' as [? _].
  - done.
  - done.
  - done.
Qed.

Lemma handleRunOptimization_saves_witness :
  holds sample_store sample_history sample_library ∧
  wf (VObj fresh_run) = true ∧
  canonical (VArr sample_history) = true ∧ canonical (VObj fresh_run) = true ∧
  LocalOptimizePage.projectName sample_local_page = VStr (js "New Session") ∧
  js "New Session" ≠ [] ∧ js "q7w8e9r" ≠ [] ∧
  ∃ st' ls' stored,
    LocalOptimizePage.handleRunOptimization (Returns (VObj fresh_run))
      (js "q7w8e9r") (js "z1y2x3w") (sample_local_page, sample_store)
      = (Returns (), (st', ls')) ∧
    has_id (js "a1b2c3") (LocalOptimizePage.optimizationResult st') ∧
    has_id (js "a1b2c3") stored ∧
    holds ls' (stored :: sample_history) sample_library.
Proof.
  assert (H : holds sample_store sample_history sample_library)
    by holds_by_computation.
  assert (Hwf : wf (VObj fresh_run) = true) by reflexivity.
  assert (Hc : canonical (VArr sample_history) = true) by reflexivity.
  assert (Hcd : canonical (VObj fresh_run) = true) by reflexivity.
  split_and!; [exact H | exact Hwf | exact Hc | exact Hcd
              | reflexivity | discriminate | discriminate |].
  destruct (handleRunOptimization_saves sample_local_page sample_store _ _ fresh_run
              (js "New Session") (js "q7w8e9r") (js "z1y2x3w") H Hwf Hc Hcd eq_refl)
    as (i & st' & ls' & Hrun & Hi & _ & Hid & _ & _ & Hstored & _);
    [discriminate | discriminate | | ].
  { right. eexists. split; [reflexivity|]. right. eexists. reflexivity. }
  destruct Hstored as (stored & _ & Hsid & _ & Hst).
  assert (i = js "a1b2c3") as ->.
  { destruct Hi as [[Hi _] | [[Hi | Hi] _]]; [by injection Hi | discriminate..]. }
  exists st', ls', stored. split_and!; [exact Hrun | exact Hid | exact Hsid | exact Hst].
Defined.




(** X19. Opening a session by its id. When the URL carries no id, or an
    id that no record of the history or of the library has, the mount
    effect changes neither the page nor the store. When a record has the
    id, the effect loads the record that [getById] returns, the last one
    of that id: the page takes its code, its level and the record as its
    result, and its name, or Session- followed by the id when it has no
    name, as project name and as the text of the title input. *)
Theorem load_by_id st ls h s id :
  holds ls h s → id ≠ [] →
  load None (st, ls) = (Returns (), (st, ls)) ∧
  load (Some []) (st, ls) = (Returns (), (st, ls)) ∧
  (Forall (λ r, ¬ has_id id r) (h ++ s) →
   load (Some id) (st, ls) = (Returns (), (st, ls))) ∧
  (∀ r, last_with_id id (h ++ s) r →
     ∃ st',
       load (Some id) (st, ls) = (Returns (), (st', ls)) ∧
       optimizationResult st' = r ∧
       Returns (userCode st') = get_prop r (js "originalCode") ∧
       Returns (selectedLevel st') = get_prop r (js "level") ∧
       Returns (projectName st') =
         (name ← get_prop r (js "name");
          Returns (js_or name (VStr (js "Session-" ++ id)))) ∧
       tempName st' = projectName st' ∧
       isRenaming st' = isRenaming st ∧ isProcessing st' = isProcessing st ∧
       isSaving st' = isSaving st ∧ hasJustSaved st' = hasJustSaved st ∧
       timers st' = timers st).
Proof.
  intros Hst Hid. pose proof Hst as (_ & _ & Hrh & Hrs).
  destruct id as [|c p]; [done|]. split_and!; [done | done | |].
  - intros Hno. rewrite (load_session_run c p st ls VUndefined); [done|].
    apply (getById_returns _ _ _ _ _ Hst). by left.
  - intros r Hr.
    assert (∃ ps, r = VObj ps) as [ps ->].
    { destruct Hr as (pre & post & Heq & _).
      assert (Hin : r ∈ h ++ s) by (rewrite Heq, elem_of_app; right; by left).
      assert (Hrec : Forall is_record (h ++ s)) by (by apply Forall_app).
      rewrite Forall_forall in Hrec. by apply Hrec. }
    eexists. split.
    { rewrite (load_session_run c p st ls (VObj ps)); [reflexivity|].
      apply (getById_returns _ _ _ _ _ Hst). by right. }
    cbn [optimizationResult userCode selectedLevel projectName tempName isRenaming
         isProcessing isSaving hasJustSaved timers get_prop mbind outcome_bind].
    by split_and!.
Qed.

Lemma load_by_id_witness :
  holds sample_store sample_history sample_library ∧ js "a1b2c3" ≠ [] ∧
  ∃ st',
    LocalOptimizePage.load (Some (js "a1b2c3")) (sample_local_page, sample_store)
      = (Returns (), (st', sample_store)) ∧
    LocalOptimizePage.optimizationResult st' = sample_record "a1b2c3" "New Session".
Proof.
  assert (H : holds sample_store sample_history sample_library)
    by holds_by_computation.
  split_and!; [exact H | discriminate |].
  destruct (load_by_id sample_local_page sample_store _ _ (js "a1b2c3") H)
    as (_ & _ & _ & Hload); [discriminate|].
  destruct (Hload (sample_record "a1b2c3" "New Session")) as (st' & Hrun & Hres & _).
  { exists [sample_record "a1b2c3" "My Fix"; sample_record "k9x" "Session-k9x"],
      sample_library.
    split_and!; [reflexivity | reflexivity |]. repeat constructor; by vm_compute. }
  exists st'. split; [exact Hrun | exact Hres].
Defined.

End local_optimizer.

(** * The explanation panels *)

(** X20. Of the two panels for the rule-based changes at most one
    shows: the list of changes when some entry is a real change, the
    already-optimal note when every entry is the sentinel, and neither
    when there is no result or its list is empty or missing. The
    AI panel takes a winning model and a change; the empty state shows
    exactly when the list of rule-based changes is empty or missing and
    there is neither a real AI result nor a finding. *)
Theorem explanation_panels result :
  (Derived.realL1Changes result && Derived.alreadyOptimal result = false) ∧
  (Derived.realL1Changes result || Derived.alreadyOptimal result
     = non_empty (r ← result; l1_changes r)) ∧
  (Derived.realL2 result = true ↔
   ∃ r l c cs, result = Some r ∧ l2 r = Some l ∧ winning_model l ≠ [] ∧
               changes_applied l = Some (c :: cs)) ∧
  (Derived.hasAnyExplanation result = false ↔
   non_empty (r ← result; l1_changes r) = false ∧
   Derived.realL2 result = false ∧ Derived.hasFindings result = false).
Proof.
  assert (Hone : Derived.realL1Changes result || Derived.alreadyOptimal result
                 = non_empty (r ← result; l1_changes r)).
  { unfold Derived.alreadyOptimal, Derived.realL1Changes.
    destruct result as [[er [[|c l]|] ai]|]; cbn [mbind option_bind l1_changes]; try done.
    by destruct (hasRealL1Changes (Some (c :: l))). }
  split_and!.
  - unfold Derived.alreadyOptimal. by destruct (Derived.realL1Changes result), (non_empty _).
  - done.
  - unfold Derived.realL2, hasRealL2. split.
    + destruct result as [[er ch ai]|]; [|done]. cbn [l2].
      destruct ai as [[w ca]|]; [|done]. cbn [winning_model changes_applied truthy].
      destruct w as [|x w]; [done|]. destruct ca as [[|c cs]|]; [done| |done].
      intros _. by eexists _, _, c, cs.
    + intros (r & l & c & cs & -> & -> & Hw & ->). cbn. by destruct (winning_model l).
  - unfold Derived.hasAnyExplanation. rewrite <-Hone.
    destruct (Derived.realL1Changes result), (Derived.realL2 result),
      (Derived.hasFindings result), (Derived.alreadyOptimal result); cbn; intuition done.
Qed.

(** * The profile pages *)

Lemma getStoredUser_unfold ls :
  getStoredUser ls =
  (Returns match ls !! USER_KEY with
           | Some (c :: r) => default VNull (JSON.parse (c :: r))
           | _ => VNull
           end, ls).
Proof.
  unfold getStoredUser, try_catch, mbind, M_bind, localStorage.getItem, eval,
    mret, M_ret, JSON_parse.
  destruct (ls !! USER_KEY) as [[|c r]|]; [done| |done].
  by destruct (JSON.parse (c :: r)).
Qed.

Lemma handleSaveProfile_run st ls ps e fetched :
  ProfilePage.profile st = VObj ps → ProfilePage.editedName st = VStr e →
  let name := match trim e with [] => lookup_prop (js "name") ps | _ => VStr (trim e) end in
  let updated :=
    VObj (set_prop (js "bio") (ProfilePage.editedBio st) (set_prop (js "name") name ps)) in
  ProfilePage.handleSaveProfile fetched (st, ls) =
  (Returns (),
   ({| ProfilePage.profile := updated;
       ProfilePage.editedName := ProfilePage.editedName st;
       ProfilePage.editedBio := ProfilePage.editedBio st;
       ProfilePage.isEditing := false;
       ProfilePage.isSavingProfile := false;
       ProfilePage.profileSaved := if fetched then true else ProfilePage.profileSaved st;
       ProfilePage.sent := ProfilePage.sent st ++
         [{| method := js "POST"; url := API_BASE ++ js "/api/update-profile";
             body := JSON.stringify updated |}];
       ProfilePage.timers :=
         if fetched then ProfilePage.timers st ++ [(3000%N, ProfilePage.ClearProfileSaved)]
         else ProfilePage.timers st |},
    <[USER_KEY := JSON.stringify updated]> ls)).
Proof.
  intros Hp He name updated. destruct st as [pr en eb ie isp psv snt tm].
  cbn [ProfilePage.profile ProfilePage.editedName ProfilePage.editedBio
       ProfilePage.isEditing ProfilePage.isSavingProfile ProfilePage.profileSaved
       ProfilePage.sent ProfilePage.timers] in *. subst pr en.
  unfold ProfilePage.handleSaveProfile, mbind at 1, M_bind at 1, get_state.
  cbn [fst snd ProfilePage.profile ProfilePage.editedName ProfilePage.editedBio
       truthy negb trim_of].
  unfold mbind at 1, M_bind at 1, ProfilePage.setIsSavingProfile, set_state.
  cbn [fst snd]. unfold mbind at 1, M_bind at 1, eval.
  unfold mbind at 1, M_bind at 1.
  assert (Hname : ∀ w : ProfilePage.world,
    match trim e with
    | [] => eval (get_prop (VObj ps) (js "name"))
    | _ :: _ => mret (VStr (trim e))
    end w = (Returns name, w)).
  { intros w. unfold name. by destruct (trim e). }
  rewrite Hname. cbn [own_props]. cbv zeta. fold updated.
  generalize (JSON.stringify updated). clearbody updated. intros text.
  generalize (API_BASE ++ js "/api/update-profile"). intros address.
  destruct fetched;
    cbv beta iota zeta delta
      [try_finally try_catch ProfilePage.fetch mbind M_bind eval mret M_ret
       ProfilePage.setProfile ProfilePage.setIsEditing ProfilePage.setProfileSaved
       ProfilePage.setTimeout ProfilePage.setIsSavingProfile set_state in_store
       localStorage.setItem fst snd
       ProfilePage.profile ProfilePage.editedName ProfilePage.editedBio
       ProfilePage.isEditing ProfilePage.isSavingProfile ProfilePage.profileSaved
       ProfilePage.sent ProfilePage.timers];
    reflexivity.
Qed.

Lemma load_stored_run st ls ps :
  getStoredUser ls = (Returns (VObj ps), ls) →
  ProfilePage.load (st, ls) =
  (Returns (),
   ({| ProfilePage.profile := VObj ps;
       ProfilePage.editedName := lookup_prop (js "name") ps;
       ProfilePage.editedBio := js_or (lookup_prop (js "bio") ps) (VStr []);
       ProfilePage.isEditing := ProfilePage.isEditing st;
       ProfilePage.isSavingProfile := ProfilePage.isSavingProfile st;
       ProfilePage.profileSaved := ProfilePage.profileSaved st;
       ProfilePage.sent := ProfilePage.sent st;
       ProfilePage.timers := ProfilePage.timers st |}, ls)).
Proof.
  intros Hstored. destruct st as [pr en eb ie isp psv snt tm].
  unfold ProfilePage.load, mbind at 1, M_bind at 1, in_store. cbn [fst snd].
  rewrite Hstored.
  cbv beta iota zeta delta
    [truthy mbind M_bind eval get_prop ProfilePage.setProfile ProfilePage.setEditedName
     ProfilePage.setEditedBio set_state fst snd
     ProfilePage.profile ProfilePage.editedName ProfilePage.editedBio
     ProfilePage.isEditing ProfilePage.isSavingProfile ProfilePage.profileSaved
     ProfilePage.sent ProfilePage.timers].
  reflexivity.
Qed.

(** X21. An edit of the profile is kept in the browser whether or not
    the server can be reached. For a page that holds a profile and
    whose inputs hold the texts [e] and [b], [handleSaveProfile] returns
    with the saving flag down and the editing mode left, after one POST
    request; the profile of the page is the old one with the bio [b]
    and with the name [e] without the white space around it, the old
    name when nothing is left; the same profile is stored for the user,
    so that [getStoredUser] returns it, as JSON keeps it, and a page
    that is mounted afterwards shows it; the saved mark is set only when
    the request went through. [getStoredUser] itself
    never throws: it returns [null] for a text that is not JSON. *)
Theorem handleSaveProfile_keeps_edit st ls ps e b fetched :
  ProfilePage.profile st = VObj ps → wf (VObj ps) = true →
  ProfilePage.editedName st = VStr e → ProfilePage.editedBio st = VStr b →
  ∃ name st' ls',
    ProfilePage.handleSaveProfile fetched (st, ls) = (Returns (), (st', ls')) ∧
    (trim e ≠ [] → name = VStr (trim e)) ∧
    (trim e = [] → name = lookup_prop (js "name") ps) ∧
    ProfilePage.profile st' =
      VObj (set_prop (js "bio") (VStr b) (set_prop (js "name") name ps)) ∧
    getStoredUser ls' =
      (Returns (VObj (jprops (set_prop (js "bio") (VStr b)
                                (set_prop (js "name") name ps)))), ls') ∧
    ProfilePage.isEditing st' = false ∧ ProfilePage.isSavingProfile st' = false ∧
    ProfilePage.profileSaved st' = (if fetched then true else ProfilePage.profileSaved st) ∧
    ProfilePage.sent st' = ProfilePage.sent st ++
      [{| method := js "POST"; url := API_BASE ++ js "/api/update-profile";
          body := JSON.stringify (ProfilePage.profile st') |}] ∧
    (∀ st0, ∃ st1,
       ProfilePage.load (st0, ls') = (Returns (), (st1, ls')) ∧
       ProfilePage.profile st1 =
         VObj (jprops (set_prop (js "bio") (VStr b) (set_prop (js "name") name ps)))) ∧
    (∀ k, k ≠ USER_KEY → ls' !! k = ls !! k) ∧
    (∀ ls0, malformed USER_KEY ls0 → getStoredUser ls0 = (Returns VNull, ls0)).
Proof.
  intros Hp Hwf He Hb.
  pose proof (handleSaveProfile_run st ls ps e fetched Hp He) as Hrun.
  cbv zeta in Hrun. rewrite Hb in Hrun.
  set (name := match trim e with [] => lookup_prop (js "name") ps | _ => VStr (trim e) end)
    in *.
  set (props := set_prop (js "bio") (VStr b) (set_prop (js "name") name ps)) in *.
  assert (Hwf_name : wf name = true).
  { unfold name. destruct (trim e); [|done]. apply wf_lookup_prop.
    by apply wf_obj in Hwf as [_ ?]. }
  assert (Hwf' : wf (VObj props) = true).
  { apply wf_set_prop; [done|]. by apply wf_set_prop. }
  assert (Hstored :
    getStoredUser (<[USER_KEY := JSON.stringify (VObj props)]> ls) =
    (Returns (VObj (jprops props)), <[USER_KEY := JSON.stringify (VObj props)]> ls)).
  { rewrite getStoredUser_unfold, lookup_insert_eq.
    destruct (stringify_obj_parse props (VObj (jprops props)) Hwf' eq_refl)
      as (c & r & -> & Hparse).
    unfold JSON_parse in Hparse. by destruct (JSON.parse (c :: r)); simplify_eq. }
  eexists name, _, _. split; [exact Hrun|].
  cbn [ProfilePage.profile ProfilePage.isEditing ProfilePage.isSavingProfile
       ProfilePage.profileSaved ProfilePage.sent].
  split_and!; try done.
  - intros Ht. unfold name. by destruct (trim e).
  - intros Ht. unfold name. by rewrite Ht.
  - intros st0. eexists. split; [by apply load_stored_run|]. done.
  - intros k Hk. by rewrite lookup_insert_ne.
  - intros ls0 (c & r & Hraw & Hparse). by rewrite getStoredUser_unfold, Hraw, Hparse.
Qed.

Lemma handleSaveProfile_keeps_edit_witness :
  ProfilePage.profile sample_profile_page = VObj sample_profile ∧
  wf (VObj sample_profile) = true ∧
  ∃ st' ls',
    ProfilePage.handleSaveProfile false (sample_profile_page, ∅)
      = (Returns (), (st', ls')) ∧
    getStoredUser ls' =
      (Returns (VObj [(js "name", VStr (js "Ada L."));
                      (js "email", VStr (js "ada@example.com"));
                      (js "bio", VStr (js "Engines"))]), ls').
Proof.
  assert (Hwf : wf (VObj sample_profile) = true) by reflexivity.
  split_and!; [reflexivity | exact Hwf |].
  destruct (handleSaveProfile_keeps_edit sample_profile_page ∅ sample_profile
              (js " Ada L. ") (js "Engines") false eq_refl Hwf eq_refl eq_refl)
    as (name & st' & ls' & Hrun & Hname & _ & _ & Hget & _).
  exists st', ls'. split; [exact Hrun|].
  rewrite Hget, Hname by (by vm_compute). by vm_compute.
Defined.

Section local_profile.
Import LocalProfilePage.

Lemma load_profile_run st ls data snippets :
  mockAuth.getProfile ls = (Returns data, ls) →
  mockDb.getSavedSnippets ls = (Returns snippets, ls) →
  truthy data = true →
  load (st, ls) =
  match get_prop data (js "name"), get_prop data (js "bio") with
  | Returns name, Returns bio =>
      (Returns (),
       ({| profile := data; savedSnippets := snippets; isEditing := isEditing st;
           editedName := name; editedBio := bio |}, ls))
  | _, _ => (Throws TypeError, ({| profile := data; savedSnippets := savedSnippets st;
                                   isEditing := isEditing st;
                                   editedName := editedName st;
                                   editedBio := editedBio st |}, ls))
  end.
Proof.
  intros Hp Hs Ht. destruct st as [pr sn ie en eb].
  unfold load, mbind at 1, M_bind at 1, in_store. cbn [fst snd]. rewrite Hp.
  cbn [fst snd]. rewrite Ht.
  unfold mbind, M_bind, setProfile, setEditedName, setEditedBio, setSavedSnippets,
    set_state, eval, in_store. cbn [fst snd].
  destruct data; try done; cbn [get_prop fst snd]; by rewrite Hs.
Qed.

Lemma handleSaveProfile_local_run st ls ps :
  profile st = VObj ps →
  let updated :=
    VObj (set_prop (js "bio") (editedBio st)
            (set_prop (js "name") (editedName st) ps)) in
  handleSaveProfile (st, ls) =
  (Returns (),
   ({| profile := updated; savedSnippets := savedSnippets st; isEditing := false;
       editedName := editedName st; editedBio := editedBio st |},
    <[USER_PROFILE_DETAILS := JSON.stringify updated]> ls)).
Proof.
  intros Hp. destruct st as [pr sn ie en eb].
  cbn [profile savedSnippets editedBio editedName] in *. subst pr.
  unfold handleSaveProfile, mbind at 1, M_bind at 1, get_state.
  cbn [fst snd profile truthy editedBio editedName own_props]. cbv zeta.
  generalize (VObj (set_prop (js "bio") eb (set_prop (js "name") en ps))).
  intros updated.
  cbv beta iota zeta delta
    [mbind M_bind in_store mockAuth.updateProfile localStorage.setItem setProfile
     setIsEditing set_state fst snd profile savedSnippets isEditing editedName
     editedBio].
  reflexivity.
Qed.

(** X22. The profile in the browser, from the login to a reload. After
    [login], the profile page loads the profile of the login and the
    library; when the name and the bio are then edited and saved, a
    reload shows the profile with the new name and the new bio, and
    with the address and the date of the login; the name that
    [getUserName] returns is still the name of the login. *)
Theorem edit_profile_round_trip st0 st1 ls h s today userName userEmail name bio :
  holds ls h s →
  ∃ ls1 st2 st3 ls3 st4,
    mockAuth.login today userName (Some userEmail) ls = (Returns (), ls1) ∧
    load (st0, ls1) = (Returns (), (st2, ls1)) ∧
    profile st2 =
      VObj [(js "name", VStr userName); (js "email", VStr userEmail);
            (js "joinDate", VStr today);
            (js "bio", VStr (js "Ready to optimize some Python code!"))] ∧
    editedName st2 = VStr userName ∧
    savedSnippets st2 = VArr s ∧
    (setEditedName (VStr name);; setEditedBio (VStr bio);; handleSaveProfile) (st2, ls1)
      = (Returns (), (st3, ls3)) ∧
    isEditing st3 = false ∧
    load (st1, ls3) = (Returns (), (st4, ls3)) ∧
    profile st4 =
      VObj [(js "name", VStr name); (js "email", VStr userEmail);
            (js "joinDate", VStr today); (js "bio", VStr bio)] ∧
    profile st3 = profile st4 ∧
    editedName st4 = VStr name ∧ editedBio st4 = VStr bio ∧
    savedSnippets st4 = VArr s ∧
    mockAuth.getUserName ls3 = (Returns (Some userName), ls3).
Proof.
  intros Hst.
  destruct account_keys_differ as (Hk1 & Hk2 & Hk3 & Hk4 & Hk5 & _).
  destruct (login_writes today userName (Some userEmail) ls)
    as (ls1 & Hlogin & Hname & Hprofile & Hframe).
  cbn [default from_option id] in Hprofile.
  pose proof (holds_frame _ _ _ _ Hframe Hst) as Hst1.
  set (first := [(js "name", VStr userName); (js "email", VStr userEmail);
                 (js "joinDate", VStr today);
                 (js "bio", VStr (js "Ready to optimize some Python code!"))]) in *.
  set (edited := [(js "name", VStr name); (js "email", VStr userEmail);
                  (js "joinDate", VStr today); (js "bio", VStr bio)]).
  assert (Hedit : set_prop (js "bio") (VStr bio) (set_prop (js "name") (VStr name) first)
                  = edited) by (by vm_compute).
  assert (Hprofile3 :
    mockAuth.getProfile (<[USER_PROFILE_DETAILS := JSON.stringify (VObj edited)]> ls1) =
    (Returns (VObj edited), <[USER_PROFILE_DETAILS := JSON.stringify (VObj edited)]> ls1)).
  { rewrite getProfile_unfold, lookup_insert_eq.
    destruct (stringify_obj_parse edited (VObj edited)) as (c & r & -> & ->);
      [by vm_compute | by vm_compute | done]. }
  assert (Hst3 : holds (<[USER_PROFILE_DETAILS := JSON.stringify (VObj edited)]> ls1) h s).
  { revert Hst1. apply holds_other_keys; by rewrite lookup_insert_ne. }
  assert (Hname3 :
    (<[USER_PROFILE_DETAILS := JSON.stringify (VObj edited)]> ls1) !! CURRENT_USER_NAME
    = Some userName) by (by rewrite lookup_insert_ne).
  pose proof (load_profile_run st0 ls1 _ _ Hprofile (run_getSavedSnippets _ _ _ Hst1) eq_refl)
    as Hload1.
  pose proof (load_profile_run st1 _ _ _ Hprofile3 (run_getSavedSnippets _ _ _ Hst3) eq_refl)
    as Hload3.
  cbn [get_prop] in Hload1, Hload3.
  change (lookup_prop (js "name") first) with (VStr userName) in Hload1.
  change (lookup_prop (js "name") edited) with (VStr name) in Hload3.
  change (lookup_prop (js "bio") edited) with (VStr bio) in Hload3.
  change (lookup_prop (js "bio") first)
    with (VStr (js "Ready to optimize some Python code!")) in Hload1.
  pose proof (handleSaveProfile_local_run
                {| profile := VObj first; savedSnippets := VArr s;
                   isEditing := isEditing st0; editedName := VStr name;
                   editedBio := VStr bio |} ls1 first eq_refl) as Hsave.
  cbv zeta in Hsave. cbn [editedBio editedName savedSnippets] in Hsave.
  rewrite Hedit in Hsave.
  clearbody edited first.
  eexists ls1, _, _, _, _. split; [exact Hlogin|]. split; [exact Hload1|].
  cbn [profile editedName savedSnippets]. split; [done|]. split; [done|]. split; [done|].
  split.
  { unfold mbind, M_bind, setEditedName, setEditedBio, set_state.
    cbn [fst snd profile savedSnippets isEditing editedName editedBio]. exact Hsave. }
  cbn [isEditing]. split; [done|]. split; [exact Hload3|].
  cbn [profile editedName editedBio savedSnippets]. split_and!; try done.
  unfold mockAuth.getUserName, localStorage.getItem. by rewrite Hname3.
Qed.

Lemma edit_profile_round_trip_witness :
  holds sample_store sample_history sample_library ∧
  ∃ ls1 st2 st3 ls3 st4,
    mockAuth.login (js "1/2/2026") (js "Ada") (Some (js "ada@example.com")) sample_store
      = (Returns (), ls1) ∧
    LocalProfilePage.load (sample_profile_list, ls1) = (Returns (), (st2, ls1)) ∧
    (LocalProfilePage.setEditedName (VStr (js "Ada L."));;
     LocalProfilePage.setEditedBio (VStr (js "Engines"));;
     LocalProfilePage.handleSaveProfile) (st2, ls1) = (Returns (), (st3, ls3)) ∧
    LocalProfilePage.load (sample_profile_list, ls3) = (Returns (), (st4, ls3)) ∧
    LocalProfilePage.profile st4 =
      VObj [(js "name", VStr (js "Ada L.")); (js "email", VStr (js "ada@example.com"));
            (js "joinDate", VStr (js "1/2/2026")); (js "bio", VStr (js "Engines"))] ∧
    mockAuth.getUserName ls3 = (Returns (Some (js "Ada")), ls3).
Proof.
  assert (H : holds sample_store sample_history sample_library)
    by holds_by_computation.
  split; [exact H|].
  destruct (edit_profile_round_trip sample_profile_list sample_profile_list _ _ _
              (js "1/2/2026") (js "Ada") (js "ada@example.com") (js "Ada L.")
              (js "Engines") H)
    as (ls1 & st2 & st3 & ls3 & st4 & Hlogin & Hload & _ & _ & _ & Hsave & _ & Hreload
        & Hprofile & _ & _ & _ & _ & Hname).
  exists ls1, st2, st3, ls3, st4.
  split_and!; [exact Hlogin | exact Hload | exact Hsave | exact Hreload | exact Hprofile
              | exact Hname].
Defined.

(** X23. Deleting an entry on the profile page. For every store that
    holds a history and a library of records with canonical numbers
    (the delete writes both anew, and the engine then writes each
    number as it read it), [handleDeleteSnippet] returns; the
    page then lists the library of the store, which has lost the
    records of the id and kept the others in their order; the history
    has lost the records of that id as well. *)
Theorem handleDeleteSnippet_lists st ls h s id :
  holds ls h s → canonical (VArr (h ++ s)) = true →
  ∃ st' ls' h' s',
    handleDeleteSnippet id (st, ls) = (Returns (), (st', ls')) ∧
    holds ls' h' s' ∧
    savedSnippets st' = VArr s' ∧
    (s' `sublist_of` s) ∧ (h' `sublist_of` h) ∧
    (∀ r, r ∈ s' ↔ r ∈ s ∧ ¬ has_id id r) ∧
    (∀ r, r ∈ h' ↔ r ∈ h ∧ ¬ has_id id r) ∧
    profile st' = profile st.
Proof.
  intros Hst _. pose proof Hst as (_ & _ & Hrh & Hrs).
  destruct (holds_json _ _ _ Hst) as [Hjh Hjs].
  destruct (deleteSnippet_writes _ _ _ id Hst) as (h' & s' & Hrun & Hfh & Hfs & Hst').
  destruct (filter_other_id id s Hrs Hjs) as (s2 & Hfs2 & _ & _ & Hin_s & _).
  destruct (filter_other_id id h Hrh Hjh) as (h2 & Hfh2 & _ & _ & Hin_h & _).
  assert (s2 = s') as -> by congruence. assert (h2 = h') as -> by congruence.
  eexists _, _, h', s'. split_and!.
  - unfold handleDeleteSnippet, mbind, M_bind, in_store, setSavedSnippets, set_state.
    cbn [fst snd]. rewrite Hrun. cbn [fst snd].
    rewrite (run_getSavedSnippets _ _ _ Hst'). reflexivity.
  - done.
  - reflexivity.
  - by eapply filter_list_sublist.
  - by eapply filter_list_sublist.
  - done.
  - done.
  - reflexivity.
Qed.

Lemma handleDeleteSnippet_lists_witness :
  holds sample_store sample_history sample_library ∧
  canonical (VArr (sample_history ++ sample_library)) = true ∧
  ∃ st' ls' h',
    LocalProfilePage.handleDeleteSnippet (js "k9x") (sample_profile_list, sample_store)
      = (Returns (), (st', ls')) ∧
    LocalProfilePage.savedSnippets st' = VArr [] ∧
    holds ls' h' [].
Proof.
  assert (H : holds sample_store sample_history sample_library)
    by holds_by_computation.
  assert (Hc : canonical (VArr (sample_history ++ sample_library)) = true)
    by reflexivity.
  split_and!; [exact H | exact Hc |].
  destruct (handleDeleteSnippet_lists sample_profile_list _ _ _ (js "k9x") H Hc)
    as (st' & ls' & h' & s' & Hrun & Hst & Hlist & _ & _ & Hin & _).
  assert (s' = []) as ->.
  { destruct s' as [|r s']; [done|]. destruct (proj1 (Hin r)) as [Hr Hid]; [by left|].
    apply list_elem_of_singleton in Hr as ->. destruct Hid. reflexivity. }
  exists st', ls', h'. split_and!; [exact Hrun | exact Hlist | exact Hst].
Defined.

End local_profile.
